(** * rego: shallow embedding of the Backupify, Okta and Google clients

    The development follows the Go sources file by file:

    - [GoStrings], [Fmt], [Float64], [Strconv]: the parts of Go's standard
      library the sources call ([strings.Index], [strings.Trim],
      [fmt.Sprintf] with the [%s] verb, [float64] arithmetic,
      [strconv.ParseFloat]);
    - [Okta]: [pkg/okta/okta.go], [NewClient];
    - [Backupify]: [pkg/backupify/users.go], [GetAllUsers] and
      [convertUserBytes];
    - [Google]: [pkg/google/google.go], [NewClient] and [GenerateJWT].

    Go strings are byte strings, here [string] of the standard library
    (a list of 8-bit characters).  Go [int] is the 64-bit signed integer,
    here [Z] with the wrap-around written out. *)

From Stdlib Require Import ZArith Lia Bool List Ascii String DecimalString.
From Stdlib Require Import Floats.SpecFloat.
From stdpp Require Import gmap strings list fin_maps.

Local Open Scope string_scope.
Local Open Scope Z_scope.

(** ** Go's [strings] package *)

Module GoStrings.

(** [len(s)] as a Go [int]. *)
Definition len (s : string) : Z := Z.of_nat (String.length s).

(** [s[n:]] and [s[:n]] for an index already known to be in range. *)
Fixpoint drop (n : nat) (s : string) : string :=
  match n, s with
  | O, _ => s
  | S n', String _ r => drop n' r
  | S _, EmptyString => EmptyString
  end.

Fixpoint take (n : nat) (s : string) : string :=
  match n, s with
  | O, _ => EmptyString
  | S n', String c r => String c (take n' r)
  | S _, EmptyString => EmptyString
  end.

(** The slice expression [s[:i]]: a run-time panic when [i] is out of
    range, [None] here. *)
Definition slice_to (s : string) (i : Z) : option string :=
  if (0 <=? i) && (i <=? len s) then Some (take (Z.to_nat i) s) else None.

(** [strings.HasPrefix]. *)
Fixpoint HasPrefix (s prefix : string) {struct prefix} : bool :=
  match prefix, s with
  | EmptyString, _ => true
  | String _ _, EmptyString => false
  | String p ps, String c cs => Ascii.eqb c p && HasPrefix cs ps
  end.

(** [strings.HasSuffix]:
    [len(s) >= len(suffix) && s[len(s)-len(suffix):] == suffix]. *)
Definition HasSuffix (s suffix : string) : bool :=
  (String.length suffix <=? String.length s)%nat
  && String.eqb (drop (String.length s - String.length suffix) s) suffix.

(** [strings.TrimPrefix] and [strings.TrimSuffix]. *)
Definition TrimPrefix (s prefix : string) : string :=
  if HasPrefix s prefix then drop (String.length prefix) s else s.

Definition TrimSuffix (s suffix : string) : string :=
  if HasSuffix s suffix
  then take (String.length s - String.length suffix) s
  else s.

(** Membership of a byte in an ASCII cutset. *)
Fixpoint in_cutset (c : ascii) (cutset : string) : bool :=
  match cutset with
  | EmptyString => false
  | String d r => Ascii.eqb c d || in_cutset c r
  end.

(** [strings.TrimLeft], [strings.TrimRight] and [strings.Trim] for an
    ASCII cutset (Go then works byte by byte). *)
Fixpoint TrimLeft (s cutset : string) : string :=
  match s with
  | EmptyString => EmptyString
  | String c r => if in_cutset c cutset then TrimLeft r cutset else s
  end.

Fixpoint TrimRight (s cutset : string) : string :=
  match s with
  | EmptyString => EmptyString
  | String c r =>
      match TrimRight r cutset with
      | EmptyString => if in_cutset c cutset then EmptyString
                       else String c EmptyString
      | r' => String c r'
      end
  end.

Definition Trim (s cutset : string) : string :=
  TrimLeft (TrimRight s cutset) cutset.

(** [strings.Index]: the byte offset of the first occurrence of [substr]
    in [s], or [-1]. *)
Fixpoint Index_from (i : Z) (s substr : string) : Z :=
  if HasPrefix s substr then i
  else match s with
       | EmptyString => -1
       | String _ r => Index_from (i + 1) r substr
       end.

Definition Index (s substr : string) : Z := Index_from 0 s substr.

(** [strings.Contains]: [Index(s, substr) >= 0]. *)
Definition Contains (s substr : string) : bool := 0 <=? Index s substr.

End GoStrings.

(** ** Go's [fmt.Sprintf], for the [%s] verb on string operands

    The sources format with [%s] only.  A missing operand prints
    [%!s(MISSING)], operands left over print [%!(EXTRA ...)]. *)

Module Fmt.

Fixpoint extra_list (args : list string) : string :=
  match args with
  | [] => ""
  | [a] => "string=" ++ a
  | a :: rest => "string=" ++ a ++ ", " ++ extra_list rest
  end.

Fixpoint Sprintf (format : string) (args : list string) : string :=
  match format with
  | EmptyString =>
      match args with
      | [] => ""
      | _ => "%!(EXTRA " ++ extra_list args ++ ")"
      end
  | String "%" (String "s" rest) =>
      match args with
      | a :: args' => a ++ Sprintf rest args'
      | [] => "%!s(MISSING)" ++ Sprintf rest []
      end
  | String c rest => String c (Sprintf rest args)
  end.

(** A format or operand without a percent sign: plain text to [Sprintf]. *)
Fixpoint plain (s : string) : bool :=
  match s with
  | EmptyString => true
  | String c rest => negb (Ascii.eqb c "%") && plain rest
  end.

(** The identifiers of a URL, each after a slash. *)
Fixpoint segments (identifiers : list string) : string :=
  match identifiers with
  | [] => ""
  | id :: rest => "/" ++ id ++ segments rest
  end.

End Fmt.

(** ** [pkg/okta/okta.go] *)

Module Okta.
Import GoStrings.

(** [var BaseURL = fmt.Sprintf("https://%s.%s.com/api/v1", "%s", "%s")] *)
Definition BaseURL : string :=
  Fmt.Sprintf "https://%s.%s.com/api/v1" ["%s"; "%s"].

(** The fields [NewClient] fills in.  [HTTPClient] is built by
    [requests.NewClient(nil, headers, rl)]: the headers and the rate
    limiter's [UsesReset] flag are what this file decides. *)
Record Client := {
  ClientBaseURL : string;
  Headers : list (string * string);
  UsesReset : bool;
  LoggerName : string;
  Verbosity : Z
}.

Section NewClient.
(** [config.GetEnv(key, fallback)]: the environment lookup of
    [pkg/common/config], taken as given. *)
Variable GetEnv : string -> string -> string.

Definition NewClient (verbosity : Z) : Client :=
  let org_name := GetEnv "OKTA_ORG_NAME" "yourOktaDomain" in
  let org_name := TrimPrefix org_name "https://" in
  let org_name := TrimPrefix org_name "http://" in
  let org_name := TrimSuffix org_name ".okta.com" in
  let base := GetEnv "OKTA_BASE_URL" "okta.com" in
  let base := Trim base "./" in
  let base := TrimSuffix base ".com" in
  let token := GetEnv "OKTA_API_TOKEN" "oktaApiKey" in
  let BaseURL := Fmt.Sprintf BaseURL [org_name; base] in
  let headers := [("Authorization", "SSWS " ++ token);
                  ("Accept", "application/json");
                  ("Content-Type", "application/json")] in
  {| ClientBaseURL := BaseURL;
     Headers := headers;
     UsesReset := true;
     LoggerName := "{okta}";
     Verbosity := verbosity |}.
End NewClient.

(** The endpoint templates. *)
Definition OktaApps : string := "%s/apps".
Definition OktaGroups : string := "%s/groups".
Definition OktaGroupRules : string := "%s/groups/rules".
Definition OktaDevices : string := "%s/devices".
Definition OktaUsers : string := "%s/users".
Definition OktaIAM : string := "%s/iam".
Definition OktaRoles : string := "%s/iam/roles".

Definition endpoints : list string :=
  [OktaApps; OktaGroups; OktaGroupRules; OktaDevices; OktaUsers; OktaIAM;
   OktaRoles].

(** [BuildURL]: the endpoint formatted with the base URL, then one
    [Sprintf("%s/%s", url, id)] per identifier. *)
Definition BuildURL (c : Client) (endpoint : string)
    (identifiers : list string) : string :=
  fold_left (fun url id => Fmt.Sprintf "%s/%s" [url; id]) identifiers
    (Fmt.Sprintf endpoint [ClientBaseURL c]).

(** An organisation name that carries none of the decorations
    [NewClient] strips. *)
Definition bare_org (o : string) : Prop :=
  HasPrefix o "https://" = false /\
  HasPrefix o "http://" = false /\
  HasSuffix o ".okta.com" = false.

(** A base domain that carries none of the decorations [NewClient]
    strips. *)
Definition bare_base (b : string) : Prop :=
  b <> "" /\ Trim b "./" = b /\ HasSuffix b ".com" = false.

(** A string made of cutset bytes only. *)
Fixpoint all_in_cutset (s cutset : string) : bool :=
  match s with
  | EmptyString => true
  | String c r => in_cutset c cutset && all_in_cutset r cutset
  end.

(** A sample environment: the organisation and the base domain both
    given as URLs, no token set. *)
Definition sample_GetEnv (key fallback : string) : string :=
  if String.eqb key "OKTA_ORG_NAME" then "https://acme.okta.com"
  else if String.eqb key "OKTA_BASE_URL" then "/okta.com/"
  else fallback.

End Okta.

(** ** Go's [float64]

    IEEE 754 binary64 through the standard library's executable
    specification [spec_float]: 53 bits of precision, exponent bound 1024,
    round to nearest even. *)

Module Float64.

Definition float64 : Type := spec_float.

Definition prec : Z := 53.
Definition emax : Z := 1024.

(** The conversion [float64(n)] of an integer, rounded to nearest even. *)
Definition of_Z (n : Z) : float64 := binary_normalize prec emax n 0 false.

(** [x * y] on [float64]. *)
Definition mul (x y : float64) : float64 := SFmul prec emax x y.

(** [x > y] on [float64] (false when either side is NaN). *)
Definition gtb (x y : float64) : bool := SFltb y x.

(** The zero value of a [float64] variable or field. *)
Definition zero : float64 := S754_zero false.

(** [m / d] for positive integers [m] and [d], rounded once. *)
Definition div_pos (neg : bool) (m d : positive) : float64 :=
  SFdiv prec emax (S754_finite neg m 0) (S754_finite false d 0).

(** [m * 2^e] for an integer [m], rounded once. *)
Definition ldexp (neg : bool) (m e : Z) : float64 :=
  match m with
  | Zpos p => binary_round prec emax neg p e
  | _ => S754_zero neg
  end.

Definition is_inf (x : float64) : bool :=
  match x with S754_infinity _ => true | _ => false end.

End Float64.

(** ** Go's [strconv.ParseFloat(s, 64)]

    The accepted syntax follows [strconv]'s [special] and [readFloat]:
    an optional sign, then [inf], [infinity] or (unsigned) [nan] in any
    case, or a decimal mantissa with an optional [e] exponent, or a
    [0x] hexadecimal mantissa with a mandatory [p] exponent; underscores
    are accepted where [underscoreOK] allows them.  The whole string must
    be consumed.  The value is the nearest [float64] (ties to even); a
    value that rounds to an infinity is reported with [ErrRange]. *)

Module Strconv.
Import Float64.

Inductive NumErr := ErrSyntax | ErrRange.

(** [*strconv.NumError]: the function, the input and the cause. *)
Record NumError := { Func : string; Num : string; Err : NumErr }.

Definition lower (c : ascii) : ascii :=
  let n := N_of_ascii c in
  if ((65 <=? n) && (n <=? 90))%N then ascii_of_N (n + 32) else c.

Definition is_digit (c : ascii) : bool :=
  let n := N_of_ascii c in ((48 <=? n) && (n <=? 57))%N.

(** The value of a digit in the given base, [None] for other bytes. *)
Definition digit_val (hex : bool) (c : ascii) : option Z :=
  let n := N_of_ascii c in
  if is_digit c then Some (Z.of_N n - 48)
  else if hex then
    let l := N_of_ascii (lower c) in
    if ((97 <=? l) && (l <=? 102))%N then Some (Z.of_N l - 87) else None
  else None.

(** [commonPrefixLenIgnoreCase(s, prefix)], [prefix] in lower case. *)
Fixpoint commonPrefixLenIgnoreCase (s prefix : string) : nat :=
  match s, prefix with
  | String c cs, String p ps =>
      if Ascii.eqb (lower c) p then S (commonPrefixLenIgnoreCase cs ps)
      else O
  | _, _ => O
  end.

(** [special]: the value and the number of bytes consumed. *)
Definition special (s : string) : option (float64 * nat) :=
  let inf (sign : bool) (nsign : nat) (t : string) :=
    let n := commonPrefixLenIgnoreCase t "infinity" in
    let n := if ((3 <? n) && (n <? 8))%nat then 3%nat else n in
    if ((n =? 3) || (n =? 8))%nat
    then Some (S754_infinity sign, (nsign + n)%nat) else None in
  match s with
  | EmptyString => None
  | String c t =>
      if Ascii.eqb c "+" then inf false 1%nat t
      else if Ascii.eqb c "-" then inf true 1%nat t
      else if Ascii.eqb (lower c) "i" then inf false 0%nat s
      else if Ascii.eqb (lower c) "n" then
        if (commonPrefixLenIgnoreCase s "nan" =? 3)%nat
        then Some (S754_nan, 3%nat) else None
      else None
  end.

(** The state of [readFloat]'s mantissa loop: the digits read so far as
    an integer, how many of them follow the point, and the flags. *)
Record mantissa := {
  digits : Z;
  fraction : Z;
  sawdot : bool;
  sawdigits : bool;
  underscores : bool
}.

Definition mantissa0 : mantissa :=
  {| digits := 0; fraction := 0; sawdot := false; sawdigits := false;
     underscores := false |}.

Fixpoint read_mantissa (hex : bool) (s : string) (st : mantissa)
  : mantissa * string :=
  match s with
  | EmptyString => (st, s)
  | String c rest =>
      if Ascii.eqb c "_" then
        read_mantissa hex rest
          {| digits := digits st; fraction := fraction st;
             sawdot := sawdot st; sawdigits := sawdigits st;
             underscores := true |}
      else if Ascii.eqb c "." then
        if sawdot st then (st, s)
        else read_mantissa hex rest
               {| digits := digits st; fraction := fraction st;
                  sawdot := true; sawdigits := sawdigits st;
                  underscores := underscores st |}
      else match digit_val hex c with
           | Some d =>
               read_mantissa hex rest
                 {| digits := digits st * (if hex then 16 else 10) + d;
                    fraction := if sawdot st then fraction st + 1
                                else fraction st;
                    sawdot := sawdot st; sawdigits := true;
                    underscores := underscores st |}
           | None => (st, s)
           end
  end.

(** The exponent digits: [e] stops growing once it has reached 10000. *)
Fixpoint read_exponent (s : string) (e : Z) (under : bool)
  : Z * bool * string :=
  match s with
  | EmptyString => (e, under, s)
  | String c rest =>
      if Ascii.eqb c "_" then read_exponent rest e true
      else if is_digit c then
        read_exponent rest
          (if e <? 10000 then e * 10 + (Z.of_N (N_of_ascii c) - 48) else e)
          under
      else (e, under, s)
  end.

(** [underscoreOK]: underscores only between digits, or right after a
    base prefix.  [saw] is the last byte class seen. *)
Inductive saw_class := SawStart | SawDigit | SawUnderscore | SawOther.

Fixpoint underscore_scan (hex : bool) (saw : saw_class) (s : string)
  : bool :=
  match s with
  | EmptyString => match saw with SawUnderscore => false | _ => true end
  | String c rest =>
      if match digit_val hex c with Some _ => true | None => false end
      then underscore_scan hex SawDigit rest
      else if Ascii.eqb c "_" then
        match saw with
        | SawDigit => underscore_scan hex SawUnderscore rest
        | _ => false
        end
      else match saw with
           | SawUnderscore => false
           | _ => underscore_scan hex SawOther rest
           end
  end.

Definition underscoreOK (s : string) : bool :=
  let s := match s with
           | String c t =>
               if Ascii.eqb c "-" || Ascii.eqb c "+" then t else s
           | EmptyString => s
           end in
  match s with
  | String "0" (String x t) =>
      let l := lower x in
      if Ascii.eqb l "b" || Ascii.eqb l "o" || Ascii.eqb l "x"
      then underscore_scan (Ascii.eqb l "x") SawDigit t
      else underscore_scan false SawStart s
  | _ => underscore_scan false SawStart s
  end.

(** What [readFloat] hands back: sign, base, mantissa digits, exponent
    of the base (10, or 2 for a hexadecimal mantissa), and the bytes
    left unread. *)
Record parsed := {
  neg : bool;
  hex : bool;
  mant : Z;
  exp : Z;
  rest : string
}.

Definition readFloat (s : string) : option parsed :=
  let '(neg, t) :=
    match s with
    | String c r =>
        if Ascii.eqb c "+" then (false, r)
        else if Ascii.eqb c "-" then (true, r)
        else (false, s)
    | EmptyString => (false, s)
    end in
  let '(hex, t) :=
    match t with
    | String "0" (String x (String y r)) =>
        if Ascii.eqb (lower x) "x" then (true, String y r) else (false, t)
    | _ => (false, t)
    end in
  let '(st, t) := read_mantissa hex t mantissa0 in
  if negb (sawdigits st) then None
  else
    let dp := - (fraction st) * (if hex then 4 else 1) in
    let expChar : ascii := if hex then "p"%char else "e"%char in
    let finish (e : Z) (under : bool) (t : string) :=
      if under && negb (underscoreOK (GoStrings.take
            (String.length s - String.length t) s))
      then None
      else Some {| neg := neg; hex := hex; mant := digits st;
                   exp := dp + e; rest := t |} in
    match t with
    | String c r =>
        if Ascii.eqb (lower c) expChar then
          match r with
          | EmptyString => None
          | String d r' =>
              let '(esign, u) :=
                if Ascii.eqb d "+" then (1, r')
                else if Ascii.eqb d "-" then (-1, r')
                else (1, r) in
              match u with
              | String d' _ =>
                  if is_digit d' then
                    let '(e, under, t') :=
                      read_exponent u 0 (underscores st) in
                    finish (e * esign) under t'
                  else None
              | EmptyString => None
              end
          end
        else if hex then None
        else finish 0 (underscores st) t
    | EmptyString =>
        if hex then None else finish 0 (underscores st) t
    end.

(** The nearest [float64] to [mant * 10^exp] or [mant * 2^exp]. *)
Definition to_float64 (p : parsed) : float64 :=
  if hex p then ldexp (neg p) (mant p) (exp p)
  else match mant p with
       | Zpos m =>
           if 0 <=? exp p
           then ldexp (neg p) (Zpos m * 10 ^ exp p) 0
           else div_pos (neg p) m (Z.to_pos (10 ^ (- exp p)))
       | _ => S754_zero (neg p)
       end.

(** [ParseFloat(s, 64)]: the value and the error, as Go returns both. *)
Definition ParseFloat (s : string) : float64 * option NumError :=
  let syntax :=
    (zero, Some {| Func := "ParseFloat"; Num := s; Err := ErrSyntax |}) in
  match special s with
  | Some (f, n) =>
      if (n =? String.length s)%nat then (f, None) else syntax
  | None =>
      match readFloat s with
      | Some p =>
          match rest p with
          | EmptyString =>
              let f := to_float64 p in
              if is_inf f
              then (f, Some {| Func := "ParseFloat"; Num := s;
                               Err := ErrRange |})
              else (f, None)
          | _ => syntax
          end
      | None => syntax
      end
  end.

End Strconv.

(** ** [pkg/backupify/users.go] *)

Module Backupify.
Import GoStrings Float64.

(** *** Go [int] *)

(** The value an [int] holds after an arithmetic result [z]: 64 bits,
    two's complement. *)
Definition wrap (z : Z) : Z := (z + 2 ^ 63) mod 2 ^ 64 - 2 ^ 63.

Definition int_add (a b : Z) : Z := wrap (a + b).
Definition int_sub (a b : Z) : Z := wrap (a - b).

(** *** The request and response envelopes

    The struct declarations live in the package's entities file; the
    fields below are the ones [users.go] reads and writes. *)

Record Search := { Value : string; Regex : bool }.

Record Column := {
  ColumnData : string;
  ColumnName : string;
  Searchable : bool;
  Orderable : bool;
  ColumnSearch : Search
}.

Record Order := { OrderColumn : string; Dir : string }.

Record UserPayload := {
  PayloadDraw : string;
  Columns : list Column;
  Orders : list Order;
  Start : Z;
  Length : Z;
  PayloadSearch : Search;
  AppType : string
}.

Record User := {
  Name : string;
  UsedBytes : string;
  UsedBytesFloat : float64
}.

Record Users := {
  Draw : Z;
  RecordsTotal : Z;
  RecordsFiltered : Z;
  Data : list User
}.

(** [var allUsers Users]: the zero value. *)
Definition zeroUsers : Users :=
  {| Draw := 0; RecordsTotal := 0; RecordsFiltered := 0; Data := [] |}.

Definition set_Start (p : UserPayload) (v : Z) : UserPayload :=
  {| PayloadDraw := PayloadDraw p; Columns := Columns p;
     Orders := Orders p; Start := v; Length := Length p;
     PayloadSearch := PayloadSearch p; AppType := AppType p |}.

Definition set_Length (p : UserPayload) (v : Z) : UserPayload :=
  {| PayloadDraw := PayloadDraw p; Columns := Columns p;
     Orders := Orders p; Start := Start p; Length := v;
     PayloadSearch := PayloadSearch p; AppType := AppType p |}.

Definition set_UsedBytesFloat (u : User) (v : float64) : User :=
  {| Name := Name u; UsedBytes := UsedBytes u; UsedBytesFloat := v |}.

Definition column (data : string) : Column :=
  {| ColumnData := data; ColumnName := ""; Searchable := true;
     Orderable := true;
     ColumnSearch := {| Value := ""; Regex := false |} |}.

(** The [userPayload] literal of [GetAllUsers]. *)
Definition userPayload0 : UserPayload :=
  {| PayloadDraw := "1";
     Columns := [column "name"; column "email"; column "latestSnap";
                 column "usedBytes"];
     Orders := [{| OrderColumn := "1"; Dir := "asc" |}];
     Start := 0;
     Length := 75;
     PayloadSearch := {| Value := ""; Regex := false |};
     AppType := "GoogleDrive" |}.

(** *** What the run prints and logs *)

Inductive Event :=
| Println (line : string)
    (** [c.Log.Println(line)] *)
| ErrorConverting (name : string) (err : Strconv.NumError)
    (** [fmt.Printf("Error converting used bytes for user %s: %v\n", ...)] *)
| Converted (usedBytes : string) (value : float64) (name : string)
    (** [fmt.Printf("Converted %s to %.2f bytes for user %s\n", ...)] *).

(** *** [convertUserBytes]: one task *)

(** The four unit variables as [convertUserBytes] sets them before it
    starts the tasks. *)
Record Units := {
  kilobyte : float64;
  megabyte : float64;
  gigabyte : float64;
  terabyte : float64
}.

Definition units (useBinary : bool) : Units :=
  let kilobyte := if useBinary then of_Z 1024 else of_Z 1000 in
  let megabyte := mul kilobyte kilobyte in
  let gigabyte := mul megabyte kilobyte in
  let terabyte := mul gigabyte kilobyte in
  {| kilobyte := kilobyte; megabyte := megabyte; gigabyte := gigabyte;
     terabyte := terabyte |}.

(** How the body of one goroutine ends: it returns, having printed one
    line and left the record as [user], or it panics. *)
Inductive TaskResult :=
| TaskDone (user : User) (ev : Event)
| TaskPanic.

(** The body of the [go func(user *User)] literal. *)
Definition convertUser (k : Units) (user : User) : TaskResult :=
  match slice_to (UsedBytes user) (Index (UsedBytes user) " ") with
  | None => TaskPanic
  | Some numeric =>
      match Strconv.ParseFloat numeric with
      | (_, Some err) => TaskDone user (ErrorConverting (Name user) err)
      | (usedBytes, None) =>
          let user :=
            if Contains (UsedBytes user) "bytes"
            then set_UsedBytesFloat user usedBytes
            else if Contains (UsedBytes user) "KB"
            then set_UsedBytesFloat user (mul usedBytes (kilobyte k))
            else if Contains (UsedBytes user) "MB"
            then set_UsedBytesFloat user (mul usedBytes (megabyte k))
            else if Contains (UsedBytes user) "GB"
            then set_UsedBytesFloat user (mul usedBytes (gigabyte k))
            else if Contains (UsedBytes user) "TB"
            then set_UsedBytesFloat user (mul usedBytes (terabyte k))
            else user in
          TaskDone user
            (Converted (UsedBytes user) (UsedBytesFloat user) (Name user))
      end
  end.

(** *** [convertUserBytes]: the batch, as its caller sees it

    Each task touches its own record only, so the batch is summarised
    by running the task bodies in record order.  A panic in any task
    ends the program: [None].  (The interleavings themselves are the
    step relation [step] further down, which is shown to agree with this
    summary.) *)
Fixpoint run_tasks (k : Units) (data : list User)
  : option (list User * list Event) :=
  match data with
  | [] => Some ([], [])
  | user :: rest =>
      match convertUser k user with
      | TaskPanic => None
      | TaskDone user' ev =>
          match run_tasks k rest with
          | None => None
          | Some (rest', evs) => Some (user' :: rest', ev :: evs)
          end
      end
  end.

Definition convertUserBytes (users : Users) (useBinary : bool)
  : option (Users * list Event) :=
  match run_tasks (units useBinary) (Data users) with
  | None => None
  | Some (data, evs) =>
      Some ({| Draw := Draw users; RecordsTotal := RecordsTotal users;
               RecordsFiltered := RecordsFiltered users; Data := data |},
            evs)
  end.

(** The batch once every task is through its [wg.Done()], the tasks that
    panicked included (a deferred call runs while the panic unwinds): the
    records of the tasks that returned as those left them, the records of
    the others as they came, and the lines printed. *)
Fixpoint settle (k : Units) (data : list User) : list User * list Event :=
  match data with
  | [] => ([], [])
  | user :: rest =>
      match convertUser k user with
      | TaskDone user' ev =>
          (user' :: fst (settle k rest), ev :: snd (settle k rest))
      | TaskPanic => (user :: fst (settle k rest), snd (settle k rest))
      end
  end.

(** [filterUsersBySize]: the records above [size], in order, and a log
    line for each. *)
Definition filterUsersBySize (users : Users) (size : float64)
  : Users * list Event :=
  let kept := List.filter (fun user => gtb (UsedBytesFloat user) size)
                (Data users) in
  ({| Draw := 0; RecordsTotal := 0; RecordsFiltered := 0; Data := kept |},
   List.map
     (fun user =>
        Println ("User: " ++ Name user ++ " has used " ++ UsedBytes user
                 ++ " of storage"))
     kept).

(** *** The response cache

    [GetCache] and [SetCache] are methods of the client, declared outside
    this file.  They are modelled from the spec's ResponseCache. *)

(** Modelled from the spec: a cache entry is the cached value and the time
    [expiresAt] until which readers see it. *)
Record CacheEntry := { value : Users; expiresAt : Z }.

(** Modelled from the spec: [GetCache], the spec's [get(key)].  An entry is
    found only while it has not expired; an entry set with [ttl = 0] is
    already expired at the next [get]. *)
Definition GetCache (cache : gmap string CacheEntry) (now : Z)
    (key : string) : option Users :=
  match cache !! key with
  | Some e => if now <? expiresAt e then Some (value e) else None
  | None => None
  end.

(** Modelled from the spec: [SetCache], the spec's [set(key, value, ttl)].
    It overwrites any entry for [key] with one that expires [ttl] after
    the call. *)
Definition SetCache (cache : gmap string CacheEntry) (now : Z)
    (key : string) (v : Users) (ttl : Z) : gmap string CacheEntry :=
  <[key := {| value := v; expiresAt := now + ttl |}]> cache.

(** [time.Hour], in nanoseconds as [time.Duration] counts. *)
Definition Hour : Z := 3600 * 1000000000.

(** *** The provider and the world a run acts on *)

Definition error : Type := string.

(** One answer of the provider: the time the call took (nanoseconds) and
    what [do[Users]] handed back. *)
Record Reply := { elapsed : N; result : Users + error }.

(** The provider decides each answer from the number of requests it has
    received so far and from the payload of the request. *)
Definition Provider : Type := nat -> UserPayload -> Reply.

Record World := {
  now : Z;
  cache : gmap string CacheEntry;
  sent : list UserPayload;
  printed : list Event
}.

Definition print (evs : list Event) (w : World) : World :=
  {| now := now w; cache := cache w; sent := sent w;
     printed := printed w ++ evs |}.

(** [do[Users](c.Client, "POST", url, nil, userPayload)]: one network
    request. *)
Definition do (p : Provider) (payload : UserPayload) (w : World)
  : (Users + error) * World :=
  let r := p (length (sent w)) payload in
  (result r,
   {| now := now w + Z.of_N (elapsed r); cache := cache w;
      sent := sent w ++ [payload]; printed := printed w |}).

(** *** The pagination loop of [GetAllUsers] *)

(** How the [for] loop ends.  [LoopFatal]: the run has reached
    [c.Log.Fatal(err)]; the logger is declared outside this file and the
    run is followed no further (a [Fatal] logger in Go ends the process).
    [LoopOutOfFuel]: the loop is still running after the number of
    requests the fuel allows. *)
Inductive LoopResult :=
| LoopBreak (allUsers : Users) (w : World)
| LoopFatal (err : error) (w : World)
| LoopOutOfFuel (userPayload : UserPayload) (allUsers : Users)
    (w : World).

Fixpoint fetch_loop (fuel : nat) (p : Provider) (userPayload : UserPayload)
    (allUsers : Users) (w : World) : LoopResult :=
  match fuel with
  | O => LoopOutOfFuel userPayload allUsers w
  | S fuel' =>
      let '(res, w) := do p userPayload w in
      match res with
      | inr err => LoopFatal err w
      | inl users =>
          let remainingUsers :=
            int_sub (RecordsTotal users) (Length userPayload) in
          let userPayload :=
            if remainingUsers <? Length userPayload
            then set_Length userPayload remainingUsers
            else userPayload in
          if Start userPayload <=? RecordsTotal users then
            let userPayload :=
              set_Start userPayload
                (int_add (Start userPayload) (Length userPayload)) in
            let allUsers :=
              {| Draw := Draw allUsers;
                 RecordsTotal := RecordsTotal allUsers;
                 RecordsFiltered := RecordsFiltered allUsers;
                 Data := Data allUsers ++ Data users |} in
            fetch_loop fuel' p userPayload allUsers w
          else
            LoopBreak
              {| Draw := Draw users;
                 RecordsTotal := RecordsTotal users;
                 RecordsFiltered := RecordsFiltered users;
                 Data := Data allUsers |} w
      end
  end.

(** *** [GetAllUsers] *)

(** How a call ends: it returns its two results, or the run reaches
    [c.Log.Fatal(err)], or a conversion task panics, or the loop is still
    running when the fuel is spent.

    A task that panics takes the process down, but not at once: its
    deferred [wg.Done()] runs first and lets [wg.Wait()] return, so the
    main goroutine may go on to [c.SetCache] and the [return] before the
    runtime ends the process.  [Panicked w late]: [w] is the world if the
    process dies before [c.SetCache] (which lines the tasks have printed
    by then depends on the schedule; [w] records none), [late] the world
    if [c.SetCache] has run by then, with the batch as [settle] gives
    it. *)
Inductive Outcome :=
| Returned (users : Users) (err : option error) (w : World)
| Fatal (err : error) (w : World)
| Panicked (w : World) (late : World)
| OutOfFuel (userPayload : UserPayload) (allUsers : Users) (w : World).

Section GetAllUsers.
(** [c.BuildURL(customerServices)]: the endpoint, fixed per client. *)
Variable url : string.

Definition GetAllUsers (fuel : nat) (p : Provider) (w : World)
  : Outcome :=
  let w := print [Println "Getting all users from Backupify..."] w in
  match GetCache (cache w) (now w) url with
  | Some cached => Returned cached None w
  | None =>
      match fetch_loop fuel p userPayload0 zeroUsers w with
      | LoopFatal err w => Fatal err w
      | LoopOutOfFuel userPayload allUsers w =>
          OutOfFuel userPayload allUsers w
      | LoopBreak allUsers w =>
          match convertUserBytes allUsers false with
          | None =>
              let settled := settle (units false) (Data allUsers) in
              let allUsers :=
                {| Draw := Draw allUsers;
                   RecordsTotal := RecordsTotal allUsers;
                   RecordsFiltered := RecordsFiltered allUsers;
                   Data := fst settled |} in
              let late := print (snd settled) w in
              Panicked w
                {| now := now late;
                   cache := SetCache (cache late) (now late) url allUsers
                              (3 * Hour);
                   sent := sent late; printed := printed late |}
          | Some (allUsers, evs) =>
              let w := print evs w in
              let w :=
                {| now := now w;
                   cache := SetCache (cache w) (now w) url allUsers
                              (3 * Hour);
                   sent := sent w; printed := printed w |} in
              Returned allUsers None w
          end
      end
  end.
End GetAllUsers.

(** What a caller holds after the call: the aggregate and the error
    result, when the call returned. *)
Definition results (o : Outcome) : option (Users * option error) :=
  match o with
  | Returned users err _ => Some (users, err)
  | _ => None
  end.

(** The world in which the call ends; for a run that dies of a task's
    panic, the world before [c.SetCache]. *)
Definition world_of (o : Outcome) : World :=
  match o with
  | Returned _ _ w | Fatal _ w | Panicked w _ | OutOfFuel _ _ w => w
  end.

(** The worlds in which the call can end: for a run that dies of a task's
    panic, the one before and the one after [c.SetCache]. *)
Definition ends_in (o : Outcome) (w' : World) : Prop :=
  match o with
  | Panicked w late => w' = w \/ w' = late
  | Returned _ _ w | Fatal _ w | OutOfFuel _ _ w => w' = w
  end.

(** The window of a request: its [start] and [length]. *)
Definition window (p : UserPayload) : Z * Z := (Start p, Length p).

(** *** Synthetic providers *)

(** The decimal numeral of [i]. *)
Definition decimal (i : nat) : string :=
  NilEmpty.string_of_uint (Nat.to_uint i).

(** Record number [i] of a synthetic provider. *)
Definition record (i : nat) : User :=
  {| Name := "user" ++ decimal i;
     UsedBytes := decimal i ++ " KB";
     UsedBytesFloat := zero |}.

Definition records (n : nat) : list User := List.map record (seq 0 n).

(** A provider that holds [all], reports their number as the total on
    every response, and serves the records of the window asked for (none
    where the window lies outside [all]).  Every call takes a
    millisecond. *)
Definition serve (all : list User) : Provider :=
  fun _ payload =>
    {| elapsed := 1000000;
       result :=
         inl {| Draw := 1;
                RecordsTotal := Z.of_nat (length all);
                RecordsFiltered := Z.of_nat (length all);
                Data := if (Start payload <? 0) || (Length payload <? 0)
                        then []
                        else firstn (Z.to_nat (Length payload))
                               (skipn (Z.to_nat (Start payload)) all) |} |}.

(** A provider whose [n]-th request (counting from 0) fails with [err],
    and which answers like [p] before. *)
Definition failing_at (n : nat) (err : error) (p : Provider) : Provider :=
  fun i payload =>
    if (i =? n)%nat then {| elapsed := 1000000; result := inr err |}
    else p i payload.

(** The world before any call: empty cache, nothing sent. *)
Definition world0 : World :=
  {| now := 0; cache := ∅; sent := []; printed := [] |}.


(** The world [d] nanoseconds later, nothing else having happened. *)
Definition later (d : Z) (w : World) : World :=
  {| now := now w + d; cache := cache w; sent := sent w;
     printed := printed w |}.

(** The cache of [w] holds an entry for [key] that has not expired at
    time [t]. *)
Definition unexpired (key : string) (w : World) (t : Z) : Prop :=
  exists e, cache w !! key = Some e /\ t < expiresAt e.

(** The world in which the loop of a run ended. *)
Definition loop_world (r : LoopResult) : World :=
  match r with
  | LoopBreak _ w | LoopFatal _ w | LoopOutOfFuel _ _ w => w
  end.

(** The answers the provider gave to the requests [payloads], the first
    of which was the request number [i] it received; a request that failed
    has none. *)
Fixpoint answers (p : Provider) (i : nat) (payloads : list UserPayload)
  : list Users :=
  match payloads with
  | [] => []
  | payload :: rest =>
      match result (p i payload) with
      | inl users => users :: answers p (S i) rest
      | inr _ => answers p (S i) rest
      end
  end.

(** The request asks what the first request of a run asks, for another
    window. *)
Definition same_query (payload : UserPayload) : Prop :=
  set_Start (set_Length payload (Length userPayload0)) (Start userPayload0)
  = userPayload0.

(** An endpoint for the sample runs. *)
Definition sample_url : string := "https://backupify.example/customerServices".

(** *** [convertUserBytes]: the goroutines

    The interleavings of the main goroutine with the tasks it starts.
    The main goroutine ranges over the records ([wg.Add(1)] and the [go]
    statement for each), then blocks in [wg.Wait()] until the counter is
    zero.  A task runs its body, then its deferred [wg.Done()].  A task
    whose body panicked still runs its deferred call; the program then
    crashes, at some later step. *)

Inductive Task :=
| Running (user : User)
    (** started, body not run yet *)
| Exiting (r : TaskResult)
    (** body over, deferred [wg.Done()] not run yet *)
| Finished (r : TaskResult)
    (** [wg.Done()] has run *).

Inductive MainPC := Ranging | Waiting | BackInCaller.

Record Conc := {
  todo : list User;
  pool : list Task;
  wg : Z;
  out : list Event;
  pc : MainPC;
  crashed : bool
}.

Definition start (users : Users) : Conc :=
  {| todo := Data users; pool := []; wg := 0; out := [];
     pc := Ranging; crashed := false |}.

Definition event_of (r : TaskResult) : list Event :=
  match r with
  | TaskDone _ ev => [ev]
  | TaskPanic => []
  end.

Inductive step (k : Units) : Conc -> Conc -> Prop :=
| step_go user rest pool wg out :
    step k
      {| todo := user :: rest; pool := pool; wg := wg; out := out;
         pc := Ranging; crashed := false |}
      {| todo := rest; pool := pool ++ [Running user]; wg := wg + 1;
         out := out; pc := Ranging; crashed := false |}
| step_wait pool wg out :
    step k
      {| todo := []; pool := pool; wg := wg; out := out;
         pc := Ranging; crashed := false |}
      {| todo := []; pool := pool; wg := wg; out := out;
         pc := Waiting; crashed := false |}
| step_wake todo pool out :
    step k
      {| todo := todo; pool := pool; wg := 0; out := out;
         pc := Waiting; crashed := false |}
      {| todo := todo; pool := pool; wg := 0; out := out;
         pc := BackInCaller; crashed := false |}
| step_body i user todo pool wg out pc :
    pool !! i = Some (Running user) ->
    step k
      {| todo := todo; pool := pool; wg := wg; out := out;
         pc := pc; crashed := false |}
      {| todo := todo;
         pool := <[i := Exiting (convertUser k user)]> pool;
         wg := wg;
         out := out ++ event_of (convertUser k user);
         pc := pc; crashed := false |}
| step_done i r todo pool wg out pc :
    pool !! i = Some (Exiting r) ->
    step k
      {| todo := todo; pool := pool; wg := wg; out := out;
         pc := pc; crashed := false |}
      {| todo := todo; pool := <[i := Finished r]> pool; wg := wg - 1;
         out := out; pc := pc; crashed := false |}
| step_crash i todo pool wg out pc :
    pool !! i = Some (Finished TaskPanic) ->
    step k
      {| todo := todo; pool := pool; wg := wg; out := out;
         pc := pc; crashed := false |}
      {| todo := todo; pool := pool; wg := wg; out := out;
         pc := pc; crashed := true |}.

(** Any number of steps. *)
Inductive steps (k : Units) : Conc -> Conc -> Prop :=
| steps_refl s : steps k s s
| steps_more s1 s2 s3 : steps k s1 s2 -> step k s2 s3 -> steps k s1 s3.

(** The tasks not yet through their [wg.Done()]. *)
Fixpoint pending (pool : list Task) : Z :=
  match pool with
  | [] => 0
  | Finished _ :: rest => pending rest
  | _ :: rest => 1 + pending rest
  end.

(** Task [t] is the task of record [user], at some stage. *)
Definition task_of (k : Units) (user : User) (t : Task) : Prop :=
  t = Running user \/ t = Exiting (convertUser k user)
  \/ t = Finished (convertUser k user).

(** What holds of every state the goroutines can reach from
    [start users]. *)
Record invariant (k : Units) (data : list User) (s : Conc) : Prop := {
  inv_tasks : Forall2 (task_of k) (firstn (length (pool s)) data) (pool s);
  inv_todo : todo s = skipn (length (pool s)) data;
  inv_wg : wg s = pending (pool s);
  inv_pc : pc s <> Ranging -> todo s = [];
  inv_back : pc s = BackInCaller -> wg s = 0
}.

(** Every record's task, through its [wg.Done()]. *)
Definition finished_pool (k : Units) (data : list User) : list Task :=
  List.map (fun user => Finished (convertUser k user)) data.

(** The state in which [convertUserBytes] is back in its caller after the
    schedule that runs each task to its end as soon as it is started. *)
Definition final (k : Units) (data : list User) : Conc :=
  {| todo := []; pool := finished_pool k data; wg := 0;
     out := List.concat
              (List.map (fun user => event_of (convertUser k user)) data);
     pc := BackInCaller; crashed := false |}.


(** The lines a task has printed so far. *)
Definition printed_by (t : Task) : list Event :=
  match t with
  | Running _ => []
  | Exiting r | Finished r => event_of r
  end.

(** A task run to its end from where it stands. *)
Definition finish (k : Units) (t : Task) : Task :=
  match t with
  | Running user => Finished (convertUser k user)
  | Exiting r | Finished r => Finished r
  end.

(** *** Records the tasks can cut *)

(** The record's string has a space, where the task cuts it. *)
Definition spaced (user : User) : bool := Contains (UsedBytes user) " ".

(** The line a task prints is about record [user]: its conversion, or the
    error of its number. *)
Definition line_of (user : User) (ev : Event) : Prop :=
  ev = Converted (UsedBytes user) (UsedBytesFloat user) (Name user)
  \/ exists err, ev = ErrorConverting (Name user) err.

(** *** Well-formed records *)





(** A record as the provider sends it, the derived field still unset. *)
Definition fresh (name usedBytes : string) : User :=
{| Name := name; UsedBytes := usedBytes; UsedBytesFloat := zero |}.

Definition batch (data : list User) : Users :=
{| Draw := 1; RecordsTotal := Z.of_nat (length data);
   RecordsFiltered := Z.of_nat (length data); Data := data |}.


End Backupify.

(** ** [pkg/google/google.go] *)

Module Google.
Import GoStrings.

Definition API_KEY : string := "api_key".
Definition OAUTH_CLIENT : string := "oauth_client".
Definition SERVICE_ACCOUNT : string := "service_account".
Definition BaseURL : string := "https://www.googleapis.com".

Definition error : Type := string.

(** The fields of [AuthCredentials] that [google.go] reads. *)
Record AuthCredentials := {
  CICD : bool;
  AuthType : string;
  Scopes : list string;
  Subject : string;
  Credentials : string
}.

Definition set_Scopes (ac : AuthCredentials) (scopes : list string)
  : AuthCredentials :=
  {| CICD := CICD ac; AuthType := AuthType ac; Scopes := scopes;
     Subject := Subject ac; Credentials := Credentials ac |}.

(** [requests.NewClient(jwtClient, headers, rl)]: the headers and the
    limit of the rate limiter. *)
Record HTTPClient := {
  Headers : list (string * string);
  RateLimit : Z
}.

Record Client := {
  Auth : AuthCredentials;
  ClientBaseURL : string;
  Verbosity : Z;
  HTTP : option HTTPClient
}.

Definition set_Auth (c : Client) (ac : AuthCredentials) : Client :=
  {| Auth := ac; ClientBaseURL := ClientBaseURL c;
     Verbosity := Verbosity c; HTTP := HTTP c |}.

Definition set_HTTP (c : Client) (h : HTTPClient) : Client :=
  {| Auth := Auth c; ClientBaseURL := ClientBaseURL c;
     Verbosity := Verbosity c; HTTP := Some h |}.

(** [BuildURL]: the endpoint formatted with the base URL, then one
    [Sprintf("%s/%s", url, id)] per identifier. *)
Definition BuildURL (c : Client) (endpoint : string)
    (identifiers : list string) : string :=
  fold_left (fun url id => Fmt.Sprintf "%s/%s" [url; id]) identifiers
    (Fmt.Sprintf endpoint [ClientBaseURL c]).

(** How a call ends: with its two results (a [nil] pointer or a [nil]
    error is [None]), or in a run-time panic. *)
Inductive Result (A : Type) :=
| Return (value : option A) (err : option error)
| Panic.
Arguments Return {A} value err.
Arguments Panic {A}.

Section NewClient.
(** What the file calls from the rest of the package, from
    [pkg/common/config] and from Go's libraries, taken as given:
    a Go function with results [(T, error)] is a function into
    [T + error]. *)
Variable DedupeScopes : list string -> list string.
Variable LoadScopes : string -> list string + error.
Variable GetEnv : string -> string.
Variable ReadFile : string -> string + error.
Variable DecodeString : string -> string + error.
(** [json.Unmarshal(decoded, &j)] into a [GoogleConfig]. *)
Variable Unmarshal : string -> option error.
(** [google.JWTConfigFromJSON(data, scopes...)]; the configuration is
    identified by the data it was made from. *)
Variable JWTConfigFromJSON : string -> list string -> string + error.
(** [jwtConfig.TokenSource(ctx).Token()], for a configuration and the
    subject set on it: the access token. *)
Variable Token : string -> string -> string + error.

(** [GenerateJWT]: [jwtConfig] is [nil] when the data does not parse,
    and [jwtConfig.Subject = ...] then panics; [t] is [nil] when no
    token can be had, and [t.AccessToken] then panics.  The function
    has no other way to fail: its error result is always [nil]. *)
Definition GenerateJWT (c : Client) (data : string)
  : Result HTTPClient :=
  match JWTConfigFromJSON data (Scopes (Auth c)) with
  | inr _ => Panic
  | inl jwtConfig =>
      match Token jwtConfig (Subject (Auth c)) with
      | inr _ => Panic
      | inl AccessToken =>
          let headers := [("Accept", "application/json");
                          ("Content-Type", "application/json");
                          ("Authorization", "Bearer " ++ AccessToken)] in
          Return (Some {| Headers := headers; RateLimit := 12000 |})
            None
      end
  end.

(** The scope loop of [NewClient]. *)
Fixpoint load_scopes (services : list string) (scopes : list string)
  : list string + error :=
  match services with
  | [] => inl scopes
  | service :: rest =>
      match LoadScopes service with
      | inr err => inr err
      | inl s =>
          if HasPrefix service "https://www.googleapis.com/auth/"
          then load_scopes rest (scopes ++ [service])
          else load_scopes rest (scopes ++ s)
      end
  end.

Definition NewClient (ac : AuthCredentials) (verbosity : Z)
  : Result Client :=
  let c := {| Auth := ac; ClientBaseURL := BaseURL;
              Verbosity := verbosity; HTTP := None |} in
  let c := set_Auth c (set_Scopes (Auth c)
                         (DedupeScopes (Scopes (Auth c)))) in
  match load_scopes (Scopes (Auth c)) [] with
  | inr err => Return None (Some err)
  | inl scopes =>
      let c := set_Auth c (set_Scopes (Auth c) scopes) in
      if CICD (Auth c) then
        if String.eqb (AuthType (Auth c)) API_KEY then
          let Authorization := "Bearer " ++ GetEnv "GOOGLE_API_KEY" in
          if len Authorization <=? 7
          then Return None (Some "GOOGLE_API_KEY is not set")
          else Return None None
        else if String.eqb (AuthType (Auth c)) OAUTH_CLIENT then
          let b64 := GetEnv "GOOGLE_OAUTH_CLIENT" in
          if len b64 =? 0
          then Return None (Some "GOOGLE_OAUTH_CLIENT is not set")
          else match DecodeString b64 with
               | inr err => Return None (Some err)
               | inl decoded =>
                   match Unmarshal decoded with
                   | Some err => Return None (Some err)
                   | None => Return None None
                   end
               end
        else if String.eqb (AuthType (Auth c)) SERVICE_ACCOUNT then
          let b64 := GetEnv "GOOGLE_SERVICE_ACCOUNT" in
          if len b64 =? 0
          then Return None (Some "GOOGLE_SERVICE_ACCOUNT is not set")
          else match DecodeString b64 with
               | inr err => Return None (Some err)
               | inl decoded =>
                   match GenerateJWT c decoded with
                   | Panic => Panic
                   | Return _ (Some err) => Return None (Some err)
                   | Return (Some h) None =>
                       Return (Some (set_HTTP c h)) None
                   | Return None None => Return (Some c) None
                   end
               end
        else Return None None
      else
        if String.eqb (AuthType (Auth c)) API_KEY then
          let Authorization := "Bearer " ++ Credentials (Auth c) in
          if len Authorization <=? 7
          then Return None (Some "GOOGLE_API_KEY is not set")
          else Return None None
        else if String.eqb (AuthType (Auth c)) OAUTH_CLIENT then
          (* a file that cannot be read or parsed is logged only *)
          Return None None
        else if String.eqb (AuthType (Auth c)) SERVICE_ACCOUNT then
          let file := match ReadFile (Credentials (Auth c)) with
                      | inl file => file
                      | inr _ => ""
                      end in
          match GenerateJWT c file with
          | Panic => Panic
          | Return _ (Some err) => Return None (Some err)
          | Return (Some h) None => Return (Some (set_HTTP c h)) None
          | Return None None => Return (Some c) None
          end
        else Return None None
  end.
(** Every service asked for is one [LoadScopes] knows. *)
Definition scopes_load (ac : AuthCredentials) : Prop :=
  Forall (fun service => exists s, LoadScopes service = inl s)
    (DedupeScopes (Scopes ac)).

(** An API key is there to be used: in the environment under CICD, in the
    credentials otherwise. *)
Definition api_key_supplied (ac : AuthCredentials) : Prop :=
  AuthType ac = API_KEY
  /\ (if CICD ac then GetEnv "GOOGLE_API_KEY" else Credentials ac) <> "".

(** OAuth client credentials that decode: under CICD the variable is set,
    is base64 and holds JSON of a [GoogleConfig]; otherwise nothing is
    asked of the credentials file. *)
Definition oauth_client_decodable (ac : AuthCredentials) : Prop :=
  AuthType ac = OAUTH_CLIENT
  /\ (CICD ac = true ->
      GetEnv "GOOGLE_OAUTH_CLIENT" <> ""
      /\ exists decoded,
           DecodeString (GetEnv "GOOGLE_OAUTH_CLIENT") = inl decoded
           /\ Unmarshal decoded = None).

End NewClient.

(** *** A sample environment *)

Definition sample_LoadScopes (service : string) : list string + error :=
  if String.eqb service "Admin SDK API"
  then inl ["https://www.googleapis.com/auth/admin.directory.user"]
  else if HasPrefix service "https://www.googleapis.com/auth/"
  then inl [service]
  else inr ("unknown service: " ++ service).

Definition sample_GetEnv (key : string) : string :=
  if String.eqb key "GOOGLE_API_KEY" then "AIzaSample"
  else if String.eqb key "GOOGLE_OAUTH_CLIENT" then "e30="
  else "".

Definition sample_DecodeString (s : string) : string + error :=
  if String.eqb s "e30=" then inl "{}" else inr "illegal base64 data".

Definition sample_Unmarshal (s : string) : option error :=
  if String.eqb s "{}" then None else Some "unexpected end of JSON input".

Definition sample_NewClient : AuthCredentials -> Z -> Result Client :=
  NewClient (fun scopes => scopes) sample_LoadScopes sample_GetEnv
    (fun _ => inr "no such file") sample_DecodeString sample_Unmarshal
    (fun _ _ => inr "no key") (fun _ _ => inr "no token").

Definition sample_api_key : AuthCredentials :=
  {| CICD := true; AuthType := API_KEY; Scopes := ["Admin SDK API"];
     Subject := ""; Credentials := "" |}.

(** The same, asking also for a service [sample_LoadScopes] does not
    know. *)
Definition sample_api_key_unknown_scope : AuthCredentials :=
  {| CICD := true; AuthType := API_KEY;
     Scopes := ["Admin SDK API"; "Vault API"];
     Subject := ""; Credentials := "" |}.

(** A sample machine with one service account key on file; the key data
    stand for the configuration made from them, and the token names the
    subject it was made for. *)
Definition sample_ReadFile (path : string) : string + error :=
  if String.eqb path "key.json" then inl "service account key"
  else inr "no such file".

Definition sample_JWTConfigFromJSON (data : string) (scopes : list string)
  : string + error :=
  if String.eqb data "service account key" then inl data
  else inr "unexpected end of JSON input".

Definition sample_Token (config subject : string) : string + error :=
  inl ("token for " ++ subject).

Definition sample_NewClient_local : AuthCredentials -> Z -> Result Client :=
  NewClient (fun scopes => scopes) sample_LoadScopes (fun _ => "")
    sample_ReadFile sample_DecodeString sample_Unmarshal
    sample_JWTConfigFromJSON sample_Token.

Definition sample_service_account (file : string) : AuthCredentials :=
  {| CICD := false; AuthType := SERVICE_ACCOUNT;
     Scopes := ["Admin SDK API"; "https://www.googleapis.com/auth/drive"];
     Subject := "admin@example.com"; Credentials := file |}.

End Google.

(** * Proofs *)

#[local] Arguments String.append !s1 s2 : simpl nomatch.

(** ** The model on small inputs *)

Section Examples.
Import GoStrings Float64 Backupify.

Example Index_space : Index "1.5 GB" " " = 3.
Proof. reflexivity. Qed.

Example Index_no_space : Index "N/A" " " = -1.
Proof. reflexivity. Qed.

Example slice_to_negative : slice_to "N/A" (-1) = None.
Proof. reflexivity. Qed.

Example Trim_slashes : Trim "/okta.com/" "./" = "okta.com".
Proof. reflexivity. Qed.

Example TrimSuffix_com : TrimSuffix "okta.com" ".com" = "okta".
Proof. reflexivity. Qed.

Example ParseFloat_one_and_a_half :
  Strconv.ParseFloat "1.5" = (S754_finite false 6755399441055744 (-52), None).
Proof. vm_compute. reflexivity. Qed.

Example ParseFloat_tenth :
  Strconv.ParseFloat "0.1" = (S754_finite false 7205759403792794 (-56), None).
Proof. vm_compute. reflexivity. Qed.

Example ParseFloat_not_a_number :
  snd (Strconv.ParseFloat "N/A")
  = Some {| Strconv.Func := "ParseFloat"; Strconv.Num := "N/A";
            Strconv.Err := Strconv.ErrSyntax |}.
Proof. vm_compute. reflexivity. Qed.

Example ParseFloat_out_of_range :
  Strconv.ParseFloat "1e400"
  = (S754_infinity false,
     Some {| Strconv.Func := "ParseFloat"; Strconv.Num := "1e400";
             Strconv.Err := Strconv.ErrRange |}).
Proof. vm_compute. reflexivity. Qed.

Example int_add_wraps : int_add (2 ^ 63 - 1) 1 = - 2 ^ 63.
Proof. reflexivity. Qed.

Example okta_defaults :
  Okta.ClientBaseURL (Okta.NewClient (fun _ fallback => fallback) 0)
  = "https://yourOktaDomain.okta.com/api/v1".
Proof. reflexivity. Qed.

(** A record with a space and no number before it is logged and left as
    it was. *)
Example convertUser_logged :
  convertUser (units false) (fresh "eve" "N/A MB")
  = TaskDone (fresh "eve" "N/A MB")
      (ErrorConverting "eve"
         {| Strconv.Func := "ParseFloat"; Strconv.Num := "N/A";
            Strconv.Err := Strconv.ErrSyntax |}).
Proof. vm_compute. reflexivity. Qed.

(** Against a provider of 100 records the second and later windows
    overlap the first, and the aggregate holds 150 records. *)
Example run_100 :
  exists users w,
    GetAllUsers sample_url 6 (serve (records 100)) world0
    = Returned users None w
    /\ List.map window (sent w)
       = [(0, 75); (25, 25); (50, 25); (75, 25); (100, 25); (125, 25)]
    /\ length (Data users) = 150%nat.
Proof.
  do 2 eexists. split; [vm_compute; reflexivity |].
  split; vm_compute; reflexivity.
Qed.

End Examples.

(** ** Byte strings *)

Section StringFacts.
Import GoStrings.

Lemma string_length_app (s t : string) :
  String.length (s ++ t) = (String.length s + String.length t)%nat.
Proof. induction s as [|c s IH]; simpl; [reflexivity | now rewrite IH]. Qed.

Lemma app_empty_r (s : string) : s ++ "" = s.
Proof. induction s as [|c s IH]; simpl; [reflexivity | now rewrite IH]. Qed.

Lemma app_assoc_string (s t u : string) : (s ++ t) ++ u = s ++ (t ++ u).
Proof. induction s as [|c s IH]; simpl; [reflexivity | now rewrite IH]. Qed.

Lemma drop_app (s t : string) : drop (String.length s) (s ++ t) = t.
Proof. induction s as [|c s IH]; simpl; [now destruct t | exact IH]. Qed.

Lemma take_app (s t : string) : take (String.length s) (s ++ t) = s.
Proof. induction s as [|c s IH]; simpl; [reflexivity | now rewrite IH]. Qed.

Lemma HasPrefix_app (p t : string) : HasPrefix (p ++ t) p = true.
Proof.
  induction p as [|c p IH]; simpl; [reflexivity |].
  now rewrite Ascii.eqb_refl, IH.
Qed.

Lemma TrimPrefix_app (p t : string) : TrimPrefix (p ++ t) p = t.
Proof. unfold TrimPrefix. now rewrite HasPrefix_app, drop_app. Qed.

Lemma HasSuffix_app (s suffix : string) : HasSuffix (s ++ suffix) suffix = true.
Proof.
  unfold HasSuffix. rewrite string_length_app.
  replace (String.length s + String.length suffix - String.length suffix)%nat
    with (String.length s) by lia.
  rewrite drop_app, String.eqb_refl, andb_true_r.
  apply Nat.leb_le. lia.
Qed.

Lemma TrimSuffix_app (s suffix : string) : TrimSuffix (s ++ suffix) suffix = s.
Proof.
  unfold TrimSuffix. rewrite HasSuffix_app, string_length_app.
  replace (String.length s + String.length suffix - String.length suffix)%nat
    with (String.length s) by lia.
  apply take_app.
Qed.

(** A prefix [pre] that [o] does not start with is not completed by
    appending [t], unless [t] continues some proper prefix of [pre]. *)
Lemma HasPrefix_app_false (o t pre : string) :
  HasPrefix o pre = false ->
  (forall k, (k < String.length pre)%nat -> HasPrefix t (drop k pre) = false) ->
  HasPrefix (o ++ t) pre = false.
Proof.
  revert pre. induction o as [|c o IH]; intros pre Ho Ht.
  - destruct pre as [|p ps]; [discriminate |].
    simpl. apply (Ht 0%nat). simpl. lia.
  - destruct pre as [|p ps]; [discriminate |].
    simpl in *. destruct (Ascii.eqb c p); [| reflexivity].
    simpl in *. apply IH; [exact Ho |].
    intros k Hk. apply (Ht (S k)). lia.
Qed.

Lemma TrimLeft_length (s cutset : string) :
  (String.length (TrimLeft s cutset) <= String.length s)%nat.
Proof.
  induction s as [|c s IH]; simpl; [lia |].
  destruct (in_cutset c cutset); simpl; lia.
Qed.

Lemma TrimRight_length (s cutset : string) :
  (String.length (TrimRight s cutset) <= String.length s)%nat.
Proof.
  induction s as [|c s IH]; simpl; [lia |].
  destruct (TrimRight s cutset); [destruct (in_cutset c cutset) |];
    simpl in *; lia.
Qed.

Lemma TrimLeft_full (s cutset : string) :
  String.length (TrimLeft s cutset) = String.length s ->
  TrimLeft s cutset = s.
Proof.
  destruct s as [|c s]; simpl; [reflexivity |].
  destruct (in_cutset c cutset); [| reflexivity].
  pose proof (TrimLeft_length s cutset). lia.
Qed.

Lemma TrimRight_full (s cutset : string) :
  String.length (TrimRight s cutset) = String.length s ->
  TrimRight s cutset = s.
Proof.
  induction s as [|c s IH]; simpl; [reflexivity |].
  pose proof (TrimRight_length s cutset) as Hle.
  destruct (TrimRight s cutset) as [|d r] eqn:E.
  - destruct (in_cutset c cutset); simpl; [lia |].
    intros H. destruct s; [reflexivity | simpl in H; lia].
  - simpl. intros H. f_equal. apply IH. simpl. lia.
Qed.

(** A string that [Trim] leaves alone is left alone by both halves. *)
Lemma Trim_fixed (s cutset : string) :
  Trim s cutset = s -> TrimRight s cutset = s /\ TrimLeft s cutset = s.
Proof.
  unfold Trim. intros H.
  pose proof (TrimLeft_length (TrimRight s cutset) cutset) as H1.
  pose proof (TrimRight_length s cutset) as H2.
  rewrite H in H1.
  assert (TrimRight s cutset = s) as E by (apply TrimRight_full; lia).
  split; [exact E |]. now rewrite E in H.
Qed.

Lemma TrimLeft_cutset_app (l s cutset : string) :
  Okta.all_in_cutset l cutset = true ->
  TrimLeft (l ++ s) cutset = TrimLeft s cutset.
Proof.
  induction l as [|c l IH]; simpl; [reflexivity |].
  intros H. apply andb_true_iff in H as [Hc Hl]. now rewrite Hc, IH.
Qed.

Lemma TrimRight_cutset (r cutset : string) :
  Okta.all_in_cutset r cutset = true -> TrimRight r cutset = "".
Proof.
  induction r as [|c r IH]; simpl; [reflexivity |].
  intros H. apply andb_true_iff in H as [Hc Hr]. now rewrite IH, Hc.
Qed.

Lemma TrimRight_app_l (s r cutset : string) :
  TrimRight r cutset = "" ->
  TrimRight (s ++ r) cutset = TrimRight s cutset.
Proof.
  intros Hr. induction s as [|c s IH]; simpl; [exact Hr | now rewrite IH].
Qed.

Lemma TrimRight_app_r (s t cutset : string) :
  TrimRight t cutset = t -> t <> "" ->
  TrimRight (s ++ t) cutset = s ++ t.
Proof.
  intros Ht Hne. induction s as [|c s IH]; simpl; [exact Ht |].
  rewrite IH. destruct (s ++ t) eqn:E; [| reflexivity].
  destruct s; simpl in E; [contradiction | discriminate].
Qed.

Lemma TrimLeft_app_l (s t cutset : string) :
  TrimLeft s cutset = s -> s <> "" ->
  TrimLeft (s ++ t) cutset = s ++ t.
Proof.
  destruct s as [|c s]; [contradiction |]. simpl.
  destruct (in_cutset c cutset) eqn:E; [| reflexivity].
  intros H _. pose proof (TrimLeft_length s cutset) as Hl.
  rewrite H in Hl. simpl in Hl. lia.
Qed.

End StringFacts.

(** ** [okta.NewClient] *)

Section OktaFacts.
Import GoStrings Okta.

Lemma Sprintf_BaseURL (org base : string) :
  Fmt.Sprintf BaseURL [org; base]
  = "https://" ++ org ++ "." ++ base ++ ".com/api/v1".
Proof.
  reflexivity.
Qed.

Lemma normalise_org (o p s : string) :
  bare_org o ->
  In p [""; "https://"; "http://"] -> In s [""; ".okta.com"] ->
  TrimSuffix (TrimPrefix (TrimPrefix (p ++ o ++ s) "https://") "http://")
    ".okta.com" = o.
Proof.
  intros (Hs & Hh & Hsuf) Hp Hsfx.
  assert (HasPrefix (o ++ s) "https://" = false) as Hs'.
  { destruct Hsfx as [<- | [<- | []]]; [now rewrite app_empty_r |].
    apply HasPrefix_app_false; [exact Hs |].
    intros k Hk. do 8 (destruct k as [|k]; [reflexivity |]).
    simpl in Hk. lia. }
  assert (HasPrefix (o ++ s) "http://" = false) as Hh'.
  { destruct Hsfx as [<- | [<- | []]]; [now rewrite app_empty_r |].
    apply HasPrefix_app_false; [exact Hh |].
    intros k Hk. do 7 (destruct k as [|k]; [reflexivity |]).
    simpl in Hk. lia. }
  assert (TrimSuffix (o ++ s) ".okta.com" = o) as Hend.
  { destruct Hsfx as [<- | [<- | []]]; [| apply TrimSuffix_app].
    rewrite app_empty_r. unfold TrimSuffix. now rewrite Hsuf. }
  destruct Hp as [<- | [<- | [<- | []]]].
  - change ("" ++ o ++ s) with (o ++ s).
    unfold TrimPrefix at 2. rewrite Hs'.
    unfold TrimPrefix. rewrite Hh'. exact Hend.
  - rewrite TrimPrefix_app.
    unfold TrimPrefix. rewrite Hh'. exact Hend.
  - replace (TrimPrefix ("http://" ++ o ++ s) "https://")
      with ("http://" ++ o ++ s) by reflexivity.
    rewrite TrimPrefix_app. exact Hend.
Qed.

Lemma normalise_base (b l r s : string) :
  bare_base b ->
  all_in_cutset l "./" = true -> all_in_cutset r "./" = true ->
  In s [""; ".com"] ->
  TrimSuffix (Trim (l ++ b ++ s ++ r) "./") ".com" = b.
Proof.
  intros (Hne & Hfix & Hsuf) Hl Hr Hs.
  apply Trim_fixed in Hfix as [HR HL].
  assert (Trim (l ++ b ++ s ++ r) "./" = b ++ s) as ->.
  { unfold Trim.
    rewrite <- (app_assoc_string b s r), <- (app_assoc_string l (b ++ s) r).
    rewrite TrimRight_app_l by now apply TrimRight_cutset.
    assert (TrimRight (b ++ s) "./" = b ++ s) as Hbs.
    { destruct Hs as [<- | [<- | []]].
      - now rewrite app_empty_r.
      - apply TrimRight_app_r; [reflexivity | discriminate]. }
    assert (l ++ b ++ s <> "") as Hlbs.
    { destruct l; simpl; [| discriminate].
      destruct b; simpl; [contradiction | discriminate]. }
    destruct l as [|c l].
    - simpl. rewrite Hbs. now apply TrimLeft_app_l.
    - rewrite TrimRight_app_r; [| exact Hbs |].
      + rewrite TrimLeft_cutset_app by exact Hl. now apply TrimLeft_app_l.
      + destruct b; simpl; [contradiction | discriminate]. }
  destruct Hs as [<- | [<- | []]]; [| apply TrimSuffix_app].
  rewrite app_empty_r. unfold TrimSuffix. now rewrite Hsuf.
Qed.

(** C10: [okta.NewClient] builds its base URL as
    ["https://" + org + "." + base + ".com/api/v1"], where [org] is
    OKTA_ORG_NAME without a leading ["https://"] or ["http://"] and
    without a trailing [".okta.com"], and [base] is OKTA_BASE_URL
    without leading and trailing ['.'] and ['/'] and without a trailing
    [".com"]; so an organisation name [o] and a base domain [b] give the
    same base URL whether they come bare or with those prefixes and
    suffixes around them. *)
Theorem okta_NewClient_BaseURL :
  (forall (GetEnv : string -> string -> string) (verbosity : Z),
      ClientBaseURL (NewClient GetEnv verbosity)
      = "https://"
        ++ TrimSuffix
             (TrimPrefix
                (TrimPrefix (GetEnv "OKTA_ORG_NAME" "yourOktaDomain")
                   "https://") "http://") ".okta.com"
        ++ "."
        ++ TrimSuffix (Trim (GetEnv "OKTA_BASE_URL" "okta.com") "./")
             ".com"
        ++ ".com/api/v1")
  /\
  (forall (GetEnv : string -> string -> string) (verbosity : Z)
          (o b p s l r s' : string),
      bare_org o -> bare_base b ->
      In p [""; "https://"; "http://"] -> In s [""; ".okta.com"] ->
      all_in_cutset l "./" = true -> all_in_cutset r "./" = true ->
      In s' [""; ".com"] ->
      GetEnv "OKTA_ORG_NAME" "yourOktaDomain" = p ++ o ++ s ->
      GetEnv "OKTA_BASE_URL" "okta.com" = l ++ b ++ s' ++ r ->
      ClientBaseURL (NewClient GetEnv verbosity)
      = "https://" ++ o ++ "." ++ b ++ ".com/api/v1").
Proof.
  assert (forall GetEnv verbosity,
             ClientBaseURL (NewClient GetEnv verbosity)
             = "https://"
               ++ TrimSuffix
                    (TrimPrefix
                       (TrimPrefix (GetEnv "OKTA_ORG_NAME" "yourOktaDomain")
                          "https://") "http://") ".okta.com"
               ++ "."
               ++ TrimSuffix
                    (Trim (GetEnv "OKTA_BASE_URL" "okta.com") "./") ".com"
               ++ ".com/api/v1") as formula.
  { intros GetEnv verbosity. apply Sprintf_BaseURL. }
  split; [exact formula |].
  - intros GetEnv verbosity o b p s l r s' Ho Hb Hp Hs Hl Hr Hs' Eo Eb.
    rewrite formula, Eo, Eb.
    rewrite (normalise_org o p s Ho Hp Hs).
    rewrite (normalise_base b l r s' Hb Hl Hr Hs').
    reflexivity.
Qed.

Lemma okta_NewClient_BaseURL_witness :
  ClientBaseURL (NewClient sample_GetEnv 1) = "https://acme.okta.com/api/v1".
Proof.
  apply (proj2 okta_NewClient_BaseURL sample_GetEnv 1
           "acme" "okta" "https://" ".okta.com" "/" "/" ".com").
  - repeat split.
  - repeat split. discriminate.
  - simpl. tauto.
  - simpl. tauto.
  - reflexivity.
  - reflexivity.
  - simpl. tauto.
  - reflexivity.
  - reflexivity.
Defined.

End OktaFacts.

(** ** [convertUserBytes] *)

Section ConvertFacts.
Import GoStrings Float64 Backupify.










(** A record without a space: [Index] is [-1] and the slice panics. *)
Lemma convertUser_no_space (k : Units) (user : User) :
  Index (UsedBytes user) " " = -1 -> convertUser k user = TaskPanic.
Proof. intros H. unfold convertUser. rewrite H. reflexivity. Qed.

(** A record whose text before the first space does not parse: the error
    is printed and the record is left as it was. *)
Lemma convertUser_unparseable (k : Units) (user : User) (numeric : string)
    (v : float64) (err : Strconv.NumError) :
  slice_to (UsedBytes user) (Index (UsedBytes user) " ") = Some numeric ->
  Strconv.ParseFloat numeric = (v, Some err) ->
  convertUser k user = TaskDone user (ErrorConverting (Name user) err).
Proof. intros Hs Hp. unfold convertUser. now rewrite Hs, Hp. Qed.


Lemma run_tasks_length (k : Units) (data data' : list User)
    (evs : list Event) :
  run_tasks k data = Some (data', evs) ->
  length data' = length data /\ length evs = length data.
Proof.
  revert data' evs. induction data as [|u data IH]; intros data' evs Hrun.
  - injection Hrun as <- <-. auto.
  - simpl in Hrun.
    destruct (convertUser k u) as [u' ev|]; [| discriminate].
    destruct (run_tasks k data) as [[rest' evs']|]; [| discriminate].
    injection Hrun as <- <-. destruct (IH rest' evs' eq_refl).
    simpl. split; congruence.
Qed.

(** One panicking task is enough to lose the batch. *)
Lemma run_tasks_panic (k : Units) (data : list User) (user : User) :
  In user data -> convertUser k user = TaskPanic -> run_tasks k data = None.
Proof.
  intros Hin Hp. induction data as [|u data IH]; [contradiction |].
  simpl. destruct Hin as [-> | Hin].
  - now rewrite Hp.
  - destruct (convertUser k u); [| reflexivity]. now rewrite (IH Hin).
Qed.

(** Without a panicking task the batch completes. *)
Lemma run_tasks_total (k : Units) (data : list User) :
  (forall user, In user data -> convertUser k user <> TaskPanic) ->
  exists data' evs, run_tasks k data = Some (data', evs).
Proof.
  induction data as [|u data IH]; intros Hok.
  - now exists [], [].
  - destruct IH as (rest' & evs' & Hrest).
    { intros user Hin. apply Hok. now right. }
    simpl. destruct (convertUser k u) as [u' ev|] eqn:Hu.
    + rewrite Hrest. now exists (u' :: rest'), (ev :: evs').
    + exfalso. apply (Hok u); [now left | exact Hu].
Qed.



(** C5, at its own example: a record whose string is ["N/A"] has no space,
    so [strings.Index] is [-1], the slice [UsedBytes[:-1]] panics inside
    the task, and the batch it belongs to is lost with it. *)
Theorem convertUserBytes_NA_panics :
  forall (users : Users) (useBinary : bool) (user : User),
    In user (Data users) -> UsedBytes user = "N/A" ->
    convertUser (units useBinary) user = TaskPanic
    /\ convertUserBytes users useBinary = None.
Proof.
  intros users useBinary user Hin Hna.
  assert (convertUser (units useBinary) user = TaskPanic) as Hp.
  { apply convertUser_no_space. now rewrite Hna. }
  split; [exact Hp |].
  unfold convertUserBytes.
  now rewrite (run_tasks_panic _ _ user Hin Hp).
Qed.

Lemma convertUserBytes_NA_panics_witness :
  convertUser (units false) (fresh "bob" "N/A") = TaskPanic
  /\ convertUserBytes
       (batch [fresh "ann" "512 bytes"; fresh "bob" "N/A";
               fresh "cyd" "1.5 GB"]) false = None.
Proof.
  apply (convertUserBytes_NA_panics
           (batch [fresh "ann" "512 bytes"; fresh "bob" "N/A";
                   fresh "cyd" "1.5 GB"]) false (fresh "bob" "N/A")).
  - simpl. tauto.
  - reflexivity.
Defined.

End ConvertFacts.

(** ** The goroutines of [convertUserBytes] *)

Section BarrierFacts.
Import Backupify.

Lemma steps_step (k : Units) (s1 s2 : Conc) : step k s1 s2 -> steps k s1 s2.
Proof. intros H. eapply steps_more; [apply steps_refl | exact H]. Qed.

Lemma steps_trans (k : Units) (s1 s2 s3 : Conc) :
  steps k s1 s2 -> steps k s2 s3 -> steps k s1 s3.
Proof.
  intros H12 H23. induction H23 as [|s2 s3 s4 _ IH Hstep]; [exact H12 |].
  eapply steps_more; [apply IH, H12 | exact Hstep].
Qed.

Lemma pending_nonneg (pool : list Task) : 0 <= pending pool.
Proof. induction pool as [|[]]; simpl; lia. Qed.

Lemma pending_app (p1 p2 : list Task) :
  pending (p1 ++ p2) = pending p1 + pending p2.
Proof. induction p1 as [|[] p1 IH]; simpl; lia. Qed.

(** Replacing task [i] changes the count by the difference of the two
    tasks' own counts. *)
Lemma pending_insert (pool : list Task) (i : nat) (t t' : Task) :
  pool !! i = Some t ->
  pending (<[i := t']> pool) = pending pool - pending [t] + pending [t'].
Proof.
  revert i. induction pool as [|u pool IH]; intros i Hi; [discriminate |].
  destruct i as [|i]; simpl in Hi.
  - injection Hi as ->. destruct t, t'; simpl; lia.
  - specialize (IH i Hi). destruct u; simpl in *; lia.
Qed.

Lemma pending_zero_finished (pool : list Task) (i : nat) (t : Task) :
  pending pool = 0 -> pool !! i = Some t -> exists r, t = Finished r.
Proof.
  revert i. induction pool as [|u pool IH]; intros i Hz Hi; [discriminate |].
  pose proof (pending_nonneg pool).
  destruct i as [|i]; simpl in Hi.
  - injection Hi as ->. destruct t; simpl in Hz; try lia. eauto.
  - apply (IH i); [| exact Hi]. destruct u; simpl in Hz; lia.
Qed.

Lemma invariant_start (k : Units) (users : Users) :
  invariant k (Data users) (start users).
Proof.
  split; simpl.
  - constructor.
  - reflexivity.
  - reflexivity.
  - intros H. now contradiction H.
  - discriminate.
Qed.

Lemma invariant_step (k : Units) (data : list User) (s s' : Conc) :
  invariant k data s -> step k s s' -> invariant k data s'.
Proof.
  intros [Htasks Htodo Hwg Hpc Hback] Hstep.
  destruct Hstep
    as [user rest pl w o | pl w o | td pl o
       | i user td pl w o p Hi | i r td pl w o p Hi | i td pl w o p Hi];
    simpl in *.
  - (* go *)
    assert (data !! length pl = Some user) as Hnth.
    { rewrite <- (Nat.add_0_r (length pl)), <- lookup_drop, <- Htodo.
      reflexivity. }
    split; simpl.
    + rewrite length_app. simpl. rewrite Nat.add_1_r.
      rewrite (take_S_r _ _ _ Hnth).
      apply Forall2_app; [exact Htasks |].
      constructor; [now left | constructor].
    + rewrite length_app. simpl. rewrite Nat.add_1_r.
      rewrite (drop_S _ _ _ Hnth) in Htodo. congruence.
    + rewrite pending_app. simpl. lia.
    + congruence.
    + discriminate.
  - (* wait *)
    split; simpl; auto. discriminate.
  - (* wake *)
    split; simpl; auto.
  - (* body *)
    destruct (Forall2_lookup_r _ _ _ _ _ Htasks Hi) as (d & Hd & Hrel).
    assert (user = d) as ->.
    { destruct Hrel as [E | [E | E]]; congruence. }
    split; simpl; rewrite ?length_insert; auto.
    + rewrite <- (list_insert_id _ _ _ Hd).
      apply Forall2_insert; [exact Htasks |]. right. now left.
    + rewrite (pending_insert _ _ _ _ Hi). simpl. lia.
  - (* done *)
    destruct (Forall2_lookup_r _ _ _ _ _ Htasks Hi) as (d & Hd & Hrel).
    assert (r = convertUser k d) as ->.
    { destruct Hrel as [E | [E | E]]; congruence. }
    split; simpl; rewrite ?length_insert; auto.
    + rewrite <- (list_insert_id _ _ _ Hd).
      apply Forall2_insert; [exact Htasks |]. right. now right.
    + rewrite (pending_insert _ _ _ _ Hi). simpl. lia.
    + intros Hb. specialize (Hback Hb). subst w.
      destruct (pending_zero_finished _ _ _ Hback Hi); discriminate.
  - (* crash *)
    split; simpl; auto.
Qed.

Lemma invariant_steps (k : Units) (users : Users) (s : Conc) :
  steps k (start users) s -> invariant k (Data users) s.
Proof.
  intros H. remember (start users) as s0 eqn:E.
  induction H as [s0 | s0 s1 s2 _ IH Hstep].
  - subst. apply invariant_start.
  - eapply invariant_step; [apply IH, E | exact Hstep].
Qed.

(** Once the main goroutine is back in the caller, the pool is the
    finished pool. *)
Lemma invariant_back (k : Units) (data : list User) (s : Conc) :
  invariant k data s -> pc s = BackInCaller ->
  pool s = finished_pool k data.
Proof.
  intros [Htasks Htodo Hwg Hpc Hback] Hb.
  specialize (Hback Hb). rewrite Hwg in Hback.
  assert (todo s = []) as Hnil by (apply Hpc; congruence).
  rewrite Hnil in Htodo.
  assert (length data <= length (pool s))%nat as Hlen.
  { pose proof (length_drop data (length (pool s))) as Hd.
    rewrite <- Htodo in Hd. simpl in Hd. lia. }
  rewrite take_ge in Htasks by exact Hlen.
  clear Htodo Hlen Hnil Hpc Hwg Hb.
  unfold finished_pool.
  induction Htasks as [|d t data pool Hrel _ IH]; [reflexivity |].
  simpl. pose proof (pending_nonneg pool).
  destruct Hrel as [-> | [-> | ->]]; simpl in Hback; try lia.
  f_equal. apply IH. exact Hback.
Qed.

(** Running each task to its end as soon as it is started. *)
Lemma steps_sequential (k : Units) (rest : list User) (pool : list Task)
    (out : list Event) :
  steps k
    {| todo := rest; pool := pool; wg := 0; out := out; pc := Ranging;
       crashed := false |}
    {| todo := []; pool := pool ++ finished_pool k rest; wg := 0;
       out := out ++ List.concat
                       (List.map (fun u => event_of (convertUser k u)) rest);
       pc := Ranging; crashed := false |}.
Proof.
  revert pool out. induction rest as [|user rest IH]; intros pool out.
  - simpl. rewrite !app_nil_r. apply steps_refl.
  - eapply steps_trans; [| eapply steps_trans; [apply IH |]].
    + eapply steps_more; [eapply steps_more; [apply steps_step |] |].
      * apply step_go.
      * apply (step_body k (length pool) user).
        rewrite lookup_app_r by lia. now rewrite Nat.sub_diag.
      * apply (step_done k (length pool) (convertUser k user)).
        rewrite insert_app_r_alt by lia. rewrite Nat.sub_diag. simpl.
        rewrite lookup_app_r by lia. now rewrite Nat.sub_diag.
    + rewrite !insert_app_r_alt by (rewrite ?length_app; simpl; lia).
      rewrite !Nat.sub_diag. simpl.
      replace (0 + 1 - 1) with 0 by lia.
      rewrite <- !app_assoc. simpl. apply steps_refl.
Qed.

Lemma steps_final (k : Units) (users : Users) :
  steps k (start users) (final k (Data users)).
Proof.
  eapply steps_more; [eapply steps_more; [apply steps_sequential |] |].
  - apply step_wait.
  - apply step_wake.
Qed.

Lemma pending_finished_pool (k : Units) (data : list User) :
  pending (finished_pool k data) = 0.
Proof. induction data as [|u data IH]; simpl; [reflexivity | exact IH]. Qed.

(** The finished pool holds what the summary [run_tasks] returns. *)
Lemma run_tasks_finished (k : Units) (data data' : list User)
    (evs : list Event) :
  run_tasks k data = Some (data', evs) ->
  finished_pool k data
  = zip_with (fun user ev => Finished (TaskDone user ev)) data' evs.
Proof.
  revert data' evs. induction data as [|u data IH]; intros data' evs Hrun.
  - injection Hrun as <- <-. reflexivity.
  - simpl in Hrun.
    destruct (convertUser k u) as [u' ev|] eqn:Hu; [| discriminate].
    destruct (run_tasks k data) as [[rest' evs']|]; [| discriminate].
    injection Hrun as <- <-. simpl. rewrite Hu. f_equal. now apply IH.
Qed.

(** C8: [convertUserBytes] starts one task per record, each working on its
    own record, and is back in its caller only when every task has run to
    its end: in every state the goroutines can reach, task [i] is the task
    of record [i] at some stage; once the main goroutine is past
    [wg.Wait()], every record's task is through its [wg.Done()], none is
    pending, and the tasks hold what the summary [convertUserBytes]
    returns; and the main goroutine can get there. *)
Theorem convertUserBytes_barrier :
  forall (users : Users) (useBinary : bool) (s : Conc),
    steps (units useBinary) (start users) s ->
    Forall2 (task_of (units useBinary))
      (firstn (length (pool s)) (Data users)) (pool s)
    /\ (pc s = BackInCaller ->
        pool s = finished_pool (units useBinary) (Data users)
        /\ pending (pool s) = 0
        /\ forall users' evs,
             convertUserBytes users useBinary = Some (users', evs) ->
             pool s = zip_with (fun user ev => Finished (TaskDone user ev))
                        (Data users') evs)
    /\ exists s', steps (units useBinary) (start users) s'
                  /\ pc s' = BackInCaller /\ crashed s' = false.
Proof.
  intros users useBinary s Hsteps.
  pose proof (invariant_steps _ _ _ Hsteps) as Hinv.
  split; [apply Hinv |]. split.
  - intros Hb. pose proof (invariant_back _ _ _ Hinv Hb) as Hpool.
    split; [exact Hpool |]. split.
    + rewrite Hpool. apply pending_finished_pool.
    + intros users' evs Hconv. rewrite Hpool.
      unfold convertUserBytes in Hconv.
      destruct (run_tasks (units useBinary) (Data users))
        as [[data' evs']|] eqn:Hrun; [| discriminate].
      injection Hconv as <- <-. simpl. now apply run_tasks_finished.
  - exists (final (units useBinary) (Data users)).
    split; [apply steps_final | split; reflexivity].
Qed.

Lemma convertUserBytes_barrier_witness :
  pool (final (units false) [fresh "bob" "2 KB"])
  = finished_pool (units false) [fresh "bob" "2 KB"].
Proof.
  apply (convertUserBytes_barrier (batch [fresh "bob" "2 KB"]) false
           (final (units false) [fresh "bob" "2 KB"])).
  - eapply steps_more;
      [eapply steps_more;
       [eapply steps_more;
        [eapply steps_more;
         [eapply steps_more; [apply steps_refl |] |] |] |] |].
    + apply (step_go _ (fresh "bob" "2 KB") [] [] 0 []).
    + apply (step_body _ 0%nat (fresh "bob" "2 KB")). reflexivity.
    + apply (step_done _ 0%nat
               (convertUser (units false) (fresh "bob" "2 KB"))).
      reflexivity.
    + apply step_wait.
    + apply step_wake.
  - reflexivity.
Defined.

End BarrierFacts.

(** ** The pagination loop of [GetAllUsers] *)

Section PaginationFacts.
Import Backupify.

Lemma wrap_small (z : Z) : - 2 ^ 63 <= z < 2 ^ 63 -> wrap z = z.
Proof. intros H. unfold wrap. rewrite Z.mod_small; lia. Qed.

(** The loop leaves the cache alone. *)
Lemma fetch_loop_cache (fuel : nat) (p : Provider) (payload : UserPayload)
    (all : Users) (w : World) :
  cache (loop_world (fetch_loop fuel p payload all w)) = cache w.
Proof.
  revert payload all w. induction fuel as [|fuel IH]; intros payload all w.
  - reflexivity.
  - simpl. destruct (result _) as [users | err]; [| reflexivity].
    destruct (_ <=? _); [| reflexivity].
    rewrite IH. reflexivity.
Qed.

(** The requests sent before the loop stay where they are. *)
Lemma fetch_loop_sent (fuel : nat) (p : Provider) (payload : UserPayload)
    (all : Users) (w : World) :
  exists more,
    sent (loop_world (fetch_loop fuel p payload all w)) = (sent w ++ more)%list
    /\ (length more <= fuel)%nat.
Proof.
  revert payload all w. induction fuel as [|fuel IH]; intros payload all w.
  - exists []. simpl. rewrite app_nil_r. split; [reflexivity | lia].
  - simpl. destruct (result _) as [users | err].
    + destruct (_ <=? _).
      * match goal with
        | |- context [fetch_loop fuel p ?pl ?al ?w'] =>
            destruct (IH pl al w') as (more & -> & Hlen)
        end.
        exists (payload :: more). simpl. rewrite <- app_assoc.
        split; [reflexivity | lia].
      * exists [payload]. simpl. split; [reflexivity | lia].
    + exists [payload]. simpl. split; [reflexivity | lia].
Qed.

(** A request of the loop that the provider answers with an error is the
    loop's last, and the loop ends at the fatal log call. *)
Lemma fetch_loop_failure (fuel : nat) (p : Provider) (payload : UserPayload)
    (all : Users) (w : World) (i : nat) (pl : UserPayload) (e : error) :
  (length (sent w) <= i)%nat ->
  sent (loop_world (fetch_loop fuel p payload all w)) !! i = Some pl ->
  result (p i pl) = inr e ->
  exists w', fetch_loop fuel p payload all w = LoopFatal e w'.
Proof.
  revert payload all w.
  induction fuel as [|fuel IH]; intros payload all w Hi Hsent He.
  - simpl in Hsent. apply lookup_lt_Some in Hsent. lia.
  - simpl in *.
    destruct (result (p (length (sent w)) payload)) as [users | err] eqn:Hres.
    + destruct (_ <=? _).
      * match type of Hsent with
        | context [fetch_loop fuel p ?pl' ?al ?w'] =>
            destruct (fetch_loop_sent fuel p pl' al w') as (more & Hs & _);
            specialize (IH pl' al w')
        end.
        simpl in *.
        destruct (decide (i = length (sent w))) as [-> | Hne].
        -- rewrite Hs, <- app_assoc in Hsent.
           rewrite lookup_app_r in Hsent by lia.
           rewrite Nat.sub_diag in Hsent. simpl in Hsent.
           injection Hsent as <-. congruence.
        -- apply IH; [rewrite length_app; simpl; lia | exact Hsent | exact He].
      * simpl in Hsent.
        rewrite lookup_app_r in Hsent by lia.
        destruct (i - length (sent w))%nat as [|n] eqn:Hd;
          [| destruct n; discriminate].
        simpl in Hsent. injection Hsent as <-.
        assert (i = length (sent w)) as -> by lia. congruence.
    + simpl in Hsent.
      rewrite lookup_app_r in Hsent by lia.
      destruct (i - length (sent w))%nat as [|n] eqn:Hd;
        [| destruct n; discriminate].
      simpl in Hsent. injection Hsent as <-.
      assert (i = length (sent w)) as -> by lia.
      rewrite Hres in He. injection He as <-. eauto.
Qed.

(** ** [GetAllUsers] *)

Lemma GetCache_Some (c : gmap string CacheEntry) (t : Z) (key : string)
    (users : Users) :
  GetCache c t key = Some users <->
  exists e, c !! key = Some e /\ t < expiresAt e /\ value e = users.
Proof.
  unfold GetCache. destruct (c !! key) as [e|].
  - destruct (Z.ltb_spec t (expiresAt e)); split.
    + intros [= <-]. eauto.
    + intros (e' & [= <-] & _ & <-). reflexivity.
    + discriminate.
    + intros (e' & [= <-] & Hlt & _). lia.
  - split; [discriminate | intros (e & H & _); discriminate].
Qed.

(** On a cache miss the requests of the call are those of its loop. *)
Lemma GetAllUsers_sent (url : string) (fuel : nat) (p : Provider)
    (w : World) :
  GetCache (cache w) (now w) url = None ->
  sent (world_of (GetAllUsers url fuel p w))
  = sent (loop_world
            (fetch_loop fuel p userPayload0 zeroUsers
               (print [Println "Getting all users from Backupify..."] w))).
Proof.
  intros Hmiss. unfold GetAllUsers. simpl cache. simpl now. rewrite Hmiss.
  destruct (fetch_loop _ _ _ _ _) as [all w' | err w' | pl all w'];
    try reflexivity.
  destruct (convertUserBytes all false) as [[all' evs]|]; reflexivity.
Qed.

(** C3, as the code has it: a page request that fails ends the run at
    [c.Log.Fatal] with that error; [GetAllUsers] does not return (no
    aggregate, no error value) and the cache is as it was before the call.
    Whenever [GetAllUsers] returns, its error result is [nil]. *)
Theorem GetAllUsers_failure_is_fatal :
  forall (url : string) (fuel : nat) (p : Provider) (w : World),
    (forall (i : nat) (payload : UserPayload) (e : error),
        (length (sent w) <= i)%nat ->
        sent (world_of (GetAllUsers url fuel p w)) !! i = Some payload ->
        result (p i payload) = inr e ->
        exists w',
          GetAllUsers url fuel p w = Fatal e w'
          /\ cache w' = cache w
          /\ results (GetAllUsers url fuel p w) = None)
    /\ (forall (users : Users) (err : option error) (w' : World),
           GetAllUsers url fuel p w = Returned users err w' -> err = None).
Proof.
  intros url fuel p w. split.
  - intros i payload e Hi Hsent He.
    destruct (GetCache (cache w) (now w) url) as [cached|] eqn:Hc.
    + unfold GetAllUsers in Hsent. simpl cache in Hsent. simpl now in Hsent.
      rewrite Hc in Hsent. simpl in Hsent.
      apply lookup_lt_Some in Hsent. lia.
    + rewrite (GetAllUsers_sent url fuel p w Hc) in Hsent.
      destruct (fetch_loop_failure fuel p userPayload0 zeroUsers
                  (print [Println "Getting all users from Backupify..."] w)
                  i payload e Hi Hsent He) as (w' & Hloop).
      pose proof (fetch_loop_cache fuel p userPayload0 zeroUsers
                    (print [Println "Getting all users from Backupify..."] w))
        as Hcache.
      rewrite Hloop in Hcache. simpl in Hcache.
      unfold GetAllUsers. simpl cache. simpl now. rewrite Hc, Hloop.
      exists w'. auto.
  - intros users err w' Hret. unfold GetAllUsers in Hret.
    destruct (GetCache _ _ _); [congruence |].
    destruct (fetch_loop _ _ _ _ _); try discriminate.
    destruct (convertUserBytes _ _) as [[? ?]|]; congruence.
Qed.

Lemma GetAllUsers_failure_is_fatal_witness :
  exists w',
    GetAllUsers sample_url 10
      (failing_at 1 "connection reset" (serve (records 180))) world0
    = Fatal "connection reset" w'
    /\ cache w' = cache world0
    /\ results (GetAllUsers sample_url 10
                  (failing_at 1 "connection reset" (serve (records 180)))
                  world0) = None.
Proof.
  apply (proj1 (GetAllUsers_failure_is_fatal sample_url 10
                  (failing_at 1 "connection reset" (serve (records 180)))
                  world0) 1%nat (set_Start userPayload0 75)).
  - simpl. lia.
  - vm_compute. reflexivity.
  - reflexivity.
Defined.

(** C3 as stated fails: the second page request of this run fails, and the
    call does not hand the error (nor anything else) back to its caller. *)
Lemma GetAllUsers_failure_not_returned :
  ~ exists users w',
      GetAllUsers sample_url 10
        (failing_at 1 "connection reset" (serve (records 180))) world0
      = Returned users (Some "connection reset") w'.
Proof.
  intros (users & w' & H). vm_compute in H. discriminate.
Qed.

(** What a call that returned leaves in the cache. *)
Lemma GetAllUsers_returned_cached (url : string) (fuel : nat) (p : Provider)
    (w : World) (users : Users) (err : option error) (w1 : World) :
  GetAllUsers url fuel p w = Returned users err w1 ->
  exists e,
    cache w1 !! url = Some e /\ value e = users
    /\ (GetCache (cache w) (now w) url = None ->
        expiresAt e = now w1 + 3 * Hour).
Proof.
  unfold GetAllUsers. simpl cache. simpl now.
  destruct (GetCache (cache w) (now w) url) as [cached|] eqn:Hc.
  - intros [= <- <- <-]. apply GetCache_Some in Hc as (e & He & _ & Hv).
    exists e. simpl. split; [exact He | split; [exact Hv | discriminate]].
  - destruct (fetch_loop _ _ _ _ _) as [all w' | |]; try discriminate.
    destruct (convertUserBytes all false) as [[all' evs]|]; [| discriminate].
    intros [= <- <- <-]. eexists. simpl. unfold SetCache.
    rewrite lookup_insert_eq. split; [reflexivity |]. simpl. auto.
Qed.

(** C4: a second call of [GetAllUsers] while the entry the first call
    left (or found) in the cache has not expired sends no request and
    returns the first call's result; after a first call that had to fetch,
    that is any time less than three hours after it returned. *)
Theorem GetAllUsers_second_call_cached :
  forall (url : string) (fuel : nat) (p : Provider) (w : World)
         (users : Users) (err : option error) (w1 : World),
    GetAllUsers url fuel p w = Returned users err w1 ->
    (forall (d : Z) (fuel' : nat) (p' : Provider),
        unexpired url w1 (now w1 + d) ->
        GetAllUsers url fuel' p' (later d w1)
        = Returned users err
            (print [Println "Getting all users from Backupify..."]
               (later d w1))
        /\ sent (world_of (GetAllUsers url fuel' p' (later d w1)))
           = sent w1)
    /\ (GetCache (cache w) (now w) url = None ->
        forall d : Z, 0 <= d < 3 * Hour -> unexpired url w1 (now w1 + d)).
Proof.
  intros url fuel p w users err w1 Hret.
  destruct (GetAllUsers_returned_cached _ _ _ _ _ _ _ Hret)
    as (e & He & Hv & Hexp).
  assert (err = None) as ->.
  { unfold GetAllUsers in Hret.
    destruct (GetCache _ _ _); [congruence |].
    destruct (fetch_loop _ _ _ _ _); try discriminate.
    destruct (convertUserBytes _ _) as [[? ?]|]; congruence. }
  split.
  - intros d fuel' p' (e' & He' & Hlt).
    assert (GetAllUsers url fuel' p' (later d w1)
            = Returned users None
                (print [Println "Getting all users from Backupify..."]
                   (later d w1))) as Hsecond.
    { unfold GetAllUsers. simpl cache. simpl now.
      replace (GetCache (cache w1) (now w1 + d) url) with (Some users);
        [reflexivity |].
      symmetry. apply GetCache_Some. exists e.
      rewrite He in He'. injection He' as <-. auto. }
    rewrite Hsecond. split; reflexivity.
  - intros Hmiss d Hd. exists e. split; [exact He |].
    rewrite (Hexp Hmiss). lia.
Qed.

Lemma GetAllUsers_second_call_cached_witness :
  exists users w1,
    GetAllUsers sample_url 4 (serve (records 180)) world0
    = Returned users None w1
    /\ GetAllUsers sample_url 0 (serve []) (later Hour w1)
       = Returned users None
           (print [Println "Getting all users from Backupify..."]
              (later Hour w1))
    /\ sent (world_of (GetAllUsers sample_url 0 (serve []) (later Hour w1)))
       = sent w1.
Proof.
  assert (exists users w1,
             GetAllUsers sample_url 4 (serve (records 180)) world0
             = Returned users None w1) as (users & w1 & E)
    by (do 2 eexists; vm_compute; reflexivity).
  exists users, w1. split; [exact E |].
  destruct (GetAllUsers_second_call_cached sample_url 4
              (serve (records 180)) world0 users None w1 E)
    as [Hhit Hfresh].
  apply Hhit, Hfresh; [reflexivity | vm_compute; split; congruence].
Defined.


Lemma GetCache_empty (t : Z) (key : string) : GetCache ∅ t key = None.
Proof. unfold GetCache. now rewrite lookup_empty. Qed.

(** A loop that has ended ends the same way with more fuel. *)
Lemma fetch_loop_more_fuel (fuel k : nat) (p : Provider)
    (payload : UserPayload) (all : Users) (w : World) :
  (forall pl al w',
      fetch_loop fuel p payload all w <> LoopOutOfFuel pl al w') ->
  fetch_loop (fuel + k) p payload all w = fetch_loop fuel p payload all w.
Proof.
  revert payload all w. induction fuel as [|fuel IH]; intros payload all w H.
  - exfalso. apply (H payload all w). reflexivity.
  - cbn [Nat.add fetch_loop] in *.
    destruct (do p payload w) as [[users | err] w1]; [| reflexivity].
    destruct (_ <=? _); [| reflexivity].
    apply IH, H.
Qed.

Lemma GetAllUsers_more_fuel (url : string) (fuel k : nat) (p : Provider)
    (w : World) :
  (forall pl al w', GetAllUsers url fuel p w <> OutOfFuel pl al w') ->
  GetAllUsers url (fuel + k) p w = GetAllUsers url fuel p w.
Proof.
  intros H. unfold GetAllUsers in *.
  destruct (GetCache _ _ _); [reflexivity |].
  rewrite fetch_loop_more_fuel; [reflexivity |].
  intros pl al w' E. rewrite E in H. apply (H pl al w'). reflexivity.
Qed.

(** The run against a provider of 180 records, with fuel for four
    requests: the windows it asks for and what it returns. *)
Lemma run_180 (url : string) :
  exists users w,
    GetAllUsers url 4 (serve (records 180)) world0 = Returned users None w
    /\ List.map window (sent w) = [(0, 75); (75, 75); (150, 75); (225, 75)]
    /\ List.map Name (Data users) = List.map Name (records 180)
    /\ List.map UsedBytes (Data users) = List.map UsedBytes (records 180).
Proof.
  unfold GetAllUsers. cbn [cache print world0]. rewrite GetCache_empty.
  match goal with
  | |- context [fetch_loop 4 ?p ?pl ?al ?w] =>
      let r := eval vm_compute in (fetch_loop 4 p pl al w) in
      replace (fetch_loop 4 p pl al w) with r by (vm_compute; reflexivity)
  end.
  match goal with
  | |- context [convertUserBytes ?u false] =>
      let r := eval vm_compute in (convertUserBytes u false) in
      replace (convertUserBytes u false) with r by (vm_compute; reflexivity)
  end.
  cbv iota beta.
  do 2 eexists. split; [reflexivity |].
  repeat split; vm_compute; reflexivity.
Qed.

(** Fuel for fewer than four requests does not see the run return. *)
Lemma run_180_short (url : string) (fuel : nat) :
  (fuel < 4)%nat ->
  exists payload all w,
    GetAllUsers url fuel (serve (records 180)) world0
    = OutOfFuel payload all w.
Proof.
  intros H. unfold GetAllUsers. cbn [cache print world0].
  rewrite GetCache_empty.
  do 4 (destruct fuel as [|fuel]; [do 3 eexists; vm_compute; reflexivity |]).
  lia.
Qed.

(** C1, as the code has it: against a provider of 180 records the run
    sends four requests, at the offsets 0, 75, 150 and 225; the one at 225,
    past the total, is the one whose response ends the loop, and with
    fewer than four requests the run has not returned.  The aggregate
    holds the 180 records in the order of the pages. *)
Theorem GetAllUsers_180_requests :
  forall (url : string) (fuel : nat),
    ((4 <= fuel)%nat ->
     exists users w,
       GetAllUsers url fuel (serve (records 180)) world0
       = Returned users None w
       /\ List.map Start (sent w) = [0; 75; 150; 225]
       /\ List.map Name (Data users) = List.map Name (records 180)
       /\ List.map UsedBytes (Data users) = List.map UsedBytes (records 180)
       /\ length (Data users) = 180%nat)
    /\ ((fuel < 4)%nat ->
        exists payload all w,
          GetAllUsers url fuel (serve (records 180)) world0
          = OutOfFuel payload all w).
Proof.
  intros url fuel. split; [| apply run_180_short].
  intros Hfuel.
  destruct (run_180 url) as (users & w & Hret & Hwin & Hname & Hbytes).
  exists users, w.
  replace fuel with (4 + (fuel - 4))%nat by lia.
  rewrite GetAllUsers_more_fuel by (rewrite Hret; discriminate).
  split; [exact Hret |]. split.
  - apply (f_equal (List.map fst)) in Hwin.
    rewrite List.map_map in Hwin. exact Hwin.
  - split; [exact Hname |]. split; [exact Hbytes |].
    apply (f_equal (@length string)) in Hname.
    rewrite !length_map in Hname. rewrite Hname. reflexivity.
Qed.

Lemma GetAllUsers_180_requests_witness :
  exists users w,
    GetAllUsers sample_url 10 (serve (records 180)) world0
    = Returned users None w
    /\ List.map Start (sent w) = [0; 75; 150; 225]
    /\ List.map Name (Data users) = List.map Name (records 180)
    /\ List.map UsedBytes (Data users) = List.map UsedBytes (records 180)
    /\ length (Data users) = 180%nat.
Proof.
  apply (proj1 (GetAllUsers_180_requests sample_url 10)). lia.
Defined.

(** C1 as stated fails: no run against the provider of 180 records
    returns after the three requests [(0, 75)], [(75, 75)], [(150, 30)]. *)
Lemma GetAllUsers_180_not_three_requests :
  ~ exists fuel users err w,
      GetAllUsers sample_url fuel (serve (records 180)) world0
      = Returned users err w
      /\ List.map window (sent w) = [(0, 75); (75, 75); (150, 30)].
Proof.
  intros (fuel & users & err & w & Hret & Hthree).
  destruct (le_lt_dec 4 fuel) as [Hfuel | Hfuel].
  - destruct (run_180 sample_url) as (users' & w' & Hret' & Hwin & _).
    replace fuel with (4 + (fuel - 4))%nat in Hret by lia.
    rewrite GetAllUsers_more_fuel in Hret by (rewrite Hret'; discriminate).
    rewrite Hret' in Hret. injection Hret as _ _ <-.
    rewrite Hwin in Hthree. discriminate Hthree.
  - destruct (run_180_short sample_url fuel Hfuel)
      as (pl & al & w' & Hout).
    rewrite Hout in Hret. discriminate Hret.
Qed.

(** Against a provider without records, once the first request is over
    the window is [(-75 k, -75)] after [k] requests, as long as [int] does
    not wrap. *)
Lemma fetch_loop_zero_total (n : nat) :
  forall (k : Z) (payload : UserPayload) (all : Users) (w : World),
    Start payload = -75 * k -> Length payload = -75 -> 1 <= k ->
    k + Z.of_nat n <= 122978293824730345 ->
    exists payload' all' w',
      fetch_loop n (serve []) payload all w = LoopOutOfFuel payload' all' w'
      /\ List.map window (sent w')
         = (List.map window (sent w)
            ++ List.map (fun i : nat => (-75 * (k + Z.of_nat i), -75))
                 (seq 0 n))%list.
Proof.
  induction n as [|n IH]; intros k payload all w HS HL Hk Hbound.
  - do 3 eexists. split; [reflexivity |]. simpl. now rewrite app_nil_r.
  - cbn [fetch_loop do serve result RecordsTotal].
    change (Z.of_nat (length [])) with 0.
    rewrite HL. change (int_sub 0 (-75) <? -75) with false. cbv iota.
    rewrite HS. replace (-75 * k <=? 0) with true
      by (symmetry; apply Z.leb_le; lia).
    destruct n as [|n].
    + do 3 eexists. split; [reflexivity |].
      cbn [sent]. rewrite map_app. cbn [List.map seq]. unfold window.
      rewrite HS, HL, Z.add_0_r. reflexivity.
    + match goal with
      | |- context [fetch_loop (S n) _ ?pl ?al ?w1] =>
          destruct (IH (k + 1) pl al w1) as (payload' & all' & w' & Hrun & Hw)
      end.
      * cbn [Start set_Start Length]. rewrite ?HS, ?HL. unfold int_add.
        rewrite wrap_small; lia.
      * exact HL.
      * lia.
      * lia.
      * exists payload', all', w'. split; [exact Hrun |].
        rewrite Hw. cbn [sent]. rewrite map_app, <- app_assoc.
        f_equal. change (seq 0 (S (S n))) with (0%nat :: seq 1 (S n)).
        cbn [List.map app]. unfold window at 1. rewrite HS, HL, Z.add_0_r.
        f_equal. rewrite <- seq_shift, List.map_map.
        apply List.map_ext. intros i. f_equal. lia.
Qed.

(** C2, on the code: against a provider that reports a total of zero the
    first response turns the length into [-75]; every later request is
    sent 75 further below zero, and the run is still in its loop after any
    number of requests up to 122978293824730345 (where the offset would
    leave the range of [int]). *)
Theorem GetAllUsers_zero_total_loops :
  forall (url : string) (fuel : nat),
    (1 <= fuel)%nat -> Z.of_nat fuel <= 122978293824730345 ->
    exists payload all w,
      GetAllUsers url fuel (serve []) world0 = OutOfFuel payload all w
      /\ List.map window (sent w)
         = (0, 75)
           :: List.map (fun i : nat => (-75 * (1 + Z.of_nat i), -75))
                (seq 0 (fuel - 1)).
Proof.
  intros url fuel Hpos Hbound.
  destruct fuel as [|n]; [lia |].
  unfold GetAllUsers. cbn [cache print world0]. rewrite GetCache_empty.
  cbn [fetch_loop do serve result RecordsTotal userPayload0
       Start Length set_Length set_Start].
  change (Z.of_nat (length [])) with 0.
  change (int_sub 0 75 <? 75) with true. cbv iota.
  cbn [Start Length set_Length set_Start]. change (0 <=? 0) with true.
  cbv iota.
  match goal with
  | |- context [fetch_loop n _ ?pl ?al ?w1] =>
      destruct (fetch_loop_zero_total n 1 pl al w1)
        as (payload' & all' & w' & Hrun & Hw)
  end; try reflexivity; try lia.
  rewrite Hrun. exists payload', all', w'. split; [reflexivity |].
  rewrite Hw. replace (S n - 1)%nat with n by lia. reflexivity.
Qed.

Lemma GetAllUsers_zero_total_loops_witness :
  exists payload all w,
    GetAllUsers sample_url 3 (serve []) world0 = OutOfFuel payload all w
    /\ List.map window (sent w) = [(0, 75); (-75, -75); (-150, -75)].
Proof.
  apply (GetAllUsers_zero_total_loops sample_url 3); [lia | lia].
Defined.

(** One turn of the loop against [serve all]. *)
Lemma fetch_loop_serve (fuel : nat) (all : list User) (payload : UserPayload)
    (allUsers : Users) (w : World) :
  fetch_loop (S fuel) (serve all) payload allUsers w
  = let total := Z.of_nat (length all) in
    let page :=
      if (Start payload <? 0) || (Length payload <? 0) then []
      else firstn (Z.to_nat (Length payload))
             (skipn (Z.to_nat (Start payload)) all) in
    let remaining := int_sub total (Length payload) in
    let length' :=
      if remaining <? Length payload then remaining else Length payload in
    let w1 := {| now := now w + 1000000; cache := cache w;
                 sent := sent w ++ [payload]; printed := printed w |} in
    if Start payload <=? total
    then fetch_loop fuel (serve all)
           (set_Start (set_Length payload length')
              (int_add (Start payload) length'))
           {| Draw := Draw allUsers; RecordsTotal := RecordsTotal allUsers;
              RecordsFiltered := RecordsFiltered allUsers;
              Data := Data allUsers ++ page |} w1
    else LoopBreak
           {| Draw := 1; RecordsTotal := total; RecordsFiltered := total;
              Data := Data allUsers |} w1.
Proof.
  destruct payload as [draw cols ords st len srch app].
  cbn [fetch_loop do serve result RecordsTotal RecordsFiltered Draw Data
       Start Length elapsed].
  cbv zeta.
  destruct (int_sub (Z.of_nat (length all)) len <? len); reflexivity.
Qed.

(** C7, on the code: against a provider of fewer than 75 records the
    second request is sent at [total - 75], below the first request's
    offset 0. *)
Theorem GetAllUsers_start_steps_back :
  forall (url : string) (all : list User),
    (length all < 75)%nat ->
    exists payload allUsers w,
      GetAllUsers url 2 (serve all) world0 = OutOfFuel payload allUsers w
      /\ List.map window (sent w)
         = [(0, 75);
            (Z.of_nat (length all) - 75, Z.of_nat (length all) - 75)]
      /\ Z.of_nat (length all) - 75 < 0.
Proof.
  intros url all Hsmall.
  unfold GetAllUsers. cbn [cache print world0]. rewrite GetCache_empty.
  rewrite fetch_loop_serve. cbv zeta.
  set (total := Z.of_nat (length all)).
  assert (0 <= total < 75) as Htotal by (unfold total; lia).
  change (Start userPayload0) with 0. change (Length userPayload0) with 75.
  unfold int_sub, int_add.
  rewrite (wrap_small (total - 75)) by lia.
  replace (total - 75 <? 75) with true by (symmetry; apply Z.ltb_lt; lia).
  replace (0 <=? total) with true by (symmetry; apply Z.leb_le; lia).
  rewrite (wrap_small (0 + (total - 75))) by lia.
  rewrite fetch_loop_serve. cbv zeta. fold total.
  cbn [Start Length set_Start set_Length].
  unfold int_sub.
  replace (0 + (total - 75) <=? total) with true
    by (symmetry; apply Z.leb_le; lia).
  do 3 eexists. split; [reflexivity |].
  split; [| lia]. cbn [sent app List.map]. unfold window.
  cbn [Start Length set_Start set_Length userPayload0].
  repeat f_equal; lia.
Qed.

Lemma GetAllUsers_start_steps_back_witness :
  exists payload allUsers w,
    GetAllUsers sample_url 2 (serve (records 50)) world0
    = OutOfFuel payload allUsers w
    /\ List.map window (sent w) = [(0, 75); (-25, -25)]
    /\ -25 < 0.
Proof.
  apply (GetAllUsers_start_steps_back sample_url (records 50)).
  vm_compute. lia.
Defined.

End PaginationFacts.

(** ** [google.NewClient] *)

Section GoogleFacts.
Import GoStrings Google.

Variable DedupeScopes : list string -> list string.
Variable LoadScopes : string -> list string + error.
Variable GetEnv : string -> string.
Variable ReadFile : string -> string + error.
Variable DecodeString : string -> string + error.
Variable Unmarshal : string -> option error.
Variable JWTConfigFromJSON : string -> list string -> string + error.
Variable Token : string -> string -> string + error.

Local Abbreviation New :=
  (NewClient DedupeScopes LoadScopes GetEnv ReadFile DecodeString Unmarshal
     JWTConfigFromJSON Token).

Lemma load_scopes_ok (services acc : list string) :
  Forall (fun service => exists s, LoadScopes service = inl s) services ->
  exists scopes, load_scopes LoadScopes services acc = inl scopes.
Proof.
  intros H. revert acc.
  induction H as [|service rest [s Hs] _ IH]; intros acc;
    cbn [load_scopes].
  - eauto.
  - rewrite Hs.
    destruct (HasPrefix service "https://www.googleapis.com/auth/");
      apply IH.
Qed.

Lemma len_bearer (key : string) :
  (len ("Bearer " ++ key) <=? 7) = (len key =? 0).
Proof.
  unfold len. rewrite string_length_app. simpl String.length.
  destruct (String.length key) as [|n]; [reflexivity |].
  rewrite (proj2 (Z.leb_gt _ _)) by lia.
  symmetry. apply Z.eqb_neq. lia.
Qed.

Lemma len_nonzero (s : string) : s <> "" -> (len s =? 0) = false.
Proof.
  intros H. apply Z.eqb_neq. unfold len.
  destruct s; [contradiction | simpl; lia].
Qed.

(** [GenerateJWT] returns a client and no error, or panics. *)
Lemma GenerateJWT_result (c : Client) (data : string) :
  GenerateJWT JWTConfigFromJSON Token c data = Panic
  \/ exists h, GenerateJWT JWTConfigFromJSON Token c data
               = Return (Some h) None.
Proof.
  unfold GenerateJWT.
  destruct (JWTConfigFromJSON _ _); [| now left].
  destruct (Token _ _); [right; eauto | now left].
Qed.

(** C9, as the code has it: once every service asked for has loaded,
    [NewClient] returns a [nil] client and a [nil] error for the API_KEY
    type when a key is supplied, and for the OAUTH_CLIENT type when the
    credentials decode; a client that is not [nil] comes back for the
    SERVICE_ACCOUNT type only, and then without an error. *)
Theorem NewClient_nil_client_nil_error :
  (forall (ac : AuthCredentials) (verbosity : Z),
      scopes_load DedupeScopes LoadScopes ac ->
      api_key_supplied GetEnv ac
      \/ oauth_client_decodable GetEnv DecodeString Unmarshal ac ->
      New ac verbosity = Return None None)
  /\ (forall (ac : AuthCredentials) (verbosity : Z) (c : Client)
             (err : option error),
         New ac verbosity = Return (Some c) err ->
         AuthType ac = SERVICE_ACCOUNT /\ err = None).
Proof.
  split.
  - intros ac verbosity Hscopes Htype.
    destruct (load_scopes_ok _ [] Hscopes) as (scopes & Hload).
    unfold NewClient. cbn [Auth Scopes set_Auth set_Scopes]. rewrite Hload.
    cbn [Auth CICD AuthType Credentials set_Auth set_Scopes].
    destruct Htype as [[Ht Hkey] | [Ht Hcred]]; rewrite Ht.
    + change (String.eqb API_KEY API_KEY) with true. cbv iota.
      rewrite !len_bearer.
      destruct (CICD ac); now rewrite (len_nonzero _ Hkey).
    + change (String.eqb OAUTH_CLIENT API_KEY) with false.
      change (String.eqb OAUTH_CLIENT OAUTH_CLIENT) with true. cbv iota.
      destruct (CICD ac); [| reflexivity].
      destruct (Hcred eq_refl) as (Hset & decoded & Hdec & Hjson).
      now rewrite (len_nonzero _ Hset), Hdec, Hjson.
  - intros ac verbosity c err. unfold NewClient.
    cbn [Auth Scopes set_Auth set_Scopes].
    destruct (load_scopes _ _ _) as [scopes | e]; [| discriminate].
    cbn [Auth CICD AuthType Credentials set_Auth set_Scopes].
    destruct (CICD ac);
      (destruct (String.eqb (AuthType ac) API_KEY);
       [destruct (_ <=? _); discriminate |]);
      (destruct (String.eqb (AuthType ac) OAUTH_CLIENT);
       [repeat match goal with
          | |- context [match ?x with _ => _ end] => destruct x
          end; discriminate |]);
      (destruct (String.eqb_spec (AuthType ac) SERVICE_ACCOUNT) as [Hsa |];
       [| discriminate]).
    + destruct (_ =? _); [discriminate |].
      destruct (DecodeString _) as [decoded | e]; [| discriminate].
      match goal with
      | |- context [GenerateJWT _ _ ?cl ?d] =>
          destruct (GenerateJWT_result cl d) as [-> | [h ->]]
      end; [discriminate |].
      intros [= <- <-]. auto.
    + match goal with
      | |- context [GenerateJWT _ _ ?cl ?d] =>
          destruct (GenerateJWT_result cl d) as [-> | [h ->]]
      end; [discriminate |].
      intros [= <- <-]. auto.
Qed.

End GoogleFacts.

Lemma NewClient_nil_client_nil_error_witness :
  Google.sample_NewClient Google.sample_api_key 1 = Google.Return None None.
Proof.
  apply (proj1 (NewClient_nil_client_nil_error (fun scopes => scopes)
                  Google.sample_LoadScopes Google.sample_GetEnv
                  (fun _ => inr "no such file") Google.sample_DecodeString
                  Google.sample_Unmarshal (fun _ _ => inr "no key")
                  (fun _ _ => inr "no token"))).
  - repeat constructor. eexists. reflexivity.
  - left. split; [reflexivity | discriminate].
Defined.

(** C9 as stated fails: with the type API_KEY and a key in the
    environment, a service among the scopes that does not load makes
    [NewClient] return that service's error, not a [nil] error. *)
Lemma NewClient_api_key_scope_error :
  Google.api_key_supplied Google.sample_GetEnv
    Google.sample_api_key_unknown_scope
  /\ Google.sample_NewClient Google.sample_api_key_unknown_scope 1
     = Google.Return None (Some "unknown service: Vault API")
  /\ Google.sample_NewClient Google.sample_api_key_unknown_scope 1
     <> Google.Return None None.
Proof.
  split; [split; [reflexivity | discriminate] |].
  split; [reflexivity |].
  intros H. vm_compute in H. discriminate H.
Qed.


(** ** [BuildURL] *)

Section BuildURLFacts.
Import GoStrings.

Lemma Sprintf_plain (path : string) :
  Fmt.plain path = true -> Fmt.Sprintf path [] = path.
Proof.
  induction path as [|c path IH]; [reflexivity |].
  cbn [Fmt.plain]. intros H. apply andb_true_iff in H as [Hc Hp].
  specialize (IH Hp).
  destruct c as [[] [] [] [] [] [] [] []]; try discriminate Hc;
    cbn [Fmt.Sprintf]; rewrite ?IH; reflexivity.
Qed.

Lemma Sprintf_plain_extra (path a : string) :
  Fmt.plain path = true ->
  Fmt.Sprintf path [a] = path ++ "%!(EXTRA string=" ++ a ++ ")".
Proof.
  induction path as [|c path IH]; [reflexivity |].
  cbn [Fmt.plain]. intros H. apply andb_true_iff in H as [Hc Hp].
  specialize (IH Hp).
  destruct c as [[] [] [] [] [] [] [] []]; try discriminate Hc;
    cbn [Fmt.Sprintf]; rewrite IH; reflexivity.
Qed.

Lemma Sprintf_template (path a : string) :
  Fmt.plain path = true -> Fmt.Sprintf ("%s" ++ path) [a] = a ++ path.
Proof. intros H. cbn. now rewrite Sprintf_plain. Qed.

Lemma Sprintf_slash (url id : string) :
  Fmt.Sprintf "%s/%s" [url; id] = url ++ "/" ++ id.
Proof. cbn. now rewrite app_empty_r. Qed.

Lemma fold_segments (identifiers : list string) (url : string) :
  fold_left (fun url id => Fmt.Sprintf "%s/%s" [url; id]) identifiers url
  = url ++ Fmt.segments identifiers.
Proof.
  revert url. induction identifiers as [|id rest IH]; intros url.
  - simpl. now rewrite app_empty_r.
  - cbn [fold_left Fmt.segments]. rewrite IH, Sprintf_slash.
    rewrite !app_assoc_string. reflexivity.
Qed.

Lemma segments_app (ids more : list string) :
  Fmt.segments (ids ++ more) = Fmt.segments ids ++ Fmt.segments more.
Proof.
  induction ids as [|id ids IH]; [reflexivity |].
  cbn [app Fmt.segments]. rewrite IH, !app_assoc_string. reflexivity.
Qed.

(** X1: for each of the seven Okta endpoint templates, [BuildURL] is the
    client's base URL, the endpoint's path, and then every identifier in
    the order given, each after one slash and otherwise as it was passed
    (an empty identifier leaves a bare slash); identifiers passed in two
    goes build the same URL as passed in one. *)
Theorem okta_BuildURL_segments :
  forall (c : Okta.Client) (endpoint : string) (ids more : list string),
    In endpoint Okta.endpoints ->
    Okta.BuildURL c endpoint (ids ++ more)
    = Okta.ClientBaseURL c ++ drop 2 endpoint ++ Fmt.segments ids
      ++ Fmt.segments more
    /\ Okta.BuildURL c endpoint (ids ++ more)
       = Okta.BuildURL c endpoint ids ++ Fmt.segments more.
Proof.
  intros c endpoint ids more Hin.
  assert (forall l, Okta.BuildURL c endpoint l
                    = Okta.ClientBaseURL c ++ drop 2 endpoint
                      ++ Fmt.segments l) as Hform.
  { intros l. unfold Okta.BuildURL. rewrite fold_segments.
    rewrite <- app_assoc_string. f_equal.
    unfold Okta.endpoints in Hin. simpl in Hin.
    repeat (destruct Hin as [<- | Hin];
            [reflexivity |]).
    contradiction. }
  rewrite !Hform, segments_app, !app_assoc_string. split; reflexivity.
Qed.

Lemma okta_BuildURL_segments_witness :
  Okta.BuildURL (Okta.NewClient Okta.sample_GetEnv 1) Okta.OktaUsers
    (["00u1"] ++ ["factors"; ""])
  = "https://acme.okta.com/api/v1" ++ "/users" ++ "/00u1" ++ "/factors/".
Proof.
  apply (okta_BuildURL_segments (Okta.NewClient Okta.sample_GetEnv 1)
           Okta.OktaUsers ["00u1"] ["factors"; ""]).
  simpl. tauto.
Defined.

(** X2: for the Google client and an endpoint template ["%s" + path] whose
    path has no percent sign, [BuildURL] is the base URL, the path and the
    identifiers, each after a slash; for an endpoint without any verb the
    base URL is not part of the URL but is reported behind it, as
    [%!(EXTRA string=...)]. *)
Theorem google_BuildURL_template :
  forall (c : Google.Client) (path : string) (ids : list string),
    Fmt.plain path = true ->
    Google.BuildURL c ("%s" ++ path) ids
    = Google.ClientBaseURL c ++ path ++ Fmt.segments ids
    /\ Google.BuildURL c path ids
       = path ++ "%!(EXTRA string=" ++ Google.ClientBaseURL c ++ ")"
         ++ Fmt.segments ids.
Proof.
  intros c path ids Hplain. unfold Google.BuildURL.
  rewrite !fold_segments, Sprintf_template, Sprintf_plain_extra
    by exact Hplain.
  rewrite !app_assoc_string. split; reflexivity.
Qed.

Lemma google_BuildURL_template_witness :
  Google.BuildURL
    {| Google.Auth := Google.sample_api_key;
       Google.ClientBaseURL := Google.BaseURL;
       Google.Verbosity := 1; Google.HTTP := None |}
    ("%s" ++ "/drive/v3/files") ["1a2b"; "permissions"]
  = "https://www.googleapis.com" ++ "/drive/v3/files"
    ++ "/1a2b/permissions".
Proof.
  apply (google_BuildURL_template
           {| Google.Auth := Google.sample_api_key;
              Google.ClientBaseURL := Google.BaseURL;
              Google.Verbosity := 1; Google.HTTP := None |}
           "/drive/v3/files" ["1a2b"; "permissions"]).
  reflexivity.
Defined.

End BuildURLFacts.


(** ** More on [convertUserBytes] *)

Section ConvertMore.
Import GoStrings Float64 Backupify.

(** Where a search starts counting does not change what it finds. *)
Lemma Index_from_shift (sub s : string) (i : Z) :
  (Index_from i s sub = -1 /\ Index_from 0 s sub = -1)
  \/ (Index_from i s sub = i + Index_from 0 s sub
      /\ 0 <= Index_from 0 s sub <= len s).
Proof.
  revert i. induction s as [|c s IH]; intros i; cbn [Index_from].
  - destruct (HasPrefix "" sub); [right | left].
    + unfold len. simpl. lia.
    + auto.
  - destruct (HasPrefix (String c s) sub).
    + right. unfold len. simpl String.length. lia.
    + unfold len in *. simpl String.length. change (0 + 1) with 1.
      destruct (IH (i + 1)) as [[-> H0] | [-> H0]];
        destruct (IH 1) as [[-> H1] | [-> H1]]; try lia.
Qed.

Lemma Index_bounds (s sub : string) :
  Index s sub = -1 \/ 0 <= Index s sub <= len s.
Proof.
  unfold Index. destruct (Index_from_shift sub s 0) as [[-> _] | [_ H]]; auto.
Qed.

(** The text before the first space, and what follows it. *)
Lemma Index_space_split (s : string) :
  0 <= Index s " " ->
  exists post,
    s = take (Z.to_nat (Index s " ")) s ++ " " ++ post
    /\ Index (take (Z.to_nat (Index s " ")) s) " " = -1.
Proof.
  unfold Index. induction s as [|c s IH]; cbn [Index_from HasPrefix];
    change (0 + 1) with 1.
  - intros H. lia.
  - destruct (Ascii.eqb_spec c " ") as [-> | Hc]; cbn [andb].
    + intros _. exists s. split; reflexivity.
    + destruct (Index_from_shift " " s 1) as [[-> H0] | [-> [H0 _]]];
        [lia |].
      intros _. destruct (IH H0) as (post & Hs & Hpre).
      exists post.
      replace (Z.to_nat (1 + Index_from 0 s " "))
        with (S (Z.to_nat (Index_from 0 s " "))) by lia.
      cbn [take]. split.
      * simpl. f_equal. exact Hs.
      * cbn [Index_from HasPrefix]. change (0 + 1) with 1.
        destruct (Ascii.eqb_spec c " ") as [E | _]; [contradiction |].
        cbn [andb].
        destruct (Index_from_shift " "
                    (take (Z.to_nat (Index_from 0 s " ")) s) 1)
          as [[-> _] | [_ [H1 _]]]; [reflexivity | lia].
Qed.

Lemma slice_to_Index (s : string) :
  slice_to s (Index s " ")
  = if Contains s " " then Some (take (Z.to_nat (Index s " ")) s) else None.
Proof.
  unfold slice_to, Contains.
  destruct (Index_bounds s " ") as [-> | [H0 H1]]; [reflexivity |].
  rewrite (proj2 (Z.leb_le _ _) H0), (proj2 (Z.leb_le _ _) H1).
  reflexivity.
Qed.

(** A task panics exactly on a record without a space. *)
Lemma convertUser_panic_iff (k : Units) (user : User) :
  convertUser k user = TaskPanic <-> spaced user = false.
Proof.
  unfold convertUser, spaced. rewrite slice_to_Index.
  destruct (Contains (UsedBytes user) " "); split; try reflexivity;
    try discriminate.
  destruct (Strconv.ParseFloat _) as [v [err|]]; discriminate.
Qed.

(** What a task leaves: the same name and string, and a line about the
    record; a second run of the task changes nothing. *)
Lemma convertUser_done (k : Units) (user user' : User) (ev : Event) :
  convertUser k user = TaskDone user' ev ->
  Name user' = Name user /\ UsedBytes user' = UsedBytes user
  /\ line_of user' ev
  /\ convertUser k user' = TaskDone user' ev.
Proof.
  unfold convertUser.
  destruct (slice_to (UsedBytes user) _) as [numeric|] eqn:Hs;
    [| discriminate].
  destruct (Strconv.ParseFloat numeric) as [v [err|]] eqn:Hp.
  - intros [= <- <-]. rewrite Hs, Hp.
    repeat split. right. eauto.
  - repeat match goal with
      | |- context [if Contains (UsedBytes user) ?u then _ else _] =>
          destruct (Contains (UsedBytes user) u) eqn:?
      end;
      intros [= <- <-];
      cbn [Name UsedBytes UsedBytesFloat set_UsedBytesFloat];
      rewrite Hs, Hp;
      repeat match goal with H : Contains _ _ = _ |- _ => rewrite H end;
      repeat split; now left.
Qed.

Lemma run_tasks_None (k : Units) (data : list User) :
  run_tasks k data = None <-> forallb spaced data = false.
Proof.
  induction data as [|u data IH]; simpl.
  - split; discriminate.
  - destruct (convertUser k u) as [u' ev|] eqn:Hu.
    + assert (spaced u = true) as ->.
      { destruct (spaced u) eqn:E; [reflexivity |].
        apply (convertUser_panic_iff k) in E. congruence. }
      simpl. rewrite <- IH.
      destruct (run_tasks k data) as [[? ?]|]; split; congruence.
    + apply convertUser_panic_iff in Hu. rewrite Hu. split; reflexivity.
Qed.

(** X3: [convertUserBytes] gets through a batch exactly when every record's
    string has a space; one record without a space and the batch is lost
    to the panic of that record's task, whatever the other records are. *)
Theorem convertUserBytes_completes_iff_spaced :
  forall (users : Users) (useBinary : bool),
    (forallb spaced (Data users) = true <->
     exists r, convertUserBytes users useBinary = Some r)
    /\ (forallb spaced (Data users) = false <->
        convertUserBytes users useBinary = None).
Proof.
  intros users useBinary.
  pose proof (run_tasks_None (units useBinary) (Data users)) as H.
  unfold convertUserBytes.
  destruct (run_tasks (units useBinary) (Data users)) as [[data evs]|];
    destruct (forallb spaced (Data users)).
  - split; split; eauto; discriminate.
  - exfalso. pose proof (proj2 H eq_refl) as E. discriminate E.
  - exfalso. pose proof (proj1 H eq_refl) as E. discriminate E.
  - split; split; try reflexivity; try discriminate.
    intros [r Hr]. discriminate Hr.
Qed.

Lemma convertUserBytes_completes_iff_spaced_witness :
  exists r,
    convertUserBytes
      (batch [fresh "ann" "512 bytes"; fresh "eve" "N/A MB";
              fresh "zed" " "]) true = Some r.
Proof.
  apply (proj1 (convertUserBytes_completes_iff_spaced
                  (batch [fresh "ann" "512 bytes"; fresh "eve" "N/A MB";
                          fresh "zed" " "]) true)).
  reflexivity.
Defined.

Lemma run_tasks_keeps (k : Units) (data data' : list User)
    (evs : list Event) :
  run_tasks k data = Some (data', evs) ->
  List.map Name data' = List.map Name data
  /\ List.map UsedBytes data' = List.map UsedBytes data
  /\ Forall2 line_of data' evs
  /\ run_tasks k data' = Some (data', evs).
Proof.
  revert data' evs. induction data as [|u data IH]; intros data' evs Hrun.
  - injection Hrun as <- <-. repeat split. constructor.
  - simpl in Hrun.
    destruct (convertUser k u) as [u' ev|] eqn:Hu; [| discriminate].
    destruct (run_tasks k data) as [[rest' evs']|]; [| discriminate].
    injection Hrun as <- <-.
    destruct (convertUser_done _ _ _ _ Hu) as (Hn & Hb & Hl & Hagain).
    destruct (IH rest' evs' eq_refl) as (IHn & IHb & IHl & IHagain).
    simpl. rewrite Hn, Hb, IHn, IHb, Hagain, IHagain.
    repeat split. now constructor.
Qed.

(** X4: a batch that [convertUserBytes] gets through keeps its records in
    number and order, each with the name and the string it came with, and
    keeps its draw and totals; the only field written is the derived
    value.  One line is printed per record, about that record. *)
Theorem convertUserBytes_keeps_records :
  forall (users users' : Users) (useBinary : bool) (evs : list Event),
    convertUserBytes users useBinary = Some (users', evs) ->
    List.map Name (Data users') = List.map Name (Data users)
    /\ List.map UsedBytes (Data users') = List.map UsedBytes (Data users)
    /\ length (Data users') = length (Data users)
    /\ Draw users' = Draw users
    /\ RecordsTotal users' = RecordsTotal users
    /\ RecordsFiltered users' = RecordsFiltered users
    /\ Forall2 line_of (Data users') evs.
Proof.
  intros users users' useBinary evs Hconv. unfold convertUserBytes in Hconv.
  destruct (run_tasks (units useBinary) (Data users)) as [[data' evs']|]
    eqn:Hrun; [| discriminate].
  injection Hconv as <- <-. cbn [Data Draw RecordsTotal RecordsFiltered].
  destruct (run_tasks_keeps _ _ _ _ Hrun) as (Hn & Hb & Hl & _).
  destruct (run_tasks_length _ _ _ _ Hrun) as [Hlen _].
  auto 10.
Qed.

Lemma convertUserBytes_keeps_records_witness :
  List.map Name
    (Data (batch [set_UsedBytesFloat (fresh "bob" "2 KB") (of_Z 2000)]))
  = List.map Name (Data (batch [fresh "bob" "2 KB"])).
Proof.
  apply (convertUserBytes_keeps_records (batch [fresh "bob" "2 KB"])
           (batch [set_UsedBytesFloat (fresh "bob" "2 KB") (of_Z 2000)])
           false [Converted "2 KB" (of_Z 2000) "bob"]).
  vm_compute. reflexivity.
Defined.

(** X5: converting a converted batch again, with the same base, returns
    it unchanged and prints the same lines: the derived value depends on
    the record's string only, never on the value already there, except
    where the string gives none, and then the value is left alone both
    times. *)
Theorem convertUserBytes_idempotent :
  forall (users users' : Users) (useBinary : bool) (evs : list Event),
    convertUserBytes users useBinary = Some (users', evs) ->
    convertUserBytes users' useBinary = Some (users', evs).
Proof.
  intros users users' useBinary evs Hconv. unfold convertUserBytes in *.
  destruct (run_tasks (units useBinary) (Data users)) as [[data' evs']|]
    eqn:Hrun; [| discriminate].
  injection Hconv as <- <-. cbn [Data Draw RecordsTotal RecordsFiltered].
  destruct (run_tasks_keeps _ _ _ _ Hrun) as (_ & _ & _ & ->).
  reflexivity.
Qed.

Lemma convertUserBytes_idempotent_witness :
  convertUserBytes
    (batch [set_UsedBytesFloat (fresh "bob" "2 KB") (of_Z 2000)]) false
  = Some (batch [set_UsedBytesFloat (fresh "bob" "2 KB") (of_Z 2000)],
          [Converted "2 KB" (of_Z 2000) "bob"]).
Proof.
  apply (convertUserBytes_idempotent (batch [fresh "bob" "2 KB"])).
  vm_compute. reflexivity.
Defined.

(** X6: what a task hands to [ParseFloat] is the text before the first
    space of the record's string, whatever follows that space: the string
    is that text, a space and a rest, the text itself has no space, and
    the task's outcome is decided by the parse of that text. *)
Theorem convertUser_parses_first_field :
  forall (k : Units) (user : User),
    spaced user = true ->
    exists numeric rest,
      UsedBytes user = numeric ++ " " ++ rest
      /\ Index numeric " " = -1
      /\ (forall v err,
             Strconv.ParseFloat numeric = (v, Some err) ->
             convertUser k user
             = TaskDone user (ErrorConverting (Name user) err))
      /\ (forall v,
             Strconv.ParseFloat numeric = (v, None) ->
             exists user',
               convertUser k user
               = TaskDone user'
                   (Converted (UsedBytes user) (UsedBytesFloat user')
                      (Name user))).
Proof.
  intros k user Hsp. unfold spaced in Hsp.
  assert (0 <= Index (UsedBytes user) " ") as H0
    by (apply Z.leb_le; exact Hsp).
  destruct (Index_space_split _ H0) as (post & Hsplit & Hpre).
  exists (take (Z.to_nat (Index (UsedBytes user) " ")) (UsedBytes user)), post.
  split; [exact Hsplit |]. split; [exact Hpre |].
  unfold convertUser. rewrite slice_to_Index, Hsp.
  split.
  - intros v err ->. reflexivity.
  - intros v ->.
    repeat match goal with
      | |- context [if Contains (UsedBytes user) ?u then _ else _] =>
          destruct (Contains (UsedBytes user) u)
      end; eexists; reflexivity.
Qed.

Lemma convertUser_parses_first_field_witness :
  exists numeric rest,
    UsedBytes (fresh "liz" "7 GB of 15 GB") = numeric ++ " " ++ rest
    /\ Index numeric " " = -1
    /\ (forall v err,
           Strconv.ParseFloat numeric = (v, Some err) ->
           convertUser (units false) (fresh "liz" "7 GB of 15 GB")
           = TaskDone (fresh "liz" "7 GB of 15 GB")
               (ErrorConverting (Name (fresh "liz" "7 GB of 15 GB")) err))
    /\ (forall v,
           Strconv.ParseFloat numeric = (v, None) ->
           exists user',
             convertUser (units false) (fresh "liz" "7 GB of 15 GB")
             = TaskDone user'
                 (Converted (UsedBytes (fresh "liz" "7 GB of 15 GB"))
                    (UsedBytesFloat user')
                    (Name (fresh "liz" "7 GB of 15 GB")))).
Proof.
  apply (convertUser_parses_first_field (units false)
           (fresh "liz" "7 GB of 15 GB")).
  reflexivity.
Defined.

End ConvertMore.


(** ** More on the goroutines of [convertUserBytes] *)

Section BarrierMore.
Import Backupify.
Local Open Scope list_scope.

(** X7: in every state the goroutines can reach, the WaitGroup counter is
    the number of tasks that have not run their [wg.Done()] yet: it is
    never negative (no [wg.Done()] ever drives it below zero) and never
    above the number of tasks started. *)
Theorem WaitGroup_counts_unfinished :
  forall (users : Users) (useBinary : bool) (s : Conc),
    steps (units useBinary) (start users) s ->
    wg s = pending (pool s)
    /\ 0 <= wg s <= Z.of_nat (length (pool s))
    /\ (length (pool s) + length (todo s) = length (Data users))%nat.
Proof.
  intros users useBinary s Hsteps.
  destruct (invariant_steps _ _ _ Hsteps) as [Htasks Htodo Hwg _ _].
  split; [exact Hwg |]. split.
  - rewrite Hwg. clear. induction (pool s) as [|[] p IH]; simpl length;
      simpl pending; lia.
  - apply Forall2_length in Htasks. rewrite length_take in Htasks.
    rewrite Htodo, length_drop. lia.
Qed.

Lemma WaitGroup_counts_unfinished_witness :
  wg (final (units false) [fresh "bob" "2 KB"])
  = pending (pool (final (units false) [fresh "bob" "2 KB"]))
  /\ 0 <= wg (final (units false) [fresh "bob" "2 KB"])
     <= Z.of_nat (length (pool (final (units false) [fresh "bob" "2 KB"])))
  /\ (length (pool (final (units false) [fresh "bob" "2 KB"]))
      + length (todo (final (units false) [fresh "bob" "2 KB"]))
      = length (Data (batch [fresh "bob" "2 KB"])))%nat.
Proof.
  apply (WaitGroup_counts_unfinished (batch [fresh "bob" "2 KB"]) false).
  apply (steps_final (units false) (batch [fresh "bob" "2 KB"])).
Defined.

Lemma spaced_forall (data : list User) (i : nat) (user : User) :
  forallb spaced data = true -> data !! i = Some user -> spaced user = true.
Proof.
  intros Hall Hi. rewrite forallb_forall in Hall. apply Hall.
  apply list_elem_of_In, list_elem_of_lookup. eauto.
Qed.

(** X8: when every record's string has a space, no schedule of the
    goroutines crashes the program, and no task ever ends in a panic. *)
Theorem spaced_batch_never_crashes :
  forall (users : Users) (useBinary : bool) (s : Conc),
    forallb spaced (Data users) = true ->
    steps (units useBinary) (start users) s ->
    crashed s = false
    /\ forall i r, pool s !! i = Some (Finished r) -> r <> TaskPanic.
Proof.
  intros users useBinary s Hall Hsteps.
  assert (forall s', steps (units useBinary) (start users) s' ->
                     forall i r, pool s' !! i = Some (Finished r) ->
                                 r <> TaskPanic) as Hfin.
  { intros s' Hs' i r Hi ->.
    destruct (invariant_steps _ _ _ Hs') as [Htasks _ _ _ _].
    destruct (Forall2_lookup_r _ _ _ _ _ Htasks Hi) as (d & Hd & Hrel).
    rewrite lookup_take_Some in Hd. destruct Hd as [Hd _].
    pose proof (spaced_forall _ _ _ Hall Hd) as Hsp.
    destruct Hrel as [E | [E | E]]; try discriminate E.
    injection E as E. symmetry in E.
    apply convertUser_panic_iff in E. congruence. }
  split; [| apply Hfin, Hsteps].
  remember (start users) as s0 eqn:E0.
  induction Hsteps as [s0 | s0 s1 s2 H01 IH Hstep].
  - subst. reflexivity.
  - subst s0. specialize (IH eq_refl).
    destruct Hstep; try reflexivity.
    exfalso. eapply (Hfin _ H01); [eassumption | reflexivity].
Qed.

Lemma spaced_batch_never_crashes_witness :
  crashed (final (units false) [fresh "bob" "2 KB"]) = false
  /\ forall i r,
       pool (final (units false) [fresh "bob" "2 KB"]) !! i
       = Some (Finished r) -> r <> TaskPanic.
Proof.
  apply (spaced_batch_never_crashes (batch [fresh "bob" "2 KB"]) false).
  - reflexivity.
  - apply (steps_final (units false) (batch [fresh "bob" "2 KB"])).
Defined.

Lemma printed_insert_body (k : Units) (pool : list Task) (i : nat)
    (user : User) :
  pool !! i = Some (Running user) ->
  Permutation
    (List.concat
       (List.map printed_by (<[i := Exiting (convertUser k user)]> pool)))
    (List.concat (List.map printed_by pool)
     ++ event_of (convertUser k user)).
Proof.
  revert i. induction pool as [|t pool IH]; intros i Hi; [discriminate |].
  destruct i as [|i]; simpl in Hi.
  - injection Hi as ->. simpl. apply Permutation_app_comm.
  - simpl. rewrite (IH i Hi). now rewrite app_assoc.
Qed.

Lemma printed_insert_done (pool : list Task) (i : nat) (r : TaskResult) :
  pool !! i = Some (Exiting r) ->
  List.concat (List.map printed_by (<[i := Finished r]> pool))
  = List.concat (List.map printed_by pool).
Proof.
  revert i. induction pool as [|t pool IH]; intros i Hi; [discriminate |].
  destruct i as [|i]; simpl in Hi.
  - injection Hi as ->. reflexivity.
  - simpl. now rewrite (IH i Hi).
Qed.

(** What has been printed is what the tasks have printed. *)
Lemma printed_steps (k : Units) (users : Users) (s : Conc) :
  steps k (start users) s ->
  Permutation (out s) (List.concat (List.map printed_by (pool s))).
Proof.
  intros H. remember (start users) as s0 eqn:E.
  induction H as [s0 | s0 s1 s2 _ IH Hstep].
  - subst. reflexivity.
  - specialize (IH E). clear E.
    destruct Hstep
      as [user rest pl w o | pl w o | td pl o
         | i user td pl w o p Hi | i r td pl w o p Hi | i td pl w o p Hi];
      simpl in *; try exact IH.
    + rewrite List.map_app, List.concat_app. simpl.
      now rewrite app_nil_r.
    + rewrite (printed_insert_body k pl i user Hi).
      now apply Permutation_app_tail.
    + now rewrite (printed_insert_done pl i r Hi).
Qed.

Lemma run_tasks_events (k : Units) (data data' : list User)
    (evs : list Event) :
  run_tasks k data = Some (data', evs) ->
  List.concat (List.map printed_by (finished_pool k data)) = evs.
Proof.
  revert data' evs. induction data as [|u data IH]; intros data' evs Hrun.
  - injection Hrun as <- <-. reflexivity.
  - simpl in Hrun.
    destruct (convertUser k u) as [u' ev|] eqn:Hu; [| discriminate].
    destruct (run_tasks k data) as [[rest' evs']|]; [| discriminate].
    injection Hrun as <- <-. simpl. rewrite Hu. simpl. f_equal.
    now apply (IH rest').
Qed.

(** X9: whatever the schedule, when [convertUserBytes] is back in its
    caller the lines printed are those of the record-by-record summary,
    each exactly once, in some order. *)
Theorem printed_lines_any_schedule :
  forall (users users' : Users) (useBinary : bool) (evs : list Event)
         (s : Conc),
    steps (units useBinary) (start users) s ->
    pc s = BackInCaller ->
    convertUserBytes users useBinary = Some (users', evs) ->
    Permutation (out s) evs /\ length (out s) = length (Data users).
Proof.
  intros users users' useBinary evs s Hsteps Hback Hconv.
  pose proof (printed_steps _ _ _ Hsteps) as Hout.
  rewrite (invariant_back _ _ _ (invariant_steps _ _ _ Hsteps) Hback)
    in Hout.
  unfold convertUserBytes in Hconv.
  destruct (run_tasks (units useBinary) (Data users)) as [[data' evs']|]
    eqn:Hrun; [| discriminate].
  injection Hconv as <- <-.
  rewrite (run_tasks_events _ _ _ _ Hrun) in Hout.
  split; [exact Hout |].
  rewrite (Permutation_length Hout).
  apply (run_tasks_length _ _ _ _ Hrun).
Qed.

Lemma printed_lines_any_schedule_witness :
  Permutation (out (final (units false) [fresh "bob" "2 KB"]))
    [Converted "2 KB" (Float64.of_Z 2000) "bob"]
  /\ length (out (final (units false) [fresh "bob" "2 KB"]))
     = length (Data (batch [fresh "bob" "2 KB"])).
Proof.
  apply (printed_lines_any_schedule (batch [fresh "bob" "2 KB"])
           (batch [set_UsedBytesFloat (fresh "bob" "2 KB")
                     (Float64.of_Z 2000)]) false).
  - apply (steps_final (units false) (batch [fresh "bob" "2 KB"])).
  - reflexivity.
  - vm_compute. reflexivity.
Defined.

(** The tasks already started can all be run to their end. *)
Lemma steps_drain (k : Units) (rest : list Task) :
  forall (pre : list Task) (todo : list User) (w : Z) (o : list Event)
         (p : MainPC),
    exists o',
      steps k
        {| todo := todo; pool := pre ++ rest; wg := w; out := o; pc := p;
           crashed := false |}
        {| todo := todo; pool := pre ++ List.map (finish k) rest;
           wg := w - pending rest; out := o'; pc := p; crashed := false |}.
Proof.
  induction rest as [|t rest IH]; intros pre todo w o p.
  - exists o. simpl. rewrite Z.sub_0_r. apply steps_refl.
  - assert (forall r o1,
               exists o',
                 steps k
                   {| todo := todo; pool := pre ++ Finished r :: rest;
                      wg := w - pending [t]; out := o1; pc := p;
                      crashed := false |}
                   {| todo := todo;
                      pool := pre ++ Finished r :: List.map (finish k) rest;
                      wg := w - pending (t :: rest); out := o'; pc := p;
                      crashed := false |}) as Htail.
    { intros r o1.
      destruct (IH (pre ++ [Finished r]) todo (w - pending [t]) o1 p)
        as (o' & Hs).
      exists o'. rewrite <- !app_assoc in Hs. simpl in Hs.
      replace (w - pending (t :: rest))
        with (w - pending [t] - pending rest)
        by (destruct t; simpl; lia).
      exact Hs. }
    assert (forall r o1,
               exists o',
                 steps k
                   {| todo := todo; pool := pre ++ Exiting r :: rest;
                      wg := w; out := o1; pc := p; crashed := false |}
                   {| todo := todo;
                      pool := pre ++ Finished r :: List.map (finish k) rest;
                      wg := w - 1 - pending rest; out := o'; pc := p;
                      crashed := false |}) as Hexit.
    { intros r o1.
      destruct (IH (pre ++ [Finished r]) todo (w - 1) o1 p) as (o' & Hs).
      exists o'. rewrite <- !app_assoc in Hs. simpl in Hs.
      eapply steps_trans; [| exact Hs].
      apply steps_step.
      replace (pre ++ Finished r :: rest)
        with (<[length pre := Finished r]> (pre ++ Exiting r :: rest)).
      - apply (step_done k (length pre) r).
        rewrite lookup_app_r by lia. now rewrite Nat.sub_diag.
      - rewrite insert_app_r_alt by lia. now rewrite Nat.sub_diag. }
    destruct t as [user | r | r]; cbn [List.map finish].
    + destruct (Hexit (convertUser k user)
                  (o ++ event_of (convertUser k user))) as (o' & Hs).
      exists o'.
      replace (w - pending (Running user :: rest))
        with (w - 1 - pending rest) by (simpl; lia).
      eapply steps_trans; [| exact Hs].
      apply steps_step.
      replace (pre ++ Exiting (convertUser k user) :: rest)
        with (<[length pre := Exiting (convertUser k user)]>
                (pre ++ Running user :: rest)).
      * apply (step_body k (length pre) user).
        rewrite lookup_app_r by lia. now rewrite Nat.sub_diag.
      * rewrite insert_app_r_alt by lia. now rewrite Nat.sub_diag.
    + destruct (Hexit r o) as (o' & Hs). exists o'.
      replace (w - pending (Exiting r :: rest))
        with (w - 1 - pending rest) by (simpl; lia).
      exact Hs.
    + destruct (Htail r o) as (o' & Hs). exists o'.
      replace (w - pending [Finished r]) with w in Hs by (simpl; lia).
      exact Hs.
Qed.

(** X10: the barrier cannot block for ever: from every state the
    goroutines can reach without a crash, some schedule brings
    [convertUserBytes] back to its caller. *)
Theorem barrier_never_deadlocks :
  forall (users : Users) (useBinary : bool) (s : Conc),
    steps (units useBinary) (start users) s ->
    crashed s = false ->
    exists s',
      steps (units useBinary) s s'
      /\ pc s' = BackInCaller /\ crashed s' = false.
Proof.
  intros users useBinary s Hsteps Hlive.
  destruct (invariant_steps _ _ _ Hsteps) as [_ _ Hwg Hpc _].
  destruct s as [td pl w o p cr]. simpl in *. subst cr w.
  destruct (steps_drain (units useBinary) pl [] td (pending pl) o p)
    as (o1 & Hdrain).
  simpl in Hdrain. rewrite Z.sub_diag in Hdrain.
  destruct p.
  - eexists. split.
    + eapply steps_more;
        [eapply steps_more;
         [eapply steps_trans; [exact Hdrain | apply steps_sequential] |] |].
      * apply step_wait.
      * apply step_wake.
    + split; reflexivity.
  - rewrite (Hpc ltac:(discriminate)) in *.
    eexists. split.
    + eapply steps_more; [exact Hdrain | apply step_wake].
    + split; reflexivity.
  - eexists. split; [exact Hdrain | split; reflexivity].
Qed.

Lemma barrier_never_deadlocks_witness :
  exists s',
    steps (units false) (start (batch [fresh "bob" "2 KB"])) s'
    /\ pc s' = BackInCaller /\ crashed s' = false.
Proof.
  apply (barrier_never_deadlocks (batch [fresh "bob" "2 KB"]) false
           (start (batch [fresh "bob" "2 KB"]))).
  - apply steps_refl.
  - reflexivity.
Defined.

End BarrierMore.


(** ** [filterUsersBySize] *)

Section FilterFacts.
Import Float64 Backupify.
Local Open Scope list_scope.

Ltac order_cases :=
  repeat match goal with
    | |- context [Z.compare ?a ?b] => destruct (Z.compare_spec a b)
    | |- context [Pos.compare ?a ?b] => destruct (Pos.compare_spec a b)
    end.

(** [x > y] and [y >= z] give [x > z]. *)
Lemma gtb_leb_trans (x y z : float64) :
  gtb x y = true -> SFleb z y = true -> gtb x z = true.
Proof.
  unfold gtb, SFltb, SFleb, SFcompare.
  destruct x as [sx | sx | | sx mx ex], y as [sy | sy | | sy my ey],
    z as [sz | sz | | sz mz ez];
    try destruct sx; try destruct sy; try destruct sz;
    try discriminate; try reflexivity;
    change (Pos.compare_cont Eq) with Pos.compare;
    order_cases; subst; simpl; intros; try discriminate; try reflexivity;
    lia.
Qed.

Lemma gtb_nan_l (y : float64) : gtb S754_nan y = false.
Proof. unfold gtb, SFltb, SFcompare. now destruct y. Qed.

Lemma gtb_nan_r (x : float64) : gtb x S754_nan = false.
Proof. unfold gtb, SFltb, SFcompare. now destruct x. Qed.

Lemma gtb_irrefl_zero (y : float64) :
  SFleb zero y = true -> gtb zero y = false.
Proof.
  unfold gtb, zero, SFltb, SFleb, SFcompare.
  destruct y as [s | s | | s m e]; try destruct s; try discriminate;
    reflexivity.
Qed.

Lemma filter_filter_implied {A : Type} (p q : A -> bool) (l : list A) :
  (forall x, q x = true -> p x = true) ->
  List.filter q (List.filter p l) = List.filter q l.
Proof.
  intros Himp. induction l as [|x l IH]; [reflexivity |].
  simpl. destruct (p x) eqn:Hp; simpl.
  - now rewrite IH.
  - destruct (q x) eqn:Hq; [| exact IH].
    rewrite (Himp x Hq) in Hp. discriminate Hp.
Qed.

Lemma filter_sublist {A : Type} (p : A -> bool) (l : list A) :
  sublist (List.filter p l) l.
Proof.
  induction l as [|x l IH]; simpl; [constructor |].
  destruct (p x); now constructor.
Qed.

(** X11: the size filter keeps records in their order, and keeps only
    records whose derived value is above the size: never a record whose
    value is NaN, never any record when the size is NaN, and, for a size
    that is not negative, never a record whose derived value was left at
    zero.  It prints one line per record kept, and leaves the draw and the
    totals of its result at zero however many records it keeps. *)
Theorem filterUsersBySize_selects :
  forall (users : Users) (size : float64),
    sublist (Data (fst (filterUsersBySize users size))) (Data users)
    /\ Forall (fun user => gtb (UsedBytesFloat user) size = true
                           /\ UsedBytesFloat user <> S754_nan)
         (Data (fst (filterUsersBySize users size)))
    /\ (SFleb zero size = true ->
        Forall (fun user => UsedBytesFloat user <> zero)
          (Data (fst (filterUsersBySize users size))))
    /\ (size = S754_nan -> Data (fst (filterUsersBySize users size)) = [])
    /\ length (snd (filterUsersBySize users size))
       = length (Data (fst (filterUsersBySize users size)))
    /\ RecordsTotal (fst (filterUsersBySize users size)) = 0
    /\ RecordsFiltered (fst (filterUsersBySize users size)) = 0.
Proof.
  intros users size. unfold filterUsersBySize.
  cbn [fst snd Data RecordsTotal RecordsFiltered].
  assert (Forall (fun user => gtb (UsedBytesFloat user) size = true)
            (List.filter (fun user => gtb (UsedBytesFloat user) size)
               (Data users))) as Hsel.
  { apply Forall_forall. intros user Hin.
    apply list_elem_of_In, filter_In in Hin. apply Hin. }
  split; [apply filter_sublist |]. split; [| split; [| split]].
  - eapply Forall_impl; [exact Hsel |]. intros user Hgt. cbv beta in Hgt.
    split; [exact Hgt |]. intros E. rewrite E, gtb_nan_l in Hgt.
    discriminate Hgt.
  - intros Hsize. eapply Forall_impl; [exact Hsel |]. intros user Hgt E. cbv beta in Hgt.
    rewrite E, (gtb_irrefl_zero _ Hsize) in Hgt. discriminate Hgt.
  - intros ->. clear Hsel.
    induction (Data users) as [|u l IH]; [reflexivity |].
    cbn [List.filter]. rewrite gtb_nan_r. exact IH.
  - rewrite length_map. auto.
Qed.

Lemma filterUsersBySize_selects_witness :
  Forall (fun user => UsedBytesFloat user <> zero)
    (Data (fst (filterUsersBySize
                  (batch [fresh "eve" "N/A MB";
                          set_UsedBytesFloat (fresh "bob" "2 KB")
                            (of_Z 2000)])
                  (of_Z 0)))).
Proof.
  apply (filterUsersBySize_selects
           (batch [fresh "eve" "N/A MB";
                   set_UsedBytesFloat (fresh "bob" "2 KB") (of_Z 2000)])
           (of_Z 0)).
  reflexivity.
Defined.

(** X12: raising the size only removes records: filtering what a filter
    kept, by a size that is not below the first, gives what filtering the
    whole batch by the second size gives, records and printed lines
    alike. *)
Theorem filterUsersBySize_raise :
  forall (users : Users) (size size' : float64),
    SFleb size size' = true ->
    filterUsersBySize (fst (filterUsersBySize users size)) size'
    = filterUsersBySize users size'
    /\ sublist (Data (fst (filterUsersBySize users size')))
         (Data (fst (filterUsersBySize users size))).
Proof.
  intros users size size' Hle.
  assert (List.filter (fun user => gtb (UsedBytesFloat user) size')
            (List.filter (fun user => gtb (UsedBytesFloat user) size)
               (Data users))
          = List.filter (fun user => gtb (UsedBytesFloat user) size')
              (Data users)) as Hff.
  { apply filter_filter_implied. intros user Hgt.
    exact (gtb_leb_trans _ _ _ Hgt Hle). }
  split.
  - unfold filterUsersBySize. cbn [fst Data]. now rewrite Hff.
  - unfold filterUsersBySize. cbn [fst Data]. rewrite <- Hff.
    apply filter_sublist.
Qed.

Lemma filterUsersBySize_raise_witness :
  filterUsersBySize
    (fst (filterUsersBySize
            (batch [set_UsedBytesFloat (fresh "ann" "512 bytes") (of_Z 512);
                    set_UsedBytesFloat (fresh "bob" "2 KB") (of_Z 2000)])
            (of_Z 100)))
    (of_Z 1000)
  = filterUsersBySize
      (batch [set_UsedBytesFloat (fresh "ann" "512 bytes") (of_Z 512);
              set_UsedBytesFloat (fresh "bob" "2 KB") (of_Z 2000)])
      (of_Z 1000).
Proof.
  apply (filterUsersBySize_raise
           (batch [set_UsedBytesFloat (fresh "ann" "512 bytes") (of_Z 512);
                   set_UsedBytesFloat (fresh "bob" "2 KB") (of_Z 2000)])
           (of_Z 100) (of_Z 1000)).
  reflexivity.
Defined.

End FilterFacts.

(** ** [GetAllUsers]: every list of records *)

Section PagingMore.
Import Float64 Backupify.
Local Open Scope list_scope.

(** Once the loop has ended, the call returns when every record can be
    cut at a space. *)
Lemma GetAllUsers_break (url : string) (fuel : nat) (p : Provider)
    (w w1 : World) (allU : Users) :
  GetCache (cache w) (now w) url = None ->
  fetch_loop fuel p userPayload0 zeroUsers
    (print [Println "Getting all users from Backupify..."] w)
  = LoopBreak allU w1 ->
  forallb spaced (Data allU) = true ->
  exists users evs w',
    GetAllUsers url fuel p w = Returned users None w'
    /\ convertUserBytes allU false = Some (users, evs)
    /\ sent w' = sent w1.
Proof.
  intros Hmiss Hloop Hsp. unfold GetAllUsers. simpl cache. simpl now.
  rewrite Hmiss, Hloop.
  destruct (convertUserBytes allU false) as [[users evs]|] eqn:Hc.
  - do 3 eexists. split; [reflexivity |]. split; reflexivity.
  - exfalso. unfold convertUserBytes in Hc.
    destruct (run_tasks (units false) (Data allU)) as [[data evs]|] eqn:Hr;
      [discriminate Hc |].
    apply run_tasks_None in Hr. congruence.
Qed.

Lemma convertUserBytes_fields (users users' : Users) (useBinary : bool)
    (evs : list Event) :
  convertUserBytes users useBinary = Some (users', evs) ->
  List.map Name (Data users') = List.map Name (Data users)
  /\ List.map UsedBytes (Data users') = List.map UsedBytes (Data users)
  /\ Draw users' = Draw users
  /\ RecordsTotal users' = RecordsTotal users
  /\ RecordsFiltered users' = RecordsFiltered users.
Proof.
  unfold convertUserBytes.
  destruct (run_tasks (units useBinary) (Data users)) as [[data evs']|]
    eqn:Hr; [| discriminate].
  intros [= <- <-]. cbn [Data Draw RecordsTotal RecordsFiltered].
  destruct (run_tasks_keeps _ _ _ _ Hr) as (Hn & Hb & _).
  auto.
Qed.


(** The loop with a window of [d] records, at most half the total, from
    its request number [k]: it asks for the windows at [d k], [d (k + 1)],
    ... up to the first one past the total, and gathers the records from
    [d k] on. *)
Lemma fetch_loop_stride (all : list User) (d : nat) :
  (0 < d)%nat -> (2 * d <= length all)%nat ->
  Z.of_nat (length all) <= 2 ^ 62 ->
  forall (fuel k : nat) (payload : UserPayload) (allU : Users) (w : World),
    Start payload = Z.of_nat (d * k) -> Length payload = Z.of_nat d ->
    (k <= length all / d + 1)%nat -> (length all / d + 2 <= fuel + k)%nat ->
    exists w',
      fetch_loop fuel (serve all) payload allU w
      = LoopBreak {| Draw := 1; RecordsTotal := Z.of_nat (length all);
                     RecordsFiltered := Z.of_nat (length all);
                     Data := Data allU ++ skipn (d * k) all |} w'
      /\ List.map window (sent w')
         = List.map window (sent w)
           ++ List.map (fun i : nat => (Z.of_nat (d * i), Z.of_nat d))
                (seq k (length all / d + 2 - k)).
Proof.
  intros Hd H2 Hbig.
  set (q := (length all / d)%nat).
  assert (d * q <= length all < d * (q + 1))%nat as Hq.
  { unfold q. pose proof (Nat.div_mod_eq (length all) d) as E.
    pose proof (Nat.mod_upper_bound (length all) d ltac:(lia)) as U.
    rewrite Nat.mul_add_distr_l, Nat.mul_1_r. lia. }
  induction fuel as [|fuel IH]; intros k payload allU w HS HL Hk Hfuel.
  - lia.
  - rewrite fetch_loop_serve. cbv zeta. rewrite HS, HL.
    replace ((Z.of_nat (d * k) <? 0) || (Z.of_nat d <? 0)) with false
      by (symmetry; apply orb_false_intro; apply Z.ltb_ge; lia).
    unfold int_sub, int_add.
    rewrite (wrap_small (Z.of_nat (length all) - Z.of_nat d)) by lia.
    replace (Z.of_nat (length all) - Z.of_nat d <? Z.of_nat d) with false
      by (symmetry; apply Z.ltb_ge; lia).
    rewrite !Nat2Z.id.
    destruct (Z.leb_spec (Z.of_nat (d * k)) (Z.of_nat (length all)))
      as [Hle | Hgt].
    + assert (k <= q)%nat as Hkq by nia.
      rewrite wrap_small by lia.
      match goal with
      | |- context [fetch_loop fuel _ ?pl ?al ?w1] =>
          destruct (IH (S k) pl al w1) as (w' & Hrun & Hs)
      end.
      * cbn [Start set_Start]. rewrite Nat.mul_succ_r. lia.
      * reflexivity.
      * lia.
      * lia.
      * exists w'. split.
        -- rewrite Hrun. cbn [Data Draw RecordsTotal RecordsFiltered].
           do 2 f_equal. rewrite <- app_assoc. f_equal.
           rewrite Nat.mul_succ_r, <- drop_drop.
           apply firstn_skipn.
        -- rewrite Hs. cbn [sent]. rewrite map_app, <- app_assoc. f_equal.
           replace (q + 2 - k)%nat with (S (q + 2 - S k)) by lia.
           cbn [seq List.map app]. unfold window. rewrite HS, HL.
           reflexivity.
    + assert (k = q + 1)%nat as -> by nia.
      eexists. split.
      * do 2 f_equal. rewrite skipn_all2 by lia. now rewrite app_nil_r.
      * cbn [sent]. rewrite map_app. f_equal.
        replace (q + 2 - (q + 1))%nat with 1%nat by lia.
        cbn [seq List.map]. unfold window. rewrite HS, HL. reflexivity.
Qed.

(** X13: against a provider of at least 150 records, all of them with a
    space in the size string, a call that misses the cache returns all the
    records once each, in the provider's order and with their names and
    strings, after one request per window of 75 from 0 to the first one
    past the total. *)
Theorem GetAllUsers_returns_all :
  forall (url : string) (all : list User) (fuel : nat) (w : World),
    (150 <= length all)%nat -> Z.of_nat (length all) <= 2 ^ 62 ->
    forallb spaced all = true ->
    GetCache (cache w) (now w) url = None ->
    (length all / 75 + 2 <= fuel)%nat ->
    exists users evs w',
      GetAllUsers url fuel (serve all) w = Returned users None w'
      /\ convertUserBytes
           {| Draw := 1; RecordsTotal := Z.of_nat (length all);
              RecordsFiltered := Z.of_nat (length all); Data := all |}
           false
         = Some (users, evs)
      /\ List.map Name (Data users) = List.map Name all
      /\ List.map UsedBytes (Data users) = List.map UsedBytes all
      /\ RecordsTotal users = Z.of_nat (length all)
      /\ List.map window (sent w')
         = List.map window (sent w)
           ++ List.map (fun i : nat => (75 * Z.of_nat i, 75))
                (seq 0 (length all / 75 + 2)).
Proof.
  intros url all fuel w Hlen Hbig Hsp Hmiss Hfuel.
  destruct (fetch_loop_stride all 75 ltac:(lia) ltac:(lia) Hbig fuel 0
              userPayload0 zeroUsers
              (print [Println "Getting all users from Backupify..."] w))
    as (w1 & Hloop & Hsent); try reflexivity; try lia.
  change (75 * 0)%nat with 0%nat in Hloop.
  change (Data zeroUsers ++ skipn 0 all) with all in Hloop.
  destruct (GetAllUsers_break url fuel (serve all) w w1 _ Hmiss Hloop Hsp)
    as (users & evs & w' & Hret & Hconv & Hw').
  exists users, evs, w'. split; [exact Hret |]. split; [exact Hconv |].
  destruct (convertUserBytes_fields _ _ _ _ Hconv)
    as (Hn & Hb & _ & Ht & _).
  split; [exact Hn |]. split; [exact Hb |]. split; [exact Ht |].
  rewrite Hw', Hsent. cbn [sent print]. f_equal.
  rewrite Nat.sub_0_r. apply List.map_ext. intros i.
  rewrite Nat2Z.inj_mul. reflexivity.
Qed.

Lemma GetAllUsers_returns_all_witness :
  exists users evs w',
    GetAllUsers sample_url 4 (serve (records 180)) world0
    = Returned users None w'
    /\ convertUserBytes
         {| Draw := 1; RecordsTotal := Z.of_nat (length (records 180));
            RecordsFiltered := Z.of_nat (length (records 180));
            Data := records 180 |} false
       = Some (users, evs)
    /\ List.map Name (Data users) = List.map Name (records 180)
    /\ List.map UsedBytes (Data users) = List.map UsedBytes (records 180)
    /\ RecordsTotal users = Z.of_nat (length (records 180))
    /\ List.map window (sent w')
       = List.map window (sent world0)
         ++ List.map (fun i : nat => (75 * Z.of_nat i, 75))
              (seq 0 (length (records 180) / 75 + 2)).
Proof.
  apply (GetAllUsers_returns_all sample_url (records 180) 4 world0).
  - vm_compute. lia.
  - vm_compute. discriminate.
  - vm_compute. reflexivity.
  - reflexivity.
  - vm_compute. lia.
Defined.

(** The loop against a provider of at most 75 records, after its first
    turn: the window has the length [total - 75], which is not positive,
    and every turn moves it by that much; no page brings a record. *)
Lemma fetch_loop_stuck (all : list User) :
  (length all <= 75)%nat ->
  forall (n : nat) (k : Z) (payload : UserPayload) (allU : Users)
         (w : World),
    Start payload = (Z.of_nat (length all) - 75) * k ->
    Length payload = Z.of_nat (length all) - 75 ->
    1 <= k -> k + Z.of_nat n <= 122978293824730345 ->
    exists payload' allU' w',
      fetch_loop n (serve all) payload allU w
      = LoopOutOfFuel payload' allU' w'
      /\ Data allU' = Data allU
      /\ cache w' = cache w
      /\ List.map window (sent w')
         = List.map window (sent w)
           ++ List.map
                (fun i : nat =>
                   ((Z.of_nat (length all) - 75) * (k + Z.of_nat i),
                    Z.of_nat (length all) - 75))
                (seq 0 n).
Proof.
  intros Hlen. set (d := Z.of_nat (length all) - 75).
  assert (-75 <= d <= 0) as Hd by (unfold d; lia).
  induction n as [|n IH]; intros k payload allU w HS HL Hk Hbound.
  - do 3 eexists. split; [reflexivity |]. cbn [seq List.map].
    now rewrite app_nil_r.
  - rewrite fetch_loop_serve. cbv zeta. rewrite HS, HL.
    unfold int_sub, int_add.
    replace (Z.of_nat (length all) - d) with 75 by (unfold d; lia).
    change (wrap 75) with 75.
    replace (75 <? d) with false by (symmetry; apply Z.ltb_ge; lia).
    replace (d * k <=? Z.of_nat (length all)) with true
      by (symmetry; apply Z.leb_le; nia).
    assert ((if (d * k <? 0) || (d <? 0) then []
             else firstn (Z.to_nat d) (skipn (Z.to_nat (d * k)) all))
            = []) as ->.
    { destruct ((d * k <? 0) || (d <? 0)); [reflexivity |].
      replace (Z.to_nat d) with 0%nat by lia. reflexivity. }
    rewrite app_nil_r.
    destruct n as [|n].
    + do 3 eexists. split; [reflexivity |].
      split; [reflexivity | split; [reflexivity |]].
      cbn [sent]. rewrite map_app. cbn [List.map seq]. unfold window.
      rewrite HS, HL, Z.add_0_r. reflexivity.
    + assert (- 75 * (k + 1) <= d * (k + 1) <= 0) as Hdk by nia.
      rewrite wrap_small by lia.
      match goal with
      | |- context [fetch_loop (S n) _ ?pl ?al ?w1] =>
          destruct (IH (k + 1) pl al w1)
            as (payload' & allU' & w' & Hrun & Hdata & Hcache & Hs)
      end.
      * cbn [Start set_Start]. lia.
      * reflexivity.
      * lia.
      * lia.
      * exists payload', allU', w'. split; [exact Hrun |].
        split; [exact Hdata | split; [exact Hcache |]].
        rewrite Hs. cbn [sent]. rewrite map_app, <- app_assoc. f_equal.
        change (seq 0 (S (S n))) with (0%nat :: seq 1 (S n)).
        cbn [List.map app]. unfold window at 1.
        rewrite HS, HL, Z.add_0_r. f_equal.
        rewrite <- seq_shift, List.map_map.
        apply List.map_ext. intros i. f_equal. f_equal. lia.
Qed.

(** X14: against a provider of at most 75 records a call that misses the
    cache is still in its loop after any number of requests (up to
    122978293824730345, where the offset would leave the range of [int]):
    after the first page, which brings every record, each request asks for
    a window of length [total - 75] another [total - 75] further on, that
    is the same empty window at 0 for 75 records and windows below 0 for
    fewer.  Nothing is returned and nothing is cached. *)
Theorem GetAllUsers_short_list_loops :
  forall (url : string) (all : list User) (fuel : nat) (w : World),
    (length all <= 75)%nat ->
    GetCache (cache w) (now w) url = None ->
    (1 <= fuel)%nat -> Z.of_nat fuel <= 122978293824730345 ->
    exists payload allU w',
      GetAllUsers url fuel (serve all) w = OutOfFuel payload allU w'
      /\ Data allU = all
      /\ cache w' = cache w
      /\ List.map window (sent w')
         = List.map window (sent w)
           ++ (0, 75)
              :: List.map
                   (fun i : nat =>
                      ((Z.of_nat (length all) - 75) * (1 + Z.of_nat i),
                       Z.of_nat (length all) - 75))
                   (seq 0 (fuel - 1)).
Proof.
  intros url all fuel w Hlen Hmiss Hpos Hbound.
  destruct fuel as [|n]; [lia |].
  unfold GetAllUsers. simpl cache. simpl now. rewrite Hmiss.
  rewrite fetch_loop_serve. cbv zeta.
  change (Start userPayload0) with 0. change (Length userPayload0) with 75.
  unfold int_sub, int_add.
  rewrite (wrap_small (Z.of_nat (length all) - 75)) by lia.
  replace (Z.of_nat (length all) - 75 <? 75) with true
    by (symmetry; apply Z.ltb_lt; lia).
  replace (0 <=? Z.of_nat (length all)) with true
    by (symmetry; apply Z.leb_le; lia).
  rewrite wrap_small by lia.
  match goal with
  | |- context [fetch_loop n _ ?pl ?al ?w1] =>
      destruct (fetch_loop_stuck all Hlen n 1 pl al w1)
        as (payload' & allU' & w' & Hrun & Hdata & Hcache & Hs)
  end; try (cbn [Start Length set_Start set_Length]; lia).
  rewrite Hrun. exists payload', allU', w'. split; [reflexivity |].
  split; [| split; [exact Hcache |]].
  - rewrite Hdata. cbn [Data zeroUsers app orb Z.ltb Z.compare].
    change (Z.to_nat 0) with 0%nat. cbn [skipn].
    apply firstn_all2. change (Z.to_nat 75) with 75%nat. lia.
  - rewrite Hs. cbn [sent print]. rewrite map_app, <- app_assoc.
    replace (S n - 1)%nat with n by lia. reflexivity.
Qed.

Lemma GetAllUsers_short_list_loops_witness :
  exists payload allU w',
    GetAllUsers sample_url 3 (serve (records 75)) world0
    = OutOfFuel payload allU w'
    /\ Data allU = records 75
    /\ cache w' = cache world0
    /\ List.map window (sent w')
       = List.map window (sent world0)
         ++ (0, 75)
            :: List.map
                 (fun i : nat =>
                    ((Z.of_nat (length (records 75)) - 75)
                     * (1 + Z.of_nat i),
                     Z.of_nat (length (records 75)) - 75))
                 (seq 0 (3 - 1)).
Proof.
  apply (GetAllUsers_short_list_loops sample_url (records 75) 3 world0).
  - vm_compute. lia.
  - reflexivity.
  - lia.
  - vm_compute. discriminate.
Defined.



End PagingMore.

(** ** [GetAllUsers]: every provider *)

Section RunFacts.
Import Float64 Backupify.
Local Open Scope list_scope.

(** A loop that ended at its [break]: its requests were all answered, the
    last answer gave the totals, and the pages of the answers before it
    were appended in order. *)
Lemma fetch_loop_answers (p : Provider) (fuel : nat) :
  forall (payload : UserPayload) (allU : Users) (w : World)
         (allU' : Users) (w' : World),
    fetch_loop fuel p payload allU w = LoopBreak allU' w' ->
    exists payloads pages final,
      sent w' = sent w ++ payloads
      /\ answers p (length (sent w)) payloads = pages ++ [final]
      /\ length payloads = S (length pages)
      /\ Data allU' = Data allU ++ concat (List.map Data pages)
      /\ Draw allU' = Draw final
      /\ RecordsTotal allU' = RecordsTotal final
      /\ RecordsFiltered allU' = RecordsFiltered final.
Proof.
  induction fuel as [|fuel IH]; intros payload allU w allU' w' Hrun.
  - discriminate Hrun.
  - cbn [fetch_loop do] in Hrun.
    destruct (result (p (length (sent w)) payload)) as [users | err] eqn:Hres;
      [| discriminate Hrun].
    cbv zeta in Hrun.
    destruct (_ <=? _) in Hrun.
    + apply IH in Hrun as (payloads & pages & final & Hs & Ha & Hl & Hd
                           & Hdraw & Htotal & Hfiltered).
      cbn [sent Data] in Hs, Ha, Hd.
      exists (payload :: payloads), (users :: pages), final.
      rewrite Hs, <- app_assoc. split; [reflexivity |].
      cbn [answers]. rewrite Hres.
      rewrite length_app, Nat.add_1_r in Ha. rewrite Ha.
      split; [reflexivity |]. cbn [length]. split; [congruence |].
      cbn [List.map concat]. rewrite Hd, <- app_assoc. auto.
    + injection Hrun as <- <-.
      exists [payload], [], users. cbn [sent answers]. rewrite Hres.
      cbn [Data Draw RecordsTotal RecordsFiltered List.map concat].
      rewrite app_nil_r. auto 10.
Qed.

(** X16: when a call that missed the cache returns, every request it
    sent was answered; the records returned are those of all the answers
    but the last, in the order of the requests and with their names and
    strings, and the counts returned are those of the last answer, whose
    own records are left out. *)
Theorem GetAllUsers_aggregate :
  forall (url : string) (fuel : nat) (p : Provider) (w : World)
         (users : Users) (err : option error) (w' : World),
    GetCache (cache w) (now w) url = None ->
    GetAllUsers url fuel p w = Returned users err w' ->
    exists payloads pages final,
      sent w' = sent w ++ payloads
      /\ answers p (length (sent w)) payloads = pages ++ [final]
      /\ length payloads = S (length pages)
      /\ List.map Name (Data users)
         = List.map Name (concat (List.map Data pages))
      /\ List.map UsedBytes (Data users)
         = List.map UsedBytes (concat (List.map Data pages))
      /\ Draw users = Draw final
      /\ RecordsTotal users = RecordsTotal final
      /\ RecordsFiltered users = RecordsFiltered final.
Proof.
  intros url fuel p w users err w' Hmiss Hret.
  unfold GetAllUsers in Hret. simpl cache in Hret. simpl now in Hret.
  rewrite Hmiss in Hret.
  destruct (fetch_loop _ _ _ _ _) as [allU w1 | |] eqn:Hloop;
    try discriminate Hret.
  destruct (convertUserBytes allU false) as [[users' evs]|] eqn:Hconv;
    [| discriminate Hret].
  injection Hret as <- <- <-.
  apply fetch_loop_answers in Hloop
    as (payloads & pages & final & Hs & Ha & Hl & Hd & Hdraw & Htotal
        & Hfiltered).
  destruct (convertUserBytes_fields _ _ _ _ Hconv)
    as (Hn & Hb & Hdr & Ht & Hf).
  cbn [sent print Data zeroUsers app] in *.
  exists payloads, pages, final.
  rewrite Hn, Hb, Hdr, Ht, Hf, Hd. auto 10.
Qed.

Lemma GetAllUsers_aggregate_witness :
  exists users w' payloads pages final,
    GetAllUsers sample_url 4 (serve (records 180)) world0
    = Returned users None w'
    /\ sent w' = sent world0 ++ payloads
    /\ answers (serve (records 180)) (length (sent world0)) payloads
       = pages ++ [final]
    /\ length payloads = S (length pages)
    /\ List.map Name (Data users)
       = List.map Name (concat (List.map Data pages))
    /\ List.map UsedBytes (Data users)
       = List.map UsedBytes (concat (List.map Data pages))
    /\ Draw users = Draw final
    /\ RecordsTotal users = RecordsTotal final
    /\ RecordsFiltered users = RecordsFiltered final.
Proof.
  assert (exists users w',
             GetAllUsers sample_url 4 (serve (records 180)) world0
             = Returned users None w') as (users & w' & E)
    by (do 2 eexists; vm_compute; reflexivity).
  destruct (GetAllUsers_aggregate sample_url 4 (serve (records 180)) world0
              users None w' eq_refl E)
    as (payloads & pages & final & H).
  exists users, w', payloads, pages, final. split; [exact E | exact H].
Defined.

Lemma same_query_Start (payload : UserPayload) (start : Z) :
  same_query payload -> same_query (set_Start payload start).
Proof. unfold same_query. destruct payload. exact (fun H => H). Qed.

Lemma same_query_Length (payload : UserPayload) (length : Z) :
  same_query payload -> same_query (set_Length payload length).
Proof. unfold same_query. destruct payload. exact (fun H => H). Qed.

(** The requests of a loop that starts with a request of the one query
    are all of that query, and the first is the one it starts with. *)
Lemma fetch_loop_same_query (p : Provider) (fuel : nat) :
  forall (payload : UserPayload) (allU : Users) (w : World) (i : nat)
         (pl : UserPayload),
    same_query payload ->
    (length (sent w) <= i)%nat ->
    sent (loop_world (fetch_loop fuel p payload allU w)) !! i = Some pl ->
    same_query pl /\ (i = length (sent w) -> pl = payload).
Proof.
  induction fuel as [|fuel IH]; intros payload allU w i pl Hq Hi Hsent.
  - simpl in Hsent. apply lookup_lt_Some in Hsent. lia.
  - assert (forall more,
               (sent w ++ payload :: more) !! i = Some pl ->
               (i = length (sent w) -> pl = payload)) as Hfirst.
    { intros more H ->. rewrite lookup_app_r, Nat.sub_diag in H by lia.
      now injection H as <-. }
    assert ((sent w ++ [payload]) !! i = Some pl ->
            same_query pl /\ (i = length (sent w) -> pl = payload))
      as Hone.
    { intros H. split; [| exact (Hfirst [] H)].
      rewrite lookup_app_r in H by lia.
      destruct (i - length (sent w))%nat as [|n];
        [| destruct n; discriminate H].
      now injection H as <-. }
    cbn [fetch_loop do] in Hsent.
    destruct (result (p (length (sent w)) payload)) as [users | err];
      [| exact (Hone Hsent)].
    cbv zeta in Hsent.
    destruct (_ <=? _) in Hsent; [| exact (Hone Hsent)].
    match type of Hsent with
    | context [fetch_loop fuel p ?pl' ?al ?w1] =>
        destruct (fetch_loop_sent fuel p pl' al w1) as (more & Hs & _);
        specialize (IH pl' al w1 i pl)
    end.
    cbn [sent] in Hs, IH.
    split.
    + destruct (decide (i = length (sent w))) as [-> | Hne].
      * rewrite Hs, <- app_assoc in Hsent.
        rewrite (Hfirst _ Hsent eq_refl). exact Hq.
      * apply IH; [| rewrite length_app; simpl; lia | exact Hsent].
        destruct (_ <? _);
          repeat first [apply same_query_Start | apply same_query_Length];
          exact Hq.
    + rewrite Hs, <- app_assoc in Hsent. exact (Hfirst _ Hsent).
Qed.

(** X17: every request a call sends asks the query of the literal in
    [GetAllUsers], draw "1" included; only the window differs, and the
    first request is the literal itself. *)
Theorem GetAllUsers_same_query :
  forall (url : string) (fuel : nat) (p : Provider) (w : World) (i : nat)
         (payload : UserPayload),
    (length (sent w) <= i)%nat ->
    sent (world_of (GetAllUsers url fuel p w)) !! i = Some payload ->
    same_query payload
    /\ PayloadDraw payload = "1"
    /\ AppType payload = "GoogleDrive"
    /\ (i = length (sent w) -> payload = userPayload0).
Proof.
  intros url fuel p w i payload Hi Hsent.
  assert (same_query payload
          /\ (i = length (sent w) -> payload = userPayload0)) as [Hq Hf].
  { destruct (GetCache (cache w) (now w) url) as [cached|] eqn:Hc.
    - unfold GetAllUsers in Hsent. simpl cache in Hsent.
      simpl now in Hsent. rewrite Hc in Hsent. simpl in Hsent.
      apply lookup_lt_Some in Hsent. lia.
    - rewrite (GetAllUsers_sent url fuel p w Hc) in Hsent.
      apply (fetch_loop_same_query p fuel userPayload0 zeroUsers
               (print [Println "Getting all users from Backupify..."] w));
        [reflexivity | exact Hi | exact Hsent]. }
  split; [exact Hq |]. split; [| split; [| exact Hf]].
  - apply (f_equal PayloadDraw) in Hq. exact Hq.
  - apply (f_equal AppType) in Hq. exact Hq.
Qed.

Lemma GetAllUsers_same_query_witness :
  same_query (set_Start userPayload0 150)
  /\ PayloadDraw (set_Start userPayload0 150) = "1"
  /\ AppType (set_Start userPayload0 150) = "GoogleDrive"
  /\ (2%nat = length (sent world0) ->
      set_Start userPayload0 150 = userPayload0).
Proof.
  apply (GetAllUsers_same_query sample_url 4 (serve (records 180)) world0
           2 (set_Start userPayload0 150)).
  - simpl. lia.
  - vm_compute. reflexivity.
Defined.

Lemma settle_keeps (k : Units) (data : list User) :
  List.map Name (fst (settle k data)) = List.map Name data
  /\ List.map UsedBytes (fst (settle k data)) = List.map UsedBytes data
  /\ forallb spaced (fst (settle k data)) = forallb spaced data
  /\ (forall user, In user data -> spaced user = false ->
      In user (fst (settle k data))).
Proof.
  induction data as [|u data (IHn & IHb & IHs & IHin)].
  - repeat split. intros user [].
  - cbn [settle].
    destruct (convertUser k u) as [u' ev|] eqn:Hu; cbn [fst List.map forallb].
    + destruct (convertUser_done _ _ _ _ Hu) as (Hn & Hb & _).
      assert (spaced u = true) as Hsp.
      { destruct (spaced u) eqn:E; [reflexivity |].
        apply (convertUser_panic_iff k) in E. congruence. }
      rewrite Hn, Hb, IHn, IHb, IHs. unfold spaced at 1. rewrite Hb.
      fold (spaced u). repeat split.
      intros user [<- | Hin] Hbad; [congruence |].
      right. now apply IHin.
    + rewrite IHn, IHb, IHs. repeat split.
      intros user [<- | Hin] Hbad; [now left |].
      right. now apply IHin.
Qed.

(** X18: the cache writes of a call.  A call writes at most the entry of
    its own URL, and only after a miss, once its loop has ended and the
    conversion tasks are through.  When it returns after a miss the entry
    holds what it returns and expires three hours later.  A call that
    ends at [c.Log.Fatal], that is still in its loop, or that finds its
    entry leaves the cache as it was.  A call that dies of a task's panic
    leaves the cache as it was when the process dies before
    [c.SetCache]; when [c.SetCache] has run by then, the entry of the URL
    holds the batch as the tasks left it, a record that cannot be cut
    among them. *)
Theorem GetAllUsers_cache_writes :
  forall (url : string) (fuel : nat) (p : Provider) (w w' : World),
    ends_in (GetAllUsers url fuel p w) w' ->
    (forall key : string, key <> url -> cache w' !! key = cache w !! key)
    /\ (results (GetAllUsers url fuel p w) = None ->
        (forall w1 late, GetAllUsers url fuel p w <> Panicked w1 late) ->
        cache w' = cache w)
    /\ (forall cached : Users,
           GetCache (cache w) (now w) url = Some cached ->
           cache w' = cache w /\ sent w' = sent w)
    /\ (forall (users : Users) (err : option error) (w1 : World),
           GetCache (cache w) (now w) url = None ->
           GetAllUsers url fuel p w = Returned users err w1 ->
           cache w'
           = <[url := {| value := users; expiresAt := now w' + 3 * Hour |}]>
               (cache w))
    /\ (forall w1 late : World,
           GetAllUsers url fuel p w = Panicked w1 late ->
           cache w1 = cache w
           /\ exists users,
                cache late
                = <[url := {| value := users;
                              expiresAt := now late + 3 * Hour |}]> (cache w)
                /\ forallb spaced (Data users) = false).
Proof.
  intros url fuel p w w'.
  pose proof (fetch_loop_cache fuel p userPayload0 zeroUsers
                (print [Println "Getting all users from Backupify..."] w))
    as Hcache.
  unfold GetAllUsers. simpl cache. simpl now.
  destruct (GetCache (cache w) (now w) url) as [cached|] eqn:Hc.
  - cbn [ends_in results]. intros ->. cbn [cache sent print].
    repeat split; try reflexivity; discriminate.
  - destruct (fetch_loop _ _ _ _ _) as [allU w1 | e w1 | pl allU w1];
      cbn [loop_world cache print] in Hcache;
      try (cbn [ends_in results]; intros ->; rewrite Hcache;
           repeat split; try reflexivity; discriminate).
    unfold convertUserBytes.
    destruct (run_tasks (units false) (Data allU)) as [[data evs]|] eqn:Hr.
    + cbn [ends_in results]. intros ->. cbn [cache print now].
      unfold SetCache. rewrite Hcache.
      split; [intros key Hkey; apply lookup_insert_ne; congruence |].
      split; [discriminate |]. split; [discriminate |].
      split; [| discriminate].
      intros users' err w' _ [= <- <- <-]. reflexivity.
    + apply run_tasks_None in Hr. cbv zeta. cbn [ends_in results].
      cbn [cache print now]. unfold SetCache. rewrite Hcache.
      intros Hend.
      split.
      { intros key Hkey. destruct Hend as [-> | ->]; cbn [cache].
        - now rewrite Hcache.
        - apply lookup_insert_ne. congruence. }
      split.
      { intros _ Hnot. exfalso. eapply Hnot. reflexivity. }
      split; [discriminate |]. split; [discriminate |].
      intros w1' late [= <- <-]. split; [exact Hcache |].
      eexists. split; [reflexivity |]. cbn [Data].
      destruct (settle_keeps (units false) (Data allU)) as (_ & _ & -> & _).
      exact Hr.
Qed.

Lemma GetAllUsers_cache_writes_witness :
  cache (world_of (GetAllUsers sample_url 1 (serve (records 180)) world0))
  = cache world0.
Proof.
  apply (proj1 (proj2 (GetAllUsers_cache_writes sample_url 1
                         (serve (records 180)) world0
                         (world_of (GetAllUsers sample_url 1
                                      (serve (records 180)) world0))
                         ltac:(vm_compute; reflexivity)))).
  - vm_compute. reflexivity.
  - intros w1 late. vm_compute. discriminate.
Defined.

End RunFacts.


(** ** [google.NewClient]: scopes, credentials, and what comes back *)

Section NewClientMore.
Import GoStrings Google.

Variable DedupeScopes : list string -> list string.
Variable LoadScopes : string -> list string + error.
Variable GetEnv : string -> string.
Variable ReadFile : string -> string + error.
Variable DecodeString : string -> string + error.
Variable Unmarshal : string -> option error.
Variable JWTConfigFromJSON : string -> list string -> string + error.
Variable Token : string -> string -> string + error.

Local Abbreviation New :=
  (NewClient DedupeScopes LoadScopes GetEnv ReadFile DecodeString Unmarshal
     JWTConfigFromJSON Token).

(** The service account data [NewClient] hands to [GenerateJWT]: under
    CICD the decoded variable, which has to be set and to decode; else the
    contents of the credentials file, nothing where it cannot be read. *)
Local Abbreviation key_data ac data :=
  (if CICD ac
   then GetEnv "GOOGLE_SERVICE_ACCOUNT" <> ""
        /\ DecodeString (GetEnv "GOOGLE_SERVICE_ACCOUNT") = inl data
   else data = match ReadFile (Credentials ac) with
               | inl file => file
               | inr _ => ""
               end).

Lemma load_scopes_error (pre post acc : list string) (service : string)
    (e : error) :
  Forall (fun s => exists x, LoadScopes s = inl x) pre ->
  LoadScopes service = inr e ->
  load_scopes LoadScopes (pre ++ service :: post)%list acc = inr e.
Proof.
  intros Hpre He. revert acc.
  induction Hpre as [|s pre [x Hx] _ IH]; intros acc;
    cbn [app load_scopes].
  - now rewrite He.
  - rewrite Hx. destruct (HasPrefix s _); apply IH.
Qed.

(** X19: the scopes are loaded before the credentials are looked at: when
    a service of the (deduplicated) list does not load, [NewClient]
    returns no client and the error of the first such service, whatever
    the type, the environment and the credentials. *)
Theorem NewClient_scope_error_first :
  forall (ac : AuthCredentials) (verbosity : Z) (pre post : list string)
         (service : string) (e : error),
    DedupeScopes (Scopes ac) = (pre ++ service :: post)%list ->
    Forall (fun s => exists x, LoadScopes s = inl x) pre ->
    LoadScopes service = inr e ->
    New ac verbosity = Return None (Some e).
Proof.
  intros ac verbosity pre post service e Hlist Hpre He.
  unfold NewClient. cbn [Auth Scopes set_Auth set_Scopes].
  rewrite Hlist, (load_scopes_error pre post [] service e Hpre He).
  reflexivity.
Qed.

(** X20: the scopes a client ends up with are, for each service in the
    order asked, the service itself when it is a scope URL (whatever
    [LoadScopes] knows under that name) and else the scopes [LoadScopes]
    gives for it; nothing is removed after the expansion. *)
Theorem load_scopes_flat_map :
  forall (services acc : list string) (f : string -> list string),
    Forall (fun s => LoadScopes s = inl (f s)) services ->
    load_scopes LoadScopes services acc
    = inl (acc
           ++ flat_map
                (fun s =>
                   if HasPrefix s "https://www.googleapis.com/auth/"
                   then [s] else f s)
                services)%list.
Proof.
  intros services acc f H. revert acc.
  induction H as [|s rest Hs _ IH]; intros acc; cbn [load_scopes flat_map].
  - now rewrite app_nil_r.
  - rewrite Hs.
    destruct (HasPrefix s "https://www.googleapis.com/auth/");
      rewrite IH, <- app_assoc; reflexivity.
Qed.

Lemma NewClient_SERVICE_ACCOUNT (ac : AuthCredentials) (verbosity : Z)
    (scopes : list string) (data : string) :
  AuthType ac = SERVICE_ACCOUNT ->
  load_scopes LoadScopes (DedupeScopes (Scopes ac)) [] = inl scopes ->
  key_data ac data ->
  New ac verbosity
  = match
      GenerateJWT JWTConfigFromJSON Token
        {| Auth := set_Scopes ac scopes; ClientBaseURL := BaseURL;
           Verbosity := verbosity; HTTP := None |} data
    with
    | Panic => Panic
    | Return _ (Some err) => Return None (Some err)
    | Return (Some h) None =>
        Return (Some {| Auth := set_Scopes ac scopes;
                        ClientBaseURL := BaseURL; Verbosity := verbosity;
                        HTTP := Some h |}) None
    | Return None None =>
        Return (Some {| Auth := set_Scopes ac scopes;
                        ClientBaseURL := BaseURL; Verbosity := verbosity;
                        HTTP := None |}) None
    end.
Proof.
  intros Ht Hload Hdata. unfold NewClient.
  cbn [Auth Scopes set_Auth set_Scopes]. rewrite Hload.
  cbn [Auth CICD AuthType Credentials ClientBaseURL Verbosity HTTP
       set_Auth set_Scopes].
  rewrite Ht.
  change (String.eqb SERVICE_ACCOUNT API_KEY) with false.
  change (String.eqb SERVICE_ACCOUNT OAUTH_CLIENT) with false.
  change (String.eqb SERVICE_ACCOUNT SERVICE_ACCOUNT) with true.
  cbv iota.
  destruct (CICD ac) eqn:Hc.
  - destruct Hdata as [Hset Hdec].
    rewrite (len_nonzero _ Hset), Hdec. reflexivity.
  - rewrite <- Hdata. reflexivity.
Qed.

(** X21: the client of a service account whose key data parses and for
    which a token is had: the credentials with the loaded scopes in the
    place of the services, the Google base URL, and an HTTP client that
    sends the token as bearer and is limited to 12000 requests.  The JWT
    is made for the loaded scopes and the subject of the credentials. *)
Theorem NewClient_service_account_client :
  forall (ac : AuthCredentials) (verbosity : Z) (scopes : list string)
         (data config token : string),
    AuthType ac = SERVICE_ACCOUNT ->
    load_scopes LoadScopes (DedupeScopes (Scopes ac)) [] = inl scopes ->
    key_data ac data ->
    JWTConfigFromJSON data scopes = inl config ->
    Token config (Subject ac) = inl token ->
    New ac verbosity
    = Return
        (Some {| Auth := set_Scopes ac scopes;
                 ClientBaseURL := "https://www.googleapis.com";
                 Verbosity := verbosity;
                 HTTP := Some {| Headers :=
                                   [("Accept", "application/json");
                                    ("Content-Type", "application/json");
                                    ("Authorization", "Bearer " ++ token)];
                                 RateLimit := 12000 |} |})
        None.
Proof.
  intros ac verbosity scopes data config token Ht Hload Hdata Hcfg Htok.
  rewrite (NewClient_SERVICE_ACCOUNT ac verbosity scopes data Ht Hload Hdata).
  unfold GenerateJWT. cbn [Auth Scopes Subject set_Scopes].
  rewrite Hcfg, Htok. reflexivity.
Qed.

(** X22: once the scopes have loaded, a service account whose key data
    does not parse, or for which no token is had, makes [NewClient]
    panic: [GenerateJWT] uses the configuration and the token before it
    looks at their errors, which it only logs, so no error comes back to
    the caller.  An unreadable
    credentials file is such a case when nothing parses as a key.  And
    [NewClient] panics for no other type. *)
Theorem NewClient_service_account_panics :
  (forall (ac : AuthCredentials) (verbosity : Z) (scopes : list string)
          (data : string),
      AuthType ac = SERVICE_ACCOUNT ->
      load_scopes LoadScopes (DedupeScopes (Scopes ac)) [] = inl scopes ->
      key_data ac data ->
      (exists e, JWTConfigFromJSON data scopes = inr e)
      \/ (exists config e,
             JWTConfigFromJSON data scopes = inl config
             /\ Token config (Subject ac) = inr e) ->
      New ac verbosity = Panic)
  /\ (forall (ac : AuthCredentials) (verbosity : Z),
         New ac verbosity = Panic -> AuthType ac = SERVICE_ACCOUNT).
Proof.
  split.
  - intros ac verbosity scopes data Ht Hload Hdata Hfail.
    rewrite (NewClient_SERVICE_ACCOUNT ac verbosity scopes data Ht Hload
               Hdata).
    unfold GenerateJWT. cbn [Auth Scopes Subject set_Scopes].
    destruct Hfail as [[e He] | (config & e & Hcfg & He)].
    + now rewrite He.
    + now rewrite Hcfg, He.
  - intros ac verbosity. unfold NewClient.
    cbn [Auth Scopes set_Auth set_Scopes].
    destruct (load_scopes _ _ _) as [scopes | e]; [| discriminate].
    cbn [Auth CICD AuthType Credentials set_Auth set_Scopes].
    destruct (CICD ac);
      (destruct (String.eqb (AuthType ac) API_KEY);
       [destruct (_ <=? _); discriminate |]);
      (destruct (String.eqb (AuthType ac) OAUTH_CLIENT);
       [repeat match goal with
          | |- context [match ?x with _ => _ end] => destruct x
          end; discriminate |]);
      (destruct (String.eqb_spec (AuthType ac) SERVICE_ACCOUNT) as [Hsa |];
       [| discriminate]);
      intros _; exact Hsa.
Qed.

(** X23: credentials that are not there, once the scopes have loaded
    (a service that does not load is reported first).  An empty API key
    (the variable GOOGLE_API_KEY under CICD, the credentials argument
    otherwise) gives the error "GOOGLE_API_KEY is not set"; under CICD an empty
    GOOGLE_OAUTH_CLIENT or GOOGLE_SERVICE_ACCOUNT gives the error that
    names it, and a value that is not base64 gives the decoder's error;
    no client comes back. *)
Theorem NewClient_missing_credentials :
  forall (ac : AuthCredentials) (verbosity : Z) (scopes : list string),
    load_scopes LoadScopes (DedupeScopes (Scopes ac)) [] = inl scopes ->
    (AuthType ac = API_KEY ->
     (if CICD ac then GetEnv "GOOGLE_API_KEY" else Credentials ac) = "" ->
     New ac verbosity = Return None (Some "GOOGLE_API_KEY is not set"))
    /\ (CICD ac = true -> AuthType ac = OAUTH_CLIENT ->
        (GetEnv "GOOGLE_OAUTH_CLIENT" = "" ->
         New ac verbosity
         = Return None (Some "GOOGLE_OAUTH_CLIENT is not set"))
        /\ (forall e,
               GetEnv "GOOGLE_OAUTH_CLIENT" <> "" ->
               DecodeString (GetEnv "GOOGLE_OAUTH_CLIENT") = inr e ->
               New ac verbosity = Return None (Some e)))
    /\ (CICD ac = true -> AuthType ac = SERVICE_ACCOUNT ->
        (GetEnv "GOOGLE_SERVICE_ACCOUNT" = "" ->
         New ac verbosity
         = Return None (Some "GOOGLE_SERVICE_ACCOUNT is not set"))
        /\ (forall e,
               GetEnv "GOOGLE_SERVICE_ACCOUNT" <> "" ->
               DecodeString (GetEnv "GOOGLE_SERVICE_ACCOUNT") = inr e ->
               New ac verbosity = Return None (Some e))).
Proof.
  intros ac verbosity scopes Hload. unfold NewClient.
  cbn [Auth Scopes set_Auth set_Scopes]. rewrite Hload.
  cbn [Auth CICD AuthType Credentials set_Auth set_Scopes].
  split; [| split].
  - intros -> Hkey.
    change (String.eqb API_KEY API_KEY) with true. cbv iota.
    destruct (CICD ac); rewrite Hkey; reflexivity.
  - intros -> ->.
    change (String.eqb OAUTH_CLIENT API_KEY) with false.
    change (String.eqb OAUTH_CLIENT OAUTH_CLIENT) with true. cbv iota.
    split.
    + intros ->. reflexivity.
    + intros e Hset Hdec. now rewrite (len_nonzero _ Hset), Hdec.
  - intros -> ->.
    change (String.eqb SERVICE_ACCOUNT API_KEY) with false.
    change (String.eqb SERVICE_ACCOUNT OAUTH_CLIENT) with false.
    change (String.eqb SERVICE_ACCOUNT SERVICE_ACCOUNT) with true. cbv iota.
    split.
    + intros ->. reflexivity.
    + intros e Hset Hdec. now rewrite (len_nonzero _ Hset), Hdec.
Qed.

(** X24: a type that is none of the three constants gives neither a
    client nor an error, once the scopes have loaded. *)
Theorem NewClient_unknown_type :
  forall (ac : AuthCredentials) (verbosity : Z) (scopes : list string),
    load_scopes LoadScopes (DedupeScopes (Scopes ac)) [] = inl scopes ->
    AuthType ac <> API_KEY -> AuthType ac <> OAUTH_CLIENT ->
    AuthType ac <> SERVICE_ACCOUNT ->
    New ac verbosity = Return None None.
Proof.
  intros ac verbosity scopes Hload Hk Ho Hs. unfold NewClient.
  cbn [Auth Scopes set_Auth set_Scopes]. rewrite Hload.
  cbn [Auth CICD AuthType Credentials set_Auth set_Scopes].
  apply String.eqb_neq in Hk, Ho, Hs. rewrite Hk, Ho, Hs.
  destruct (CICD ac); reflexivity.
Qed.

End NewClientMore.

Lemma NewClient_scope_error_first_witness :
  Google.sample_NewClient
    {| Google.CICD := true; Google.AuthType := Google.API_KEY;
       Google.Scopes := ["Admin SDK API"; "Vault API"; "Drive API"];
       Google.Subject := ""; Google.Credentials := "" |} 1
  = Google.Return None (Some "unknown service: Vault API").
Proof.
  apply (NewClient_scope_error_first (fun scopes => scopes)
           Google.sample_LoadScopes Google.sample_GetEnv
           (fun _ => inr "no such file") Google.sample_DecodeString
           Google.sample_Unmarshal (fun _ _ => inr "no key")
           (fun _ _ => inr "no token") _ 1
           ["Admin SDK API"] ["Drive API"] "Vault API").
  - reflexivity.
  - repeat constructor. eexists. reflexivity.
  - reflexivity.
Defined.

Lemma load_scopes_flat_map_witness :
  Google.load_scopes Google.sample_LoadScopes
    ["Admin SDK API"; "https://www.googleapis.com/auth/drive"] []
  = inl ([]
         ++ flat_map
              (fun s =>
                 if GoStrings.HasPrefix s "https://www.googleapis.com/auth/"
                 then [s]
                 else
                   if String.eqb s "Admin SDK API"
                   then ["https://www.googleapis.com/auth/admin.directory.user"]
                   else [s])
              ["Admin SDK API"; "https://www.googleapis.com/auth/drive"])%list.
Proof.
  apply (load_scopes_flat_map Google.sample_LoadScopes
           ["Admin SDK API"; "https://www.googleapis.com/auth/drive"] []
           (fun s =>
              if String.eqb s "Admin SDK API"
              then ["https://www.googleapis.com/auth/admin.directory.user"]
              else [s])).
  repeat constructor.
Defined.

Lemma NewClient_service_account_client_witness :
  Google.sample_NewClient_local (Google.sample_service_account "key.json") 1
  = Google.Return
      (Some {| Google.Auth :=
                 Google.set_Scopes (Google.sample_service_account "key.json")
                   ["https://www.googleapis.com/auth/admin.directory.user";
                    "https://www.googleapis.com/auth/drive"];
               Google.ClientBaseURL := "https://www.googleapis.com";
               Google.Verbosity := 1;
               Google.HTTP :=
                 Some {| Google.Headers :=
                           [("Accept", "application/json");
                            ("Content-Type", "application/json");
                            ("Authorization",
                             "Bearer " ++ "token for admin@example.com")];
                         Google.RateLimit := 12000 |} |})
      None.
Proof.
  apply (NewClient_service_account_client (fun scopes => scopes)
           Google.sample_LoadScopes (fun _ => "") Google.sample_ReadFile
           Google.sample_DecodeString Google.sample_Unmarshal
           Google.sample_JWTConfigFromJSON Google.sample_Token
           (Google.sample_service_account "key.json") 1 _
           "service account key" "service account key").
  - reflexivity.
  - reflexivity.
  - reflexivity.
  - reflexivity.
  - reflexivity.
Defined.

Lemma NewClient_service_account_panics_witness :
  Google.sample_NewClient_local
    (Google.sample_service_account "missing.json") 1
  = Google.Panic.
Proof.
  apply (proj1 (NewClient_service_account_panics (fun scopes => scopes)
                  Google.sample_LoadScopes (fun _ => "")
                  Google.sample_ReadFile Google.sample_DecodeString
                  Google.sample_Unmarshal Google.sample_JWTConfigFromJSON
                  Google.sample_Token)
           (Google.sample_service_account "missing.json") 1
           ["https://www.googleapis.com/auth/admin.directory.user";
            "https://www.googleapis.com/auth/drive"] "").
  - reflexivity.
  - reflexivity.
  - reflexivity.
  - left. eexists. reflexivity.
Defined.

Lemma NewClient_missing_credentials_witness :
  Google.sample_NewClient_local Google.sample_api_key 1
  = Google.Return None (Some "GOOGLE_API_KEY is not set").
Proof.
  apply (proj1 (NewClient_missing_credentials (fun scopes => scopes)
                  Google.sample_LoadScopes (fun _ => "")
                  Google.sample_ReadFile Google.sample_DecodeString
                  Google.sample_Unmarshal Google.sample_JWTConfigFromJSON
                  Google.sample_Token Google.sample_api_key 1
                  ["https://www.googleapis.com/auth/admin.directory.user"]
                  eq_refl)).
  - reflexivity.
  - reflexivity.
Defined.

Lemma NewClient_unknown_type_witness :
  Google.sample_NewClient
    {| Google.CICD := true; Google.AuthType := "apikey";
       Google.Scopes := ["Admin SDK API"];
       Google.Subject := ""; Google.Credentials := "" |} 1
  = Google.Return None None.
Proof.
  apply (NewClient_unknown_type (fun scopes => scopes)
           Google.sample_LoadScopes Google.sample_GetEnv
           (fun _ => inr "no such file") Google.sample_DecodeString
           Google.sample_Unmarshal (fun _ _ => inr "no key")
           (fun _ _ => inr "no token") _ 1
           ["https://www.googleapis.com/auth/admin.directory.user"]).
  - reflexivity.
  - discriminate.
  - discriminate.
  - discriminate.
Defined.

(** ** [okta.NewClient] and [BuildURL] together *)

Section OktaURLs.
Import GoStrings Okta.

(** X25: the URLs of a client made by [okta.NewClient]: for an
    organisation name [o] and a base domain [b] in the environment, bare
    or decorated, each of the seven endpoints with its identifiers is
    ["https://o.b.com/api/v1"], the endpoint's path and the identifiers
    after a slash each; percent signs in the names are kept as they
    are. *)
Theorem okta_NewClient_BuildURL :
  forall (GetEnv : string -> string -> string) (verbosity : Z)
         (o b p s l r s' endpoint : string) (ids : list string),
    bare_org o -> bare_base b ->
    In p [""; "https://"; "http://"] -> In s [""; ".okta.com"] ->
    all_in_cutset l "./" = true -> all_in_cutset r "./" = true ->
    In s' [""; ".com"] ->
    GetEnv "OKTA_ORG_NAME" "yourOktaDomain" = p ++ o ++ s ->
    GetEnv "OKTA_BASE_URL" "okta.com" = l ++ b ++ s' ++ r ->
    In endpoint endpoints ->
    BuildURL (NewClient GetEnv verbosity) endpoint ids
    = "https://" ++ o ++ "." ++ b ++ ".com/api/v1" ++ drop 2 endpoint
      ++ Fmt.segments ids.
Proof.
  intros GetEnv verbosity o b p s l r s' endpoint ids Ho Hb Hp Hs Hl Hr Hs'
    Eo Eb Hin.
  unfold BuildURL. rewrite fold_segments.
  unfold NewClient. cbn [ClientBaseURL]. rewrite Sprintf_BaseURL, Eo, Eb.
  rewrite (normalise_org o p s Ho Hp Hs).
  rewrite (normalise_base b l r s' Hb Hl Hr Hs').
  set (base := "https://" ++ o ++ "." ++ b ++ ".com/api/v1").
  assert (Fmt.Sprintf endpoint [base] = base ++ drop 2 endpoint) as ->.
  { unfold endpoints in Hin. simpl in Hin.
    repeat (destruct Hin as [<- | Hin]; [reflexivity |]).
    contradiction. }
  unfold base. rewrite !app_assoc_string. reflexivity.
Qed.

Lemma okta_NewClient_BuildURL_witness :
  BuildURL (NewClient sample_GetEnv 1) OktaGroupRules ["0pr3"; "lifecycle"]
  = "https://" ++ "acme" ++ "." ++ "okta" ++ ".com/api/v1"
    ++ drop 2 OktaGroupRules ++ Fmt.segments ["0pr3"; "lifecycle"].
Proof.
  apply (okta_NewClient_BuildURL sample_GetEnv 1
           "acme" "okta" "https://" ".okta.com" "/" "/" ".com").
  - repeat split.
  - repeat split. discriminate.
  - simpl. tauto.
  - simpl. tauto.
  - reflexivity.
  - reflexivity.
  - simpl. tauto.
  - reflexivity.
  - reflexivity.
  - simpl. tauto.
Defined.

End OktaURLs.

(** ** [GetAllUsers]: a record that cannot be cut *)

Section PagingPanic.
Import Float64 Backupify.
Local Open Scope list_scope.

(** X26: one record without a space in its size string, anywhere among
    at least 150 records, and a call that misses the cache dies of the
    panic of that record's task, after every page has been asked for.
    The cache is as it was when the process dies before [c.SetCache];
    when [c.SetCache] has run by then, the entry of the URL holds every
    record of the provider under its name, the records without a space
    as they came. *)
Theorem GetAllUsers_unspaced_record_panics :
  forall (url : string) (all : list User) (fuel : nat) (w : World),
    (150 <= length all)%nat -> Z.of_nat (length all) <= 2 ^ 62 ->
    forallb spaced all = false ->
    GetCache (cache w) (now w) url = None ->
    (length all / 75 + 2 <= fuel)%nat ->
    exists (w1 late : World) (users : Users),
      GetAllUsers url fuel (serve all) w = Panicked w1 late
      /\ cache w1 = cache w
      /\ cache late
         = <[url := {| value := users; expiresAt := now late + 3 * Hour |}]>
             (cache w)
      /\ List.map Name (Data users) = List.map Name all
      /\ (forall user : User,
             In user all -> spaced user = false -> In user (Data users))
      /\ sent late = sent w1
      /\ List.map window (sent w1)
         = List.map window (sent w)
           ++ List.map (fun i : nat => (75 * Z.of_nat i, 75))
                (seq 0 (length all / 75 + 2)).
Proof.
  intros url all fuel w Hlen Hbig Hsp Hmiss Hfuel.
  destruct (fetch_loop_stride all 75 ltac:(lia) ltac:(lia) Hbig fuel 0
              userPayload0 zeroUsers
              (print [Println "Getting all users from Backupify..."] w))
    as (w1 & Hloop & Hsent); try reflexivity; try lia.
  change (75 * 0)%nat with 0%nat in Hloop.
  change (Data zeroUsers ++ skipn 0 all) with all in Hloop.
  pose proof (fetch_loop_cache fuel (serve all) userPayload0 zeroUsers
                (print [Println "Getting all users from Backupify..."] w))
    as Hcache.
  rewrite Hloop in Hcache. cbn [loop_world cache print] in Hcache.
  unfold GetAllUsers. simpl cache. simpl now. rewrite Hmiss, Hloop.
  unfold convertUserBytes. cbn [Data].
  rewrite (proj2 (run_tasks_None (units false) all) Hsp). cbv zeta.
  destruct (settle_keeps (units false) all) as (Hn & _ & _ & Hin).
  do 3 eexists. split; [reflexivity |].
  split; [exact Hcache |].
  cbn [cache print now sent]. unfold SetCache. rewrite Hcache.
  split; [reflexivity |]. cbn [Data].
  split; [exact Hn |]. split; [exact Hin |]. split; [reflexivity |].
  rewrite Hsent. cbn [sent print]. f_equal.
  rewrite Nat.sub_0_r. apply List.map_ext. intros i.
  rewrite Nat2Z.inj_mul. reflexivity.
Qed.

Lemma GetAllUsers_unspaced_record_panics_witness :
  exists (w1 late : World) (users : Users),
    GetAllUsers sample_url 4 (serve (records 180 ++ [fresh "eve" "N/A"]))
      world0
    = Panicked w1 late
    /\ cache w1 = cache world0
    /\ cache late
       = <[sample_url := {| value := users;
                            expiresAt := now late + 3 * Hour |}]>
           (cache world0)
    /\ List.map Name (Data users)
       = List.map Name (records 180 ++ [fresh "eve" "N/A"])
    /\ (forall user : User,
           In user (records 180 ++ [fresh "eve" "N/A"]) ->
           spaced user = false -> In user (Data users))
    /\ sent late = sent w1
    /\ List.map window (sent w1)
       = List.map window (sent world0)
         ++ List.map (fun i : nat => (75 * Z.of_nat i, 75))
              (seq 0 (length (records 180 ++ [fresh "eve" "N/A"]) / 75 + 2)).
Proof.
  apply (GetAllUsers_unspaced_record_panics sample_url
           (records 180 ++ [fresh "eve" "N/A"]) 4 world0).
  - vm_compute. lia.
  - vm_compute. discriminate.
  - vm_compute. reflexivity.
  - reflexivity.
  - vm_compute. lia.
Defined.

End PagingPanic.
